(** * RE : ZERO -- the story state, the generation turn and the save files

    A shallow embedding of the Python sources
      zero/common/adventure.py   (class Adventure)
      zero/common/utils.py       (get_save_name)
      zero/main/ui/play.py       (classes PlayScreen and MenuPopup)
      zero/main/ui/menu.py       (class MenuScreen)
      zero/main/app.py           (the save files and the filter modules)
    and the properties of the story/orchestration core proved about it.

    Conventions of the embedding.
    - A Python [str] is a [string]; its characters are the code points
      below 256.  [None] is modelled by [option] where the source lets a
      field or an argument be [None].
    - A Python [int] is a [Z]; an index that the source only ever computes
      from a non-negative literal is a [nat].
    - A method that mutates [self] takes the state and returns the new one;
      a method that can raise returns an [outcome] next to the state it
      leaves behind, since what was mutated before the raise stays mutated.
    - The adventure is typed as the source annotates it: its actions and
      results are lists of texts.  The one statement of the code that can
      put [None] into such a list is marked ([Py.Untyped]), and a run is
      followed up to that statement. *)

From Stdlib Require Import ZArith QArith Lia Ascii String.
From stdpp Require Import base option list strings gmap.

Local Open Scope string_scope.
Local Open Scope list_scope.

(** ** Python values used by several modules *)

Module Py.

(** Truth value of an [Optional[str]]: [None] and [''] are false. *)
Definition truthy (o : option string) : bool :=
  match o with
  | Some s => negb (String.eqb s "")
  | None => false
  end.

(** Truth value of a [str]. *)
Definition nonempty (s : string) : bool := negb (String.eqb s "").

(** [PySlice_AdjustIndices] for step 1: a negative index counts from the
    end, and whatever is still outside [0, len] is moved to the nearer
    bound. *)
Definition adjust_index (len i : Z) : Z :=
  if (i <? 0)%Z then Z.max 0 (i + len) else Z.min i len.

(** [l[start:stop]] *)
Definition slice {A} (l : list A) (start stop : Z) : list A :=
  let len := Z.of_nat (length l) in
  let lo := adjust_index len start in
  let hi := adjust_index len stop in
  take (Z.to_nat (hi - lo)) (drop (Z.to_nat lo) l).

(** [sep.join(l)] *)
Fixpoint join (sep : string) (l : list string) : string :=
  match l with
  | [] => ""
  | [s] => s
  | s :: rest => s ++ sep ++ join sep rest
  end.

(** The exceptions that the modelled code raises or handles.
    [FunctionTimedOut] is func_timeout's exception; it derives from
    [BaseException], not from [Exception].  [GeneratorError] stands for any
    [Exception] subclass raised inside the text generator and
    [BaseExceptionOther] for a [BaseException] that is not an [Exception]
    ([KeyboardInterrupt], [SystemExit], ...).

    [Untyped] is not an exception of Python.  It marks the one statement
    at which the code puts a value of another type than the annotated one
    into the adventure ([None] among the results, which are [List[str]]).
    The typed state has no place for that value, so the model follows the
    run no further: the mark is passed on like a [BaseException] that
    nothing handles, and the state given with it is the state before the
    marked statement. *)
Inductive exn : Type :=
  | FunctionTimedOut
  | GeneratorError (msg : string)
  | BaseExceptionOther (msg : string)
  | IndexError
  | KeyError (key : string)
  | AttributeError
  | ValueError
  | TypeError
  | OverflowError
  | FileNotFoundError (path : string)
  | UnboundLocalError (var : string)
  | Untyped.

(** [isinstance(e, FunctionTimedOut)] *)
Definition is_FunctionTimedOut (e : exn) : bool :=
  match e with FunctionTimedOut => true | _ => false end.

(** [isinstance(e, Exception)] *)
Definition is_Exception (e : exn) : bool :=
  match e with
  | FunctionTimedOut | BaseExceptionOther _ | Untyped => false
  | _ => true
  end.

(** What a call leaves: its value, or the exception it raised. *)
Inductive outcome (A : Type) : Type :=
  | Ret (a : A)
  | Raise (e : exn).
Arguments Ret {A} a.
Arguments Raise {A} e.

(** A method on a mutable object of type [S]: it leaves a value or an
    exception, and the object as it is at that point. *)
Definition M (S A : Type) : Type := S -> outcome A * S.

Definition ret {S A} (a : A) : M S A := fun s => (Ret a, s).

Definition raise {S A} (e : exn) : M S A := fun s => (Raise e, s).

Definition bind {S A B} (c : M S A) (k : A -> M S B) : M S B :=
  fun s =>
    match c s with
    | (Ret a, s') => k a s'
    | (Raise e, s') => (Raise e, s')
    end.

Definition get {S} : M S S := fun s => (Ret s, s).

Definition modify {S} (f : S -> S) : M S unit := fun s => (Ret tt, f s).

(** [if b: c] *)
Definition when {S} (b : bool) (c : M S unit) : M S unit :=
  if b then c else ret tt.

(** A value that may be absent, or the exception for its absence. *)
Definition expect {S A} (o : option A) (e : exn) : M S A :=
  match o with Some a => ret a | None => raise e end.

(** A local variable: bound to a value, or not bound (never assigned, or
    deleted). *)
Inductive local (A : Type) : Type :=
  | Bound (a : A)
  | Unbound.
Arguments Bound {A} a.
Arguments Unbound {A}.

(** Reading the local variable [var]. *)
Definition read {S A} (var : string) (v : local A) : M S A :=
  match v with
  | Bound a => ret a
  | Unbound => raise (UnboundLocalError var)
  end.

(** A method leaves the part [g] of the object as it is, whether it
    returns or raises. *)
Definition preserves {S X A} (g : S -> X) (c : M S A) : Prop :=
  forall s, g (c s).2 = g s.

(** [l[i] = x] for [0 <= i]. *)
Definition setitem {S A} (l : list A) (i : nat) (x : A) : M S (list A) :=
  if decide (i < length l) then ret (<[i := x]> l) else raise IndexError.

(** [l[i]] for [0 <= i]. *)
Definition getitem {S A} (l : list A) (i : nat) : M S A :=
  expect (l !! i) IndexError.

End Py.

Declare Scope py_scope.
Delimit Scope py_scope with py.
Notation "x <- c ;; k" := (Py.bind c (fun x => k))
  (at level 100, c at next level, right associativity) : py_scope.
Notation "c ;; k" := (Py.bind c (fun _ => k))
  (at level 100, right associativity) : py_scope.
Local Open Scope py_scope.

(** ** JSON documents *)

Module Json.

(** The JSON values an adventure is saved with. *)
Inductive value : Type :=
  | Null
  | Str (s : string)
  | Arr (l : list string).

Definition of_optional (o : option string) : value :=
  match o with Some s => Str s | None => Null end.

(** Reading a value back at the annotated type of a field
    ([str] that may be [None], [str], [List[str]]). *)
Definition to_optional (v : value) : option (option string) :=
  match v with Null => Some None | Str s => Some (Some s) | Arr _ => None end.

Definition to_str (v : value) : option string :=
  match v with Str s => Some s | _ => None end.

Definition to_list (v : value) : option (list string) :=
  match v with Arr l => Some l | _ => None end.

End Json.

(** ** zero/common/adventure.py *)

Module Adventure.

Record t : Type := mk {
  name : option string;
  context : option string;
  memory : string;
  actions : list string;
  results : list string
}.

(** [Adventure.__init__] *)
Definition init (name context : option string) : t :=
  {| name := name; context := context; memory := "";
     actions := []; results := [] |}.

(** [[s for p in zip(actions, results) for s in p]] *)
Definition interleave (acts ress : list string) : list string :=
  flat_map (fun p : string * string => [p.1; p.2]) (zip acts ress).

Definition set_name (v : option string) (self : t) : t :=
  mk v (context self) (memory self) (actions self) (results self).
Definition set_context (v : option string) (self : t) : t :=
  mk (name self) v (memory self) (actions self) (results self).
Definition set_memory (v : string) (self : t) : t :=
  mk (name self) (context self) v (actions self) (results self).
Definition set_actions (v : list string) (self : t) : t :=
  mk (name self) (context self) (memory self) v (results self).
Definition set_results (v : list string) (self : t) : t :=
  mk (name self) (context self) (memory self) (actions self) v.

(** [Adventure.to_dict] *)
Definition to_dict (self : t) : gmap string Json.value :=
  <["name" := Json.of_optional (name self)]>
  (<["context" := Json.of_optional (context self)]>
  (<["memory" := Json.Str (memory self)]>
  (<["actions" := Json.Arr (actions self)]>
  (<["results" := Json.Arr (results self)]> ∅)))).

(** [d[key]], read at the type the field is annotated with.  Python stores
    a value of any other type as it is; the typed record has no place for
    it and the model raises [TypeError] there. *)
Definition item {A} (d : gmap string Json.value) (key : string)
    (as_type : Json.value -> option A) : Py.M t A :=
  v <- Py.expect (d !! key) (Py.KeyError key) ;;
  Py.expect (as_type v) Py.TypeError.

(** [Adventure.from_dict]: the fields are assigned one after the other, so
    a missing key leaves the earlier ones assigned. *)
Definition from_dict (d : gmap string Json.value) : Py.M t unit :=
  v <- item d "name" Json.to_optional ;; Py.modify (set_name v) ;;
  v <- item d "context" Json.to_optional ;; Py.modify (set_context v) ;;
  v <- item d "memory" Json.to_str ;; Py.modify (set_memory v) ;;
  v <- item d "actions" Json.to_list ;; Py.modify (set_actions v) ;;
  v <- item d "results" Json.to_list ;; Py.modify (set_results v).

(** Property [Adventure.story] *)
Definition story (self : t) : list string :=
  interleave (actions self) (results self).

(** [[self.context] if self.context else []] *)
Definition context_entry (self : t) : list string :=
  match context self with
  | Some c => if Py.truthy (Some c) then [c] else []
  | None => []
  end.

(** Property [Adventure.full_story] *)
Definition full_story (self : t) : list string :=
  context_entry self ++ story self.

(** [Adventure.get_ai_story] *)
Definition get_ai_story (self : t) (start stop : option Z) : list string :=
  let start := match start with None => 0%Z | Some s => s end in
  let stop := match stop with
              | None => Z.of_nat (length (story self))
              | Some e => e
              end in
  let result := context_entry self in
  let result := result ++ [memory self] in
  let result := result ++ Py.slice (story self) start stop in
  result.

End Adventure.

(** ** zero/common/utils.py *)

Module Utils.

(** [str.isspace] on one character, which is also what [\s] matches in a
    [str] pattern: TAB..CR, FS..US, SPACE, NEL and NBSP. *)
Definition is_space (c : ascii) : bool :=
  let n := N_of_ascii c in
  ((9 <=? n) && (n <=? 13) || (28 <=? n) && (n <=? 32)
   || (n =? 133) || (n =? 160))%N.

(** The class [[a-zA-Z0-9_-]]. *)
Definition is_name_char (c : ascii) : bool :=
  let n := N_of_ascii c in
  ((97 <=? n) && (n <=? 122) || (65 <=? n) && (n <=? 90)
   || (48 <=? n) && (n <=? 57) || (n =? 95) || (n =? 45))%N.

Fixpoint lstrip (s : string) : string :=
  match s with
  | String c rest => if is_space c then lstrip rest else s
  | EmptyString => EmptyString
  end.

Fixpoint rstrip (s : string) : string :=
  match s with
  | String c rest =>
      match rstrip rest with
      | EmptyString => if is_space c then EmptyString else String c EmptyString
      | kept => String c kept
      end
  | EmptyString => EmptyString
  end.

(** [s.strip()] *)
Definition strip (s : string) : string := rstrip (lstrip s).

(** [re.sub(r'\s+', '_', s)], scanning left to right; [in_run] tells that
    the character before belongs to a match that has been replaced
    already, so that the greedy [\s+] swallows the current one too. *)
Fixpoint sub_spaces (in_run : bool) (s : string) : string :=
  match s with
  | String c rest =>
      if is_space c then
        if in_run then sub_spaces true rest
        else String "_" (sub_spaces true rest)
      else String c (sub_spaces false rest)
  | EmptyString => EmptyString
  end.

(** [re.sub(r'[^a-zA-Z0-9_-]', '', s)] *)
Fixpoint sub_other (s : string) : string :=
  match s with
  | String c rest =>
      if is_name_char c then String c (sub_other rest) else sub_other rest
  | EmptyString => EmptyString
  end.

(** [get_save_name]; [None.strip()] is an [AttributeError], which the
    callers below raise before they come here. *)
Definition get_save_name (adventure_name : string) : string :=
  let adventure_name := sub_spaces false (strip adventure_name) in
  let adventure_name := sub_other adventure_name in
  adventure_name.

(** *** What the lemmas on [get_save_name] are stated with

    The pieces of a name are what is left between two whitespace
    characters, and its words are the pieces that are not empty. *)

Fixpoint pieces (s : string) : list string :=
  match s with
  | String c rest =>
      if is_space c then EmptyString :: pieces rest
      else match pieces rest with
           | w :: ws => String c w :: ws
           | [] => [String c EmptyString]
           end
  | EmptyString => [EmptyString]
  end.

Definition words (s : string) : list string :=
  List.filter Py.nonempty (pieces s).

(** Nothing but whitespace. *)
Fixpoint blank (s : string) : bool :=
  match s with
  | String c rest => is_space c && blank rest
  | EmptyString => true
  end.

(** A whitespace character in front. *)
Definition starts_space (s : string) : bool :=
  match s with String c _ => is_space c | EmptyString => false end.

(** Every character is in [[a-zA-Z0-9_-]]. *)
Fixpoint clean (s : string) : bool :=
  match s with
  | String c rest => is_name_char c && clean rest
  | EmptyString => true
  end.

End Utils.

(** ** zero/main/app.py *)

Module App.

(** The sections [general] and [ai] of config.ini, as [getboolean],
    [getint] and [getfloat] read them (a float is modelled by a
    rational). *)
Record config : Type := {
  userdir : string;
  autosave : bool;
  timeout : Q;
  memory : Z;
  max_length : Z;
  beam_searches : Z;
  temperature : Q;
  top_k : Z;
  top_p : Q;
  repetition_penalty : Q
}.

(** The positional arguments of [AI.generate]. *)
Record generate_args : Type := {
  arg_prompt : string;
  arg_max_length : Z;
  arg_beam_searches : Z;
  arg_temperature : Q;
  arg_top_k : Z;
  arg_top_p : Q;
  arg_repetition_penalty : Q
}.

(** How a call of the text generator ends when it is run under a time
    limit: it returns a text, it raises, or it is still running when the
    limit is reached. *)
Inductive generation : Type :=
  | Answers (text : string)
  | Fails (exc : Py.exn)
  | Hangs.

(** What a session is started with and does not change afterwards: the
    configuration, the loaded filter modules and the text generator.

    The filters are code of the user's modules, annotated
    [Callable[[str], str]]: on a text they are the functions of
    [input_filters] and [output_filters].  [output_of_none] is what the
    output filters, called one after the other, make of [None]: the
    exception that one of them raises, or what the last one returns, a
    text or [None] again.

    [generate t args] is how the call of [self.ai.generate], whose code is
    not part of the sources, ends with the arguments [args] under the time
    limit [t]. *)
Record env : Type := {
  cfg : config;
  input_filters : list (string -> string);
  output_filters : list (string -> string);
  output_of_none : Py.outcome (option string);
  display_filter : list string -> string;
  generate : Q -> generate_args -> generation
}.

(** [func_timeout(timeout, self.ai.generate, args=args)] of the package
    func_timeout.  The generator runs in a thread of its own, which is
    joined for [timeout] seconds.  When the thread is still alive then,
    [FunctionTimedOut] is raised.  The thread keeps the value that the
    generator returns and the [Exception] that it raises, and the call
    returns the one or raises the other.  Nothing else is caught in the
    thread: a generator that ends with a [BaseException] that is not an
    [Exception] leaves neither a value nor an exception, and the call
    returns [None]. *)
Definition func_timeout (e : env) (timeout : Q) (args : generate_args)
    : Py.outcome (option string) :=
  match generate e timeout args with
  | Answers text => Py.Ret (Some text)
  | Fails exc => if Py.is_Exception exc then Py.Raise exc else Py.Ret None
  | Hangs => Py.Raise Py.FunctionTimedOut
  end.

(** What changes: the adventure, the [threads] dictionary (a thread is
    named by its rank of creation) and the JSON files on disk. *)
Record t : Type := mk {
  adventure : Adventure.t;
  threads : gmap string nat;
  spawned : nat;
  files : gmap string (gmap string Json.value)
}.

Definition set_adventure (v : Adventure.t) (self : t) : t :=
  mk v (threads self) (spawned self) (files self).
Definition set_files (v : gmap string (gmap string Json.value)) (self : t) : t :=
  mk (adventure self) (threads self) (spawned self) v.

(** [self.threads[key] = threading.Thread(...)] *)
Definition new_thread (key : string) (self : t) : t :=
  mk (adventure self) (<[key := spawned self]> (threads self))
     (S (spawned self)) (files self).

(** Running a method of [self.adventure]. *)
Definition on_adventure {A} (c : Py.M Adventure.t A) : Py.M t A :=
  fun self =>
    let (r, adv) := c (adventure self) in (r, set_adventure adv self).

Fixpoint ends_with_sep (s : string) : bool :=
  match s with
  | String c EmptyString => Ascii.eqb c "/"
  | String _ rest => ends_with_sep rest
  | EmptyString => false
  end.

(** [posixpath.join(a, *p)] *)
Definition path_join (a : string) (p : list string) : string :=
  fold_left
    (fun path b =>
       if String.prefix "/" b then b
       else if negb (Py.nonempty path) || ends_with_sep path
            then (path ++ b)%string
       else (path ++ "/" ++ b)%string)
    p a.

Section WithEnv.
Variable e : env.

(** [App.get_user_path] *)
Definition get_user_path (args : list string) : string :=
  path_join (userdir (cfg e)) args.

(** The file of the current adventure:
    [get_user_path('adventures', f'{get_save_name(name)}.json')] *)
Definition save_path : Py.M t string :=
  self <- Py.get ;;
  name <- Py.expect (Adventure.name (adventure self)) Py.AttributeError ;;
  let savefile := Utils.get_save_name name in
  Py.ret (get_user_path ["adventures"; (savefile ++ ".json")%string]).

(** [App.save_adventure]; [json.dump] leaves the document in the file. *)
Definition save_adventure : Py.M t unit :=
  path <- save_path ;;
  self <- Py.get ;;
  Py.modify
    (set_files (<[path := Adventure.to_dict (adventure self)]> (files self))).

(** [App.load_adventure]; [json.load] gives the document of the file. *)
Definition load_adventure : Py.M t unit :=
  path <- save_path ;;
  self <- Py.get ;;
  d <- Py.expect (files self !! path) (Py.FileNotFoundError path) ;;
  on_adventure (Adventure.from_dict d).
End WithEnv.

End App.

(** ** zero/main/ui/play.py *)

Module PlayScreen.

(** The widgets of play.kv that the screen reads and writes
    ([self.ids.title_text.text], [self.ids.input.text], ...). *)
Record widgets : Type := mk_widgets {
  title_text : string;
  input_text : string;
  input_disabled : bool;
  button_send_disabled : bool;
  scroll_y : Z;
  output_text : string
}.

Definition set_title_text (v : string) (w : widgets) : widgets :=
  mk_widgets v (input_text w) (input_disabled w) (button_send_disabled w)
             (scroll_y w) (output_text w).
Definition set_input_text (v : string) (w : widgets) : widgets :=
  mk_widgets (title_text w) v (input_disabled w) (button_send_disabled w)
             (scroll_y w) (output_text w).
Definition set_input_disabled (v : bool) (w : widgets) : widgets :=
  mk_widgets (title_text w) (input_text w) v (button_send_disabled w)
             (scroll_y w) (output_text w).
Definition set_button_send_disabled (v : bool) (w : widgets) : widgets :=
  mk_widgets (title_text w) (input_text w) (input_disabled w) v
             (scroll_y w) (output_text w).
Definition set_scroll_y (v : Z) (w : widgets) : widgets :=
  mk_widgets (title_text w) (input_text w) (input_disabled w)
             (button_send_disabled w) v (output_text w).
Definition set_output_text (v : string) (w : widgets) : widgets :=
  mk_widgets (title_text w) (input_text w) (input_disabled w)
             (button_send_disabled w) (scroll_y w) v.

(** The screen with the application it belongs to; [error_popups] are the
    texts of the [ErrorPopup]s opened so far, the oldest first. *)
Record t : Type := mk {
  app : App.t;
  ids : widgets;
  mode : string;
  edit_index : nat;
  error_popups : list string
}.

Definition set_app (v : App.t) (self : t) : t :=
  mk v (ids self) (mode self) (edit_index self) (error_popups self).
Definition set_ids (v : widgets) (self : t) : t :=
  mk (app self) v (mode self) (edit_index self) (error_popups self).
Definition set_mode (v : string) (self : t) : t :=
  mk (app self) (ids self) v (edit_index self) (error_popups self).
Definition set_edit_index (v : nat) (self : t) : t :=
  mk (app self) (ids self) (mode self) v (error_popups self).

Definition adventure (self : t) : Adventure.t := App.adventure (app self).

(** [PlayScreen.__init__] for an application and its widgets. *)
Definition init (a : App.t) (w : widgets) : t := mk a w "" 0 [].

(** Running a method of [self.app]. *)
Definition on_app {A} (c : Py.M App.t A) : Py.M t A :=
  fun self => let (r, a) := c (app self) in (r, set_app a self).

(** Changing a widget, and changing the adventure in place. *)
Definition widget (f : widgets -> widgets) : Py.M t unit :=
  Py.modify (fun self => set_ids (f (ids self)) self).
Definition mutate (f : Adventure.t -> Adventure.t) : Py.M t unit :=
  on_app (App.on_adventure (Py.modify f)).

(** The value assigned to the [text] of a kivy widget.  kivy refuses
    [None] there; the exception is its own matter ([ValueError] for a
    [StringProperty]) and nothing below depends on which it is. *)
Definition text_value (v : option string) : Py.M t string :=
  Py.expect v Py.ValueError.

(** [popup = ErrorPopup(); popup.ids.error_text.text = text; popup.open()] *)
Definition open_error_popup (text : string) : Py.M t unit :=
  Py.modify (fun self =>
    mk (app self) (ids self) (mode self) (edit_index self)
       (error_popups self ++ [text])).

Definition nl : string := String (ascii_of_nat 10) EmptyString.

Definition timeout_text : string :=
  "The AI took too long to respond." ++ nl ++ "Please try something else.".

Definition error_text : string :=
  "An unexpected error occurred." ++ nl ++ "Please try something else,"
  ++ nl ++ "or adjust your settings.".

(** *** The reference of a story entry *)

Definition is_lower (c : ascii) : bool :=
  let n := N_of_ascii c in ((97 <=? n) && (n <=? 122))%N.

Definition is_digit (c : ascii) : bool :=
  let n := N_of_ascii c in ((48 <=? n) && (n <=? 57))%N.

(** The longest prefix of digits, what a greedy [[0-9]+] takes. *)
Fixpoint digits (s : string) : string :=
  match s with
  | String c rest => if is_digit c then String c (digits rest) else EmptyString
  | EmptyString => EmptyString
  end.

(** [re.match(r'([a-z])([0-9]+)?', ref)]: [None], or groups 1 and 2. *)
Definition match_ref (ref : string) : option (string * option string) :=
  match ref with
  | String c rest =>
      if is_lower c then
        let d := digits rest in
        Some (String c EmptyString, if Py.nonempty d then Some d else None)
      else None
  | EmptyString => None
  end.

(** [int(s)] for a string of digits. *)
Fixpoint int_from (acc : Z) (s : string) : Z :=
  match s with
  | String c rest => int_from (10 * acc + (Z.of_N (N_of_ascii c) - 48)) rest
  | EmptyString => acc
  end.
Definition int (s : string) : Z := int_from 0 s.

(** [int(n / 2)] for [0 <= n].  [/] is the true division: its result is
    the binary64 number nearest to n/2 (ties to even), which [int] then
    truncates.  Up to 53 bits n/2 is a binary64 number itself; above, n is
    rounded to 53 significant bits first; a quotient of 2^1024 or more is
    an [OverflowError]. *)
Definition int_half (n : Z) : Py.outcome Z :=
  let bits := (Z.log2 n + 1)%Z in
  if (bits <=? 53)%Z then Py.Ret (n / 2)%Z
  else
    let sh := (bits - 53)%Z in
    let q := Z.shiftr n sh in
    let r := (n - Z.shiftl q sh)%Z in
    let half := Z.shiftl 1 (sh - 1) in
    let m := if (r <? half)%Z then q
             else if (half <? r)%Z then (q + 1)%Z
             else if Z.even q then q else (q + 1)%Z in
    let v := Z.shiftl m (sh - 1) in
    if (Z.shiftl 1 1024 <=? v)%Z then Py.Raise Py.OverflowError
    else Py.Ret v.

Section WithEnv.
Variable e : App.env.

(** [PlayScreen.filter_input] *)
Definition filter_input (text : string) : string :=
  fold_left (fun result f => f result) (App.input_filters e) text.

(** [PlayScreen.filter_output], given a text. *)
Definition filter_output (text : string) : string :=
  fold_left (fun result f => f result) (App.output_filters e) text.

(** [PlayScreen.filter_output], given what [func_timeout] returned.  With
    no output filter the loop does nothing and [None] stays [None]. *)
Definition filter_output_of (result : option string)
    : Py.M t (option string) :=
  match result with
  | Some text => Py.ret (Some (filter_output text))
  | None =>
      match App.output_filters e with
      | [] => Py.ret None
      | _ :: _ => fun self => (App.output_of_none e, self)
      end
  end.

(** [PlayScreen.filter_display] *)
Definition filter_display (story : list string) : string :=
  App.display_filter e story.

(** [PlayScreen.on_update] *)
Definition on_update (scroll clear_input : bool) : Py.M t unit :=
  self <- Py.get ;;
  title <- text_value (Adventure.name (adventure self)) ;;
  widget (set_title_text title) ;;
  Py.when clear_input (widget (set_input_text "")) ;;
  Py.when scroll (widget (set_scroll_y 0)) ;;
  self <- Py.get ;;
  widget (set_output_text
            (filter_display (Adventure.full_story (adventure self)))).

(** [PlayScreen.try_autosave] *)
Definition try_autosave : Py.M t unit :=
  Py.when (App.autosave (App.cfg e)) (on_app (App.save_adventure e)).

(** [PlayScreen.on_send], with [text or self.ids.input.text] written out:
    the new thread is registered and started; its rank and the text it
    was given are returned to whoever then runs [_on_send_thread] for
    it. *)
Definition on_send (text : option string) (self : t) : t * (nat * string) :=
  let text := match text with
              | Some s => if Py.nonempty s then s else input_text (ids self)
              | None => input_text (ids self)
              end in
  (set_app (App.new_thread "send" (app self)) self,
   (App.spawned (app self), text)).

(** *** [PlayScreen._generate], around the call of the generator *)

(** Lines 193-197: the entries that [get_ai_story] is asked for. *)
Definition ai_story (self : t) (stop : option Z) : list string :=
  let story_len := Z.of_nat (length (Adventure.story (adventure self))) in
  let stop := match stop with None => story_len | Some n => n end in
  let memory := App.memory (App.cfg e) in
  let memory := if (memory <=? 0)%Z then story_len else Z.min memory stop in
  Adventure.get_ai_story (adventure self)
    (Some (stop - memory)%Z) (Some stop).

(** Lines 198-213: the time limit and the arguments of the call. *)
Definition generate_call (text : string) (stop : option Z) (self : t)
    : Q * App.generate_args :=
  let story := ai_story self stop in
  let story := (Py.join " " story
                ++ (if Py.nonempty text then " " ++ text else ""))%string in
  let timeout := App.timeout (App.cfg e) in
  let timeout := if Qle_bool timeout 0 then 604800%Q else timeout in
  (timeout,
   {| App.arg_prompt := story;
      App.arg_max_length := App.max_length (App.cfg e);
      App.arg_beam_searches := App.beam_searches (App.cfg e);
      App.arg_temperature := App.temperature (App.cfg e);
      App.arg_top_k := App.top_k (App.cfg e);
      App.arg_top_p := App.top_p (App.cfg e);
      App.arg_repetition_penalty := App.repetition_penalty (App.cfg e) |}).

(** Line 201: how the generator ends when [text] is sent from [self],
    and what the call of [func_timeout] leaves then. *)
Definition generation (text : string) (stop : option Z) (self : t)
    : App.generation :=
  let (timeout, args) := generate_call text stop self in
  App.generate e timeout args.

Definition generated (text : string) (stop : option Z) (self : t)
    : Py.outcome (option string) :=
  let (timeout, args) := generate_call text stop self in
  App.func_timeout e timeout args.

(** Lines 201 and 214-218: what the call left is taken, filtered and
    recorded.  A result that is still [None] after the filters is
    appended like a text; the results of the typed adventure cannot hold
    it, which is where the model stops ([Py.Untyped]), after the text has
    been appended to the actions. *)
Definition generate_return (text : string) (record : bool)
    (called : Py.outcome (option string)) : Py.M t (option string) :=
  result <- (fun self => (called, self)) ;;
  result <- filter_output_of result ;;
  Py.when record
    (mutate (fun adv =>
               Adventure.set_actions (Adventure.actions adv ++ [text]) adv) ;;
     match result with
     | Some result =>
         mutate (fun adv =>
                   Adventure.set_results (Adventure.results adv ++ [result])
                     adv)
     | None => Py.raise Py.Untyped
     end) ;;
  Py.ret result.

(** [PlayScreen._generate] *)
Definition _generate (text : string) (record : bool) (stop : option Z)
    : Py.M t (option string) :=
  self <- Py.get ;;
  generate_return text record (generated text stop self).

(** *** [PlayScreen._try_send] *)

(** The branches for the edit modes (lines 161-168). *)
Definition edit (text : string) : Py.M t unit :=
  self <- Py.get ;;
  if String.eqb (mode self) "c" then
    mutate (Adventure.set_context (Some text))
  else if String.eqb (mode self) "a" then
    acts <- Py.setitem (Adventure.actions (adventure self))
                       (edit_index self) text ;;
    mutate (Adventure.set_actions acts)
  else if String.eqb (mode self) "r" then
    ress <- Py.setitem (Adventure.results (adventure self))
                       (edit_index self) text ;;
    mutate (Adventure.set_results ress)
  else if String.eqb (mode self) "m" then
    mutate (Adventure.set_memory text)
  else Py.ret tt.

(** The [try] block (lines 159-168). *)
Definition send_action (text : string) : Py.M t unit :=
  self <- Py.get ;;
  if String.eqb (mode self) "" then
    _ <- _generate text true None ;; Py.ret tt
  else edit text.

(** The [except] clauses (lines 169-181), entered with what the [try]
    block left.  Both bind the exception to the local variable [result];
    Python unbinds the target of [as] when the clause is left. *)
Definition handle (result : Py.local (option Py.exn))
    (tried : Py.outcome unit) : Py.M t (Py.local (option Py.exn)) :=
  match tried with
  | Py.Ret _ => Py.ret result
  | Py.Raise exc =>
      if Py.is_FunctionTimedOut exc then
        open_error_popup timeout_text ;;
        Py.ret Py.Unbound
      else if Py.is_Exception exc then
        open_error_popup error_text ;;
        Py.ret Py.Unbound
      else Py.raise exc
  end.

(** [try: block except ...: ...] followed by [return result]. *)
Definition try_except_return (block : Py.M t unit)
    : Py.M t (option Py.exn) :=
  let result := Py.Bound None in
  result <- (fun self => let (tried, self) := block self in
                         handle result tried self) ;;
  Py.read "result" result.

Definition _try_send (text : string) : Py.M t (option Py.exn) :=
  try_except_return (send_action text).

(** *** [PlayScreen._on_send_thread] *)

(** Lines 135-137. *)
Definition send_begin (text : string) : Py.M t string :=
  let text := filter_input text in
  widget (set_input_disabled true) ;;
  widget (set_button_send_disabled true) ;;
  Py.ret text.

(** Lines 140-147. *)
Definition send_end (error : option Py.exn) : Py.M t unit :=
  self <- Py.get ;;
  let prev_mode := mode self in
  Py.modify (set_mode "") ;;
  on_update (String.eqb prev_mode "") (bool_decide (error = None)) ;;
  Py.when (bool_decide (error = None)) try_autosave ;;
  widget (set_input_disabled false) ;;
  widget (set_button_send_disabled false).

Definition _on_send_thread (text : string) : Py.M t unit :=
  text <- send_begin text ;;
  error <- _try_send text ;;
  send_end error.

(** [PlayScreen.on_entry_selected] *)
Definition on_entry_selected (ref : string) : Py.M t unit :=
  groups <- Py.expect (match_ref ref) Py.AttributeError ;;
  Py.modify (set_mode groups.1) ;;
  match groups.2 with
  | Some group2 =>
      half <- (fun self => (int_half (int group2), self)) ;;
      Py.modify (set_edit_index (Z.to_nat half))
  | None => Py.ret tt
  end ;;
  self <- Py.get ;;
  (if String.eqb (mode self) "c" then
     text <- text_value (Adventure.context (adventure self)) ;;
     widget (set_input_text text)
   else if String.eqb (mode self) "a" then
     text <- Py.getitem (Adventure.actions (adventure self))
                        (edit_index self) ;;
     widget (set_input_text text)
   else if String.eqb (mode self) "r" then
     text <- Py.getitem (Adventure.results (adventure self))
                        (edit_index self) ;;
     widget (set_input_text text)
   else Py.ret tt) ;;
  on_update false false.
End WithEnv.

End PlayScreen.

(** ** The threads started by [on_send]

    [on_send] hands [_on_send_thread] to a new [threading.Thread].  The
    code holds no lock, and the interpreter may switch from one thread to
    another between any two steps.  This module follows the sessions in
    which it does so only while a thread is inside the call of the
    generator, the one place where a thread waits: a thread then runs in
    at most two stretches, up to that call, and from its return to the
    end.  The events of such a session are the calls of [on_send] and the
    stretches that a thread runs.  Every session of the module is one that
    the code can run; the sessions in which threads are switched elsewhere
    (between the two appends of [_generate], for one) are not among
    them, and nothing is said about them here. *)

Module Threads.

(** Where a thread stands: started and not yet run, or inside the call
    that [_generate] made with the time limit and the arguments it
    computed. *)
Inductive point : Type :=
  | Started (text : string)
  | Generating (text : string) (timeout : Q) (args : App.generate_args).

Definition is_generating (p : point) : bool :=
  match p with Generating _ _ _ => true | Started _ => false end.

(** The screen, the threads that have not ended (by rank) and how the
    others ended. *)
Record t : Type := mk {
  screen : PlayScreen.t;
  running : gmap nat point;
  ended : list (nat * Py.outcome unit)
}.

Inductive event : Type :=
  | Send (text : option string)
  | Run (thread : nat).

(** The threads that are inside the generator. *)
Definition in_generator (sys : t) : list nat :=
  (map_to_list (filter (fun kp => is_generating kp.2 = true) (running sys))).*1.

Section WithEnv.
Variable e : App.env.

(** One stretch of [_on_send_thread]; [None] when the thread is done. *)
Definition advance (p : point) : Py.M PlayScreen.t (option point) :=
  match p with
  | Started text =>
      text <- PlayScreen.send_begin e text ;;
      self <- Py.get ;;
      if String.eqb (PlayScreen.mode self) "" then
        let (timeout, args) := PlayScreen.generate_call e text None self in
        Py.ret (Some (Generating text timeout args))
      else
        error <- PlayScreen.try_except_return (PlayScreen.edit text) ;;
        PlayScreen.send_end e error ;;
        Py.ret None
  | Generating text timeout args =>
      error <- PlayScreen.try_except_return
                 (_ <- PlayScreen.generate_return e text true
                         (App.func_timeout e timeout args) ;;
                  Py.ret tt) ;;
      PlayScreen.send_end e error ;;
      Py.ret None
  end.

Definition step (ev : event) (sys : t) : t :=
  match ev with
  | Send text =>
      let (scr, th) := PlayScreen.on_send text (screen sys) in
      mk scr (<[th.1 := Started th.2]> (running sys)) (ended sys)
  | Run i =>
      match running sys !! i with
      | None => sys
      | Some p =>
          match advance p (screen sys) with
          | (Py.Ret (Some p'), scr) =>
              mk scr (<[i := p']> (running sys)) (ended sys)
          | (Py.Ret None, scr) =>
              mk scr (delete i (running sys)) (ended sys ++ [(i, Py.Ret tt)])
          | (Py.Raise exc, scr) =>
              mk scr (delete i (running sys))
                 (ended sys ++ [(i, Py.Raise exc)])
          end
      end
  end.

Definition run (evs : list event) (sys : t) : t :=
  fold_left (fun s ev => step ev s) evs sys.
End WithEnv.

(** Every thread that has not ended was created by this session. *)
Definition fresh (sys : t) : Prop :=
  forall i p,
    running sys !! i = Some p ->
    i < App.spawned (PlayScreen.app (screen sys)).

(** A session that has just entered the play screen. *)
Definition start (scr : PlayScreen.t) : t := mk scr ∅ [].

End Threads.

(** ** The windowed prompt and the save name as the specification words
       them *)

Module Spec.

(** An index brought into [0, len]. *)
Definition clamp (len i : Z) : Z := Z.max 0 (Z.min i len).

(** [windowed_prompt(start, end)]: the context if it is not empty, the
    memory, and the entries of the interleaved story from [start] up to
    [end], both clamped into [0, len(interleaved_story())]; nothing when
    [start > end]. *)
Definition windowed_prompt (self : Adventure.t) (start stop : Z)
    : list string :=
  let len := Z.of_nat (length (Adventure.story self)) in
  let lo := clamp len start in
  let hi := clamp len stop in
  Adventure.context_entry self ++ [Adventure.memory self]
  ++ take (Z.to_nat (hi - lo)) (drop (Z.to_nat lo) (Adventure.story self)).

(** A negative index as Python reads it: counted from the end. *)
Definition from_end (len i : Z) : Z := if (i <? 0)%Z then (i + len)%Z else i.

(** Whitespace, by its code points: TAB, LF, VT, FF, CR, FS, GS, RS, US,
    SPACE, NEL and NBSP. *)
Definition whitespace : list nat :=
  [9; 10; 11; 12; 13; 28; 29; 30; 31; 32; 133; 160].

Definition is_whitespace (c : ascii) : bool :=
  existsb (Nat.eqb (nat_of_ascii c)) whitespace.

(** The characters that a save name keeps: the letters, the digits, [_]
    and [-]. *)
Definition alphabet : string :=
  "abcdefghijklmnopqrstuvwxyzABCDEFGHIJKLMNOPQRSTUVWXYZ0123456789_-".

Definition in_alphabet (c : ascii) : bool :=
  existsb (Ascii.eqb c) (list_ascii_of_string alphabet).

Definition all_in_alphabet (s : string) : bool :=
  forallb in_alphabet (list_ascii_of_string s).

Fixpoint only_whitespace (s : string) : bool :=
  match s with
  | String c rest => is_whitespace c && only_whitespace rest
  | EmptyString => true
  end.

(** Stripping the whitespace in front: what starts at the first character
    that is not whitespace. *)
Fixpoint strip_front (s : string) : string :=
  match s with
  | String c rest => if is_whitespace c then strip_front rest else s
  | EmptyString => EmptyString
  end.

(** Stripping the whitespace at the end: what comes before the point from
    which only whitespace is left. *)
Fixpoint strip_back (s : string) : string :=
  match s with
  | String c rest =>
      if only_whitespace s then EmptyString else String c (strip_back rest)
  | EmptyString => EmptyString
  end.

(** Collapsing every run of whitespace to one separator: a whitespace
    character that is followed by another is dropped, and the last of a
    run becomes the separator. *)
Fixpoint collapse (s : string) : string :=
  match s with
  | String c rest =>
      if is_whitespace c then
        match rest with
        | String d _ =>
            if is_whitespace d then collapse rest
            else String "_" (collapse rest)
        | EmptyString => String "_" EmptyString
        end
      else String c (collapse rest)
  | EmptyString => EmptyString
  end.

(** Removing every character that is not a letter, a digit, [_] or [-]. *)
Definition remove_others (s : string) : string :=
  string_of_list_ascii (List.filter in_alphabet (list_ascii_of_string s)).

(** [save_name(raw_name)]: the whitespace at the ends is stripped first,
    every run of whitespace inside is collapsed to one separator, then
    every character that is not a letter, a digit, [_] or [-] is
    removed. *)
Definition save_name (raw_name : string) : string :=
  remove_others (collapse (strip_back (strip_front raw_name))).

End Spec.

(** ** Sample data *)

Module Sample.

(** Two turns played. *)
Definition two_turns : Adventure.t :=
  {| Adventure.name := Some "My Game!! 2";
     Adventure.context := Some "A cave.";
     Adventure.memory := "You are brave.";
     Adventure.actions := ["look"; "run"];
     Adventure.results := ["It is dark."; "You fall."] |}.

(** Three turns played, an empty context. *)
Definition three_turns : Adventure.t :=
  {| Adventure.name := Some "cave";
     Adventure.context := Some "";
     Adventure.memory := "";
     Adventure.actions := ["a0"; "a1"; "a2"];
     Adventure.results := ["r0"; "r1"; "r2"] |}.

(** The defaults of [App.build_config], with a memory of three entries. *)
Definition config : App.config :=
  {| App.userdir := "user"; App.autosave := true;
     App.timeout := 20; App.memory := 3;
     App.max_length := 60; App.beam_searches := 1;
     App.temperature := 8 # 10; App.top_k := 40;
     App.top_p := 9 # 10; App.repetition_penalty := 11 # 10 |}.

(** A session around a given generator, with one input filter and one
    output filter, [text.strip()], for which [None] is an
    [AttributeError]. *)
Definition env (generator : Q -> App.generate_args -> App.generation)
    : App.env :=
  {| App.cfg := config;
     App.input_filters := [fun s => ("> " ++ s)%string];
     App.output_filters := [Utils.strip];
     App.output_of_none := Py.Raise Py.AttributeError;
     App.display_filter := Py.join " ";
     App.generate := generator |}.

Definition times_out : Q -> App.generate_args -> App.generation :=
  fun _ _ => App.Hangs.

Definition answers (text : string)
    : Q -> App.generate_args -> App.generation :=
  fun _ _ => App.Answers text.

(** A generator that ends with [SystemExit]. *)
Definition dies : Q -> App.generate_args -> App.generation :=
  fun _ _ => App.Fails (Py.BaseExceptionOther "SystemExit").

(** The same session with [str(text).strip()] as its output filter: a
    text is stripped as before, and [None] becomes the text "None". *)
Definition formatting (e : App.env) : App.env :=
  {| App.cfg := App.cfg e;
     App.input_filters := App.input_filters e;
     App.output_filters := App.output_filters e;
     App.output_of_none := Py.Ret (Some "None");
     App.display_filter := App.display_filter e;
     App.generate := App.generate e |}.

(** The same session without output filters. *)
Definition unfiltered (e : App.env) : App.env :=
  {| App.cfg := App.cfg e;
     App.input_filters := App.input_filters e;
     App.output_filters := [];
     App.output_of_none := App.output_of_none e;
     App.display_filter := App.display_filter e;
     App.generate := App.generate e |}.

Definition app (adv : Adventure.t) : App.t := App.mk adv ∅ 0 ∅.

(** The play screen when it is entered with [adv]. *)
Definition screen (adv : Adventure.t) : PlayScreen.t :=
  PlayScreen.init (app adv) (PlayScreen.mk_widgets "" "" false false 1 "").

End Sample.

(** ** zero/main/ui/play.py, the rest of the screen *)

Module Play.

(** The same session around another generator. *)
Definition with_generator
    (generator : Q -> App.generate_args -> App.generation) (e : App.env)
    : App.env :=
  {| App.cfg := App.cfg e;
     App.input_filters := App.input_filters e;
     App.output_filters := App.output_filters e;
     App.output_of_none := App.output_of_none e;
     App.display_filter := App.display_filter e;
     App.generate := generator |}.

(** The adventure has as many results as actions. *)
Definition paired (self : PlayScreen.t) : Prop :=
  length (Adventure.actions (PlayScreen.adventure self))
  = length (Adventure.results (PlayScreen.adventure self)).

Section WithEnv.
Variable e : App.env.

(** [PlayScreen.on_enter]; the thread that [on_send] starts is returned
    as [on_send] returns it.  [pop(0)] of an empty list is an
    [IndexError], which the test before it excludes. *)
Definition on_enter : Py.M PlayScreen.t (option (nat * string)) :=
  self <- Py.get ;;
  let adv := PlayScreen.adventure self in
  if Nat.eqb (length (Adventure.actions adv)) 1
     && Nat.eqb (length (Adventure.results adv)) 0
  then
    match Adventure.actions adv with
    | prompt :: rest =>
        PlayScreen.mutate (Adventure.set_actions rest) ;;
        (fun self =>
           let (self, thread) := PlayScreen.on_send (Some prompt) self in
           (Py.Ret (Some thread), self))
    | [] => Py.raise Py.IndexError
    end
  else
    PlayScreen.on_update e true false ;;
    Py.ret None.

(** [MenuPopup.on_save], on the play screen that the popup was opened
    from. *)
Definition popup_on_save : Py.M PlayScreen.t unit :=
  PlayScreen.on_app (App.save_adventure e) ;;
  PlayScreen.on_update e true false.

(** [MenuPopup.on_load] *)
Definition popup_on_load : Py.M PlayScreen.t unit :=
  PlayScreen.on_app (App.load_adventure e) ;;
  PlayScreen.on_update e true false.
End WithEnv.

End Play.

(** ** zero/main/ui/menu.py *)

Module Menu.

(** A [dict] whose order of insertion matters: [d[k] = v] replaces the
    value of a key in place and puts a new key at the end. *)
Fixpoint dict_set {K V} `{EqDecision K} (k : K) (v : V) (d : list (K * V))
    : list (K * V) :=
  match d with
  | [] => [(k, v)]
  | (k', v') :: rest =>
      if decide (k = k') then (k, v) :: rest
      else (k', v') :: dict_set k v rest
  end.

Fixpoint dict_get {K V} `{EqDecision K} (k : K) (d : list (K * V))
    : option V :=
  match d with
  | [] => None
  | (k', v') :: rest => if decide (k = k') then Some v' else dict_get k rest
  end.

(** [s.endswith(suffix)] *)
Fixpoint ends_with (suffix s : string) : bool :=
  String.eqb suffix s
  || match s with
     | String _ rest => ends_with suffix rest
     | EmptyString => false
     end.

(** [str(key)] for a key that is a string or [None]. *)
Definition str (key : option string) : string :=
  match key with Some s => s | None => "None" end.

(** The widgets of menu.kv that the methods below read and write. *)
Record widgets : Type := mk_widgets {
  input_name : string;
  input_context : string;
  input_prompt : string;
  button_start_new_disabled : bool;
  button_start_load_disabled : bool;
  view_game_data : list string
}.

(** The menu screen: the application, whether [self.app.ai] is set,
    [self.app.sm.current], the saves found so far by name (the name of a
    save is a string or [null]) and the selection. *)
Record t : Type := mk {
  app : App.t;
  ai : bool;
  current : string;
  savefiles : list (option string * gmap string Json.value);
  selected_savefile : option string;
  ids : widgets
}.

Definition set_app (v : App.t) (self : t) : t :=
  mk v (ai self) (current self) (savefiles self) (selected_savefile self)
     (ids self).
Definition set_current (v : string) (self : t) : t :=
  mk (app self) (ai self) v (savefiles self) (selected_savefile self)
     (ids self).
Definition set_savefiles (v : list (option string * gmap string Json.value))
    (self : t) : t :=
  mk (app self) (ai self) (current self) v (selected_savefile self) (ids self).
Definition set_selected_savefile (v : option string) (self : t) : t :=
  mk (app self) (ai self) (current self) (savefiles self) v (ids self).
Definition set_ids (v : widgets) (self : t) : t :=
  mk (app self) (ai self) (current self) (savefiles self)
     (selected_savefile self) v.

Definition set_button_start_new_disabled (v : bool) (w : widgets) : widgets :=
  mk_widgets (input_name w) (input_context w) (input_prompt w) v
             (button_start_load_disabled w) (view_game_data w).
Definition set_button_start_load_disabled (v : bool) (w : widgets) : widgets :=
  mk_widgets (input_name w) (input_context w) (input_prompt w)
             (button_start_new_disabled w) v (view_game_data w).
Definition set_view_game_data (v : list string) (w : widgets) : widgets :=
  mk_widgets (input_name w) (input_context w) (input_prompt w)
             (button_start_new_disabled w) (button_start_load_disabled w) v.

(** Running a method of [self.app]. *)
Definition on_app {A} (c : Py.M App.t A) : Py.M t A :=
  fun self => let (r, a) := c (app self) in (r, set_app a self).

(** [MenuScreen.on_start_new] *)
Definition on_start_new (self : t) : t :=
  let adv := App.adventure (app self) in
  let adv := Adventure.set_name (Some (input_name (ids self))) adv in
  let adv := Adventure.set_context (Some (input_context (ids self))) adv in
  let adv := Adventure.set_actions
               (Adventure.actions adv ++ [input_prompt (ids self)]) adv in
  set_current "play" (set_app (App.set_adventure adv (app self)) self).

(** [MenuScreen.update_button_start_new] *)
Definition update_button_start_new (self : t) : t :=
  set_ids
    (set_button_start_new_disabled
       (negb (ai self
              && Py.nonempty (Utils.strip (input_name (ids self)))
              && Py.nonempty (Utils.strip (input_context (ids self)))
              && Py.nonempty (Utils.strip (input_prompt (ids self)))))
       (ids self))
    self.

(** [MenuScreen.update_button_start_load] *)
Definition update_button_start_load (self : t) : t :=
  set_ids
    (set_button_start_load_disabled
       (negb (ai self && Py.truthy (selected_savefile self)))
       (ids self))
    self.

(** [MenuScreen.on_update] *)
Definition on_update (self : t) : t :=
  update_button_start_load (update_button_start_new self).

(** [MenuScreen.on_game_selected] *)
Definition on_game_selected (game : string) (self : t) : t :=
  on_update (set_selected_savefile (Some game) self).

(** [MenuScreen.on_start_load]; the [KeyError] is named by [str(key)]. *)
Definition on_start_load : Py.M t unit :=
  self <- Py.get ;;
  d <- Py.expect (dict_get (selected_savefile self) (savefiles self))
         (Py.KeyError (str (selected_savefile self))) ;;
  on_app (App.on_adventure (Adventure.from_dict d)) ;;
  Py.modify (set_current "play").

(** The file [p] holds a record [d] whose name is [key]. *)
Definition reads (self : t) (p : string) (key : option string)
    (d : gmap string Json.value) : Prop :=
  App.files (app self) !! p = Some d
  /\ exists v, d !! "name" = Some v /\ Json.to_optional v = Some key.

Section WithEnv.
Variable e : App.env.

(** [os.scandir(path)] as the paths of its entries, in the order in which
    the system gives them, or the exception of a directory that cannot be
    read. *)
Variable scandir : string -> Py.outcome (list string).

(** The body of the loop of [init_saves]: the file is read and registered
    under the name it holds; a name that is a list cannot be a key. *)
Definition register_save (p : string) : Py.M t unit :=
  self <- Py.get ;;
  data <- Py.expect (App.files (app self) !! p) (Py.FileNotFoundError p) ;;
  name <- Py.expect (data !! "name") (Py.KeyError "name") ;;
  key <- Py.expect (Json.to_optional name) Py.TypeError ;;
  Py.modify (fun self => set_savefiles (dict_set key data (savefiles self)) self).

Fixpoint register_saves (paths : list string) : Py.M t unit :=
  match paths with
  | [] => Py.ret tt
  | p :: rest => register_save p ;; register_saves rest
  end.

(** [MenuScreen.init_saves] *)
Definition init_saves : Py.M t unit :=
  entries <- (fun self => (scandir (App.get_user_path e ["adventures"]), self)) ;;
  let paths := List.filter (ends_with ".json") entries in
  register_saves paths ;;
  Py.modify (fun self =>
    set_ids (set_view_game_data (map str (savefiles self).*1) (ids self)) self) ;;
  Py.modify (set_selected_savefile None).
End WithEnv.

End Menu.

(** ** zero/main/app.py, the loading of the filter modules *)

Module Modules.

(** A module of the user directory, by the three attributes that are
    looked up in it; [None] for an attribute that it does not have. *)
Record pymodule : Type := {
  filter_input : option (string -> string);
  filter_output : option (string -> string);
  filter_display : option (list string -> string)
}.

(** The part of [App] that [init_mods] works on; [imported] lists the
    calls of [importlib.import_module] made so far, by their two
    arguments. *)
Record t : Type := mk {
  loaded_modules : gmap string pymodule;
  input_filters : list (string -> string);
  output_filters : list (string -> string);
  display_filter : option (list string -> string);
  imported : list (string * string)
}.

(** [App.__init__] *)
Definition init : t := mk ∅ [] [] None [].

(** [s.split(sep)] for a separator of one character. *)
Fixpoint split (sep : ascii) (s : string) : list string :=
  match s with
  | String c rest =>
      if Ascii.eqb c sep then EmptyString :: split sep rest
      else match split sep rest with
           | w :: ws => String c w :: ws
           | [] => [String c EmptyString]
           end
  | EmptyString => [EmptyString]
  end.

(** No character of [s] is [sep]. *)
Fixpoint lacks (sep : ascii) (s : string) : bool :=
  match s with
  | String c rest => negb (Ascii.eqb c sep) && lacks sep rest
  | EmptyString => true
  end.

(** The entry of a module in a list of the configuration, and such a
    list. *)
Definition entry (dm : string * string) : string :=
  (dm.1 ++ ":" ++ dm.2)%string.
Definition entries (l : list (string * string)) : string :=
  Py.join "," (map entry l).

(** [domain, module = l] *)
Definition unpack2 (l : list string) : Py.M t (string * string) :=
  match l with
  | [a; b] => Py.ret (a, b)
  | _ => Py.raise Py.ValueError
  end.

Section WithEnv.
(** [importlib.import_module(name, package)] *)
Variable import_module : string -> string -> Py.outcome pymodule.

(** The section [modules] of config.ini. *)
Variables (cfg_input_filters cfg_output_filters cfg_display_filter : string).

(** [App.load_module] *)
Definition load_module (domain module : string) : Py.M t pymodule :=
  let k := (domain ++ ":" ++ module)%string in
  self <- Py.get ;;
  match loaded_modules self !! k with
  | Some v => Py.ret v
  | None =>
      Py.modify (fun self =>
        mk (loaded_modules self) (input_filters self) (output_filters self)
           (display_filter self)
           (imported self
            ++ [(("." ++ module)%string, ("modules." ++ domain)%string)])) ;;
      v <- (fun self =>
              (import_module ("." ++ module) ("modules." ++ domain), self)) ;;
      Py.modify (fun self =>
        mk (<[k := v]> (loaded_modules self)) (input_filters self)
           (output_filters self) (display_filter self) (imported self)) ;;
      Py.ret v
  end.

(** [App.load_submodule]; the attribute is given by its accessor. *)
Definition load_submodule {A} (domain module : string)
    (submodule : pymodule -> option A) : Py.M t A :=
  m <- load_module domain module ;;
  Py.expect (submodule m) Py.AttributeError.

(** The body of the first loop of [init_mods]. *)
Definition add_input_filter (f : string) : Py.M t unit :=
  dm <- unpack2 (split ":" f) ;;
  flt <- load_submodule dm.1 dm.2 filter_input ;;
  Py.modify (fun self =>
    mk (loaded_modules self) (input_filters self ++ [flt])
       (output_filters self) (display_filter self) (imported self)).

(** The body of the second loop. *)
Definition add_output_filter (f : string) : Py.M t unit :=
  dm <- unpack2 (split ":" f) ;;
  flt <- load_submodule dm.1 dm.2 filter_output ;;
  Py.modify (fun self =>
    mk (loaded_modules self) (input_filters self)
       (output_filters self ++ [flt]) (display_filter self) (imported self)).

Fixpoint for_each (body : string -> Py.M t unit) (l : list string)
    : Py.M t unit :=
  match l with
  | [] => Py.ret tt
  | f :: rest => body f ;; for_each body rest
  end.

(** [App.init_mods] *)
Definition init_mods : Py.M t unit :=
  for_each add_input_filter (split "," cfg_input_filters) ;;
  for_each add_output_filter (split "," cfg_output_filters) ;;
  dm <- unpack2 (split ":" cfg_display_filter) ;;
  flt <- load_submodule dm.1 dm.2 filter_display ;;
  Py.modify (fun self =>
    mk (loaded_modules self) (input_filters self) (output_filters self)
       (Some flt) (imported self)).
(** Every import made so far is in the cache, and none was made
    twice. *)
Definition imports_cached (self : t) : Prop :=
  NoDup (imported self)
  /\ forall d m,
       (("." ++ m)%string, ("modules." ++ d)%string) ∈ imported self ->
       is_Some (loaded_modules self !! (d ++ ":" ++ m)%string).

(** A method keeps the imports cached as long as it returns, and imports
    nothing twice even when it raises. *)
Definition tidy {A} (c : Py.M t A) : Prop :=
  forall s,
    imports_cached s ->
    match c s with
    | (Py.Ret _, s') => imports_cached s'
    | (Py.Raise _, s') => NoDup (imported s')
    end.

(** What the cache holds under the key of a module is what importing
    that module gives. *)
Definition faithful (self : t) : Prop :=
  forall d m v,
    lacks ":" d = true ->
    loaded_modules self !! (d ++ ":" ++ m)%string = Some v ->
    import_module ("." ++ m) ("modules." ++ d) = Py.Ret v.
End WithEnv.

End Modules.

(** ** More sample data *)

Module Examples.

(** A session whose generator answers. *)
Definition env : App.env := Sample.env (Sample.answers " It is cold. ").

(** The play screen in the edit mode [m] at index [i]. *)
Definition editing (m : string) (i : nat) (adv : Adventure.t)
    : PlayScreen.t :=
  PlayScreen.set_edit_index i (PlayScreen.set_mode m (Sample.screen adv)).

(** The menu with a model loaded and the three lines of a new game. *)
Definition menu : Menu.t :=
  Menu.mk (Sample.app (Adventure.init None None)) true "menu" [] None
    (Menu.mk_widgets "My Game!! 2" "A cave." "look" true true []).

(** The menu of a session in which [Sample.two_turns] has been saved. *)
Definition menu_saved : Menu.t :=
  Menu.mk (App.save_adventure env (Sample.app Sample.two_turns)).2 true
    "menu" [] None (Menu.mk_widgets "" "" "" true true []).

(** A directory with that save and a file that is no save. *)
Definition scandir (path : string) : Py.outcome (list string) :=
  Py.Ret ["user/adventures/My_Game_2.json"; "user/adventures/notes.txt"].

(** The module of filters that every import gives. *)
Definition filters : Modules.pymodule :=
  {| Modules.filter_input := Some (fun s => ("> " ++ s)%string);
     Modules.filter_output := Some Utils.strip;
     Modules.filter_display := Some (Py.join " ") |}.

Definition import_module (name package : string)
    : Py.outcome Modules.pymodule :=
  Py.Ret filters.

End Examples.

(** ** The definitions at work *)

Example story_two_turns :
  Adventure.story Sample.two_turns
  = ["look"; "It is dark."; "run"; "You fall."]
  /\ Adventure.full_story Sample.three_turns
     = ["a0"; "r0"; "a1"; "r1"; "a2"; "r2"].
Proof. split; reflexivity. Qed.

Example slices :
  Py.slice ["a0"; "r0"; "a1"; "r1"] (-1) 4 = ["r1"]
  /\ Py.slice ["a0"; "r0"; "a1"; "r1"] 1 (-1) = ["r0"; "a1"]
  /\ Py.slice ["a0"; "r0"; "a1"; "r1"] 3 1 = []
  /\ Py.slice ["a0"; "r0"; "a1"; "r1"] (-9) 9 = ["a0"; "r0"; "a1"; "r1"]
  /\ Py.slice ["a0"; "r0"; "a1"; "r1"] 2 100 = ["a1"; "r1"].
Proof. repeat split. Qed.

Example save_names :
  Utils.get_save_name "  a   b! " = "a_b"
  /\ Utils.get_save_name "! a" = "_a"
  /\ Utils.words "  My  Game!! 2 " = ["My"; "Game!!"; "2"].
Proof. repeat split. Qed.

Example save_name_steps :
  Spec.strip_back (Spec.strip_front "  My  Game!! 2 ") = "My  Game!! 2"
  /\ Spec.collapse "My  Game!! 2" = "My_Game!!_2"
  /\ Spec.remove_others "My_Game!!_2" = "My_Game_2"
  /\ Spec.collapse " a " = "_a_".
Proof. repeat split. Qed.

Example references :
  PlayScreen.match_ref "a4b5" = Some ("a", Some "4")
  /\ PlayScreen.match_ref "x" = Some ("x", None)
  /\ PlayScreen.match_ref "4a" = None
  /\ PlayScreen.int "0123" = 123%Z.
Proof. repeat split. Qed.

(** Above 53 bits the halved index is the nearest binary64 number, not the
    integer quotient. *)
Example int_half_rounds :
  PlayScreen.int_half (2 ^ 53 + 3) = Py.Ret (2 ^ 52 + 2)%Z
  /\ ((2 ^ 53 + 3) / 2 = 2 ^ 52 + 1)%Z
  /\ PlayScreen.int_half (2 ^ 1025) = Py.Raise Py.OverflowError.
Proof. repeat split. Qed.

Example save_file :
  App.get_user_path (Sample.env Sample.times_out)
    ["adventures"; "My_Game_2.json"]
  = "user/adventures/My_Game_2.json".
Proof. reflexivity. Qed.

(** What [func_timeout] makes of the four ways in which a generator can
    end. *)
Example func_timeout_cases :
  let call generator :=
    App.func_timeout (Sample.env generator) 20
      (PlayScreen.generate_call (Sample.env generator) "go" None
         (Sample.screen Sample.two_turns)).2 in
  call (Sample.answers "It is cold.") = Py.Ret (Some "It is cold.")
  /\ call Sample.times_out = Py.Raise Py.FunctionTimedOut
  /\ call (fun _ _ => App.Fails (Py.GeneratorError "CUDA out of memory"))
     = Py.Raise (Py.GeneratorError "CUDA out of memory")
  /\ call Sample.dies = Py.Ret None.
Proof. repeat split. Qed.

(** A turn that succeeds: the filtered input and the filtered output are
    appended, the input line is cleared, the controls are enabled again
    and the adventure is saved. *)
Example turn_recorded :
  let e := Sample.env (Sample.answers " It is cold. ") in
  let done := PlayScreen._on_send_thread e "go"
                (Sample.screen Sample.two_turns) in
  done.1 = Py.Ret tt
  /\ Adventure.actions (PlayScreen.adventure done.2)
     = ["look"; "run"; "> go"]
  /\ Adventure.results (PlayScreen.adventure done.2)
     = ["It is dark."; "You fall."; "It is cold."]
  /\ PlayScreen.input_disabled (PlayScreen.ids done.2) = false
  /\ App.files (PlayScreen.app done.2) !! "user/adventures/My_Game_2.json"
     = Some (Adventure.to_dict (PlayScreen.adventure done.2))
  /\ App.arg_prompt
       (PlayScreen.generate_call e "> go" None
          (Sample.screen Sample.two_turns)).2
     = "A cave. You are brave. It is dark. run You fall. > go".
Proof. vm_compute. repeat split. Qed.

(** ** Lemmas on slices *)

Section SliceFacts.
Context {A : Type}.
Implicit Types (l : list A) (i j : Z).

Lemma adjust_index_range len i :
  (0 <= len)%Z -> (0 <= Py.adjust_index len i <= len)%Z.
Proof. unfold Py.adjust_index. destruct (Z.ltb_spec i 0); lia. Qed.

Lemma adjust_index_nonneg len i :
  (0 <= i)%Z -> Py.adjust_index len i = Z.min i len.
Proof. unfold Py.adjust_index. destruct (Z.ltb_spec i 0); lia. Qed.

Lemma slice_all l : Py.slice l 0 (Z.of_nat (length l)) = l.
Proof.
  unfold Py.slice. rewrite !adjust_index_nonneg by lia.
  replace (Z.min 0 _) with 0%Z by lia.
  rewrite Z.min_id, Z.sub_0_r, Nat2Z.id. simpl.
  apply firstn_all.
Qed.

Lemma slice_suffix l (k : nat) :
  k <= length l ->
  Py.slice l (Z.of_nat (length l) - Z.of_nat k) (Z.of_nat (length l))
  = drop (length l - k) l.
Proof.
  intros Hk. unfold Py.slice. rewrite !adjust_index_nonneg by lia.
  rewrite Z.min_id.
  replace (Z.min _ _) with (Z.of_nat (length l - k)) by lia.
  rewrite Nat2Z.id.
  apply take_ge. rewrite length_drop. lia.
Qed.

Lemma slice_empty l i j :
  (Py.adjust_index (Z.of_nat (length l)) j
   <= Py.adjust_index (Z.of_nat (length l)) i)%Z ->
  Py.slice l i j = [].
Proof.
  intros H. unfold Py.slice.
  replace (Z.to_nat _) with 0 by lia. reflexivity.
Qed.
End SliceFacts.

(** ** Lemmas on the interleaved story *)

Section InterleaveFacts.
Import Adventure.
Implicit Types (acts ress : list string).

Lemma interleave_cons a acts r ress :
  interleave (a :: acts) (r :: ress) = a :: r :: interleave acts ress.
Proof. reflexivity. Qed.

Lemma interleave_nil_r acts : interleave acts [] = [].
Proof. by destruct acts. Qed.

Lemma interleave_length acts ress :
  length (interleave acts ress) = 2 * (length acts `min` length ress).
Proof.
  revert ress. induction acts as [|a acts IH]; intros [|r ress]; try done.
  rewrite interleave_cons. cbn [length]. rewrite IH. lia.
Qed.

Lemma interleave_lookup_even acts ress i :
  i < length acts `min` length ress ->
  interleave acts ress !! (2 * i) = acts !! i.
Proof.
  revert ress i. induction acts as [|a acts IH]; intros [|r ress] i Hi;
    cbn [length] in Hi; try lia.
  destruct i as [|i]; [done|].
  rewrite interleave_cons.
  replace (2 * S i) with (S (S (2 * i))) by lia. cbn [lookup list_lookup].
  apply IH. lia.
Qed.

Lemma interleave_lookup_odd acts ress i :
  i < length acts `min` length ress ->
  interleave acts ress !! (2 * i + 1) = ress !! i.
Proof.
  revert ress i. induction acts as [|a acts IH]; intros [|r ress] i Hi;
    cbn [length] in Hi; try lia.
  destruct i as [|i]; [done|].
  rewrite interleave_cons.
  replace (2 * S i + 1) with (S (S (2 * i + 1))) by lia.
  cbn [lookup list_lookup]. apply IH. lia.
Qed.

(** An action without its result is not part of the view. *)
Lemma interleave_skew acts ress extra :
  length acts = length ress ->
  interleave (acts ++ [extra]) ress = interleave acts ress.
Proof.
  revert ress. induction acts as [|a acts IH]; intros [|r ress] Hlen;
    try done.
  cbn [app]. rewrite !interleave_cons. f_equal. f_equal.
  apply IH. by injection Hlen.
Qed.
End InterleaveFacts.

(** ** What a method leaves as it is *)

Section Preservation.
Context {S X : Type} (g : S -> X).

Lemma bind_returned {A B} (c : Py.M S A) (k : A -> Py.M S B) s a s' :
  c s = (Py.Ret a, s') -> Py.bind c k s = k a s'.
Proof. intros Hc. unfold Py.bind. by rewrite Hc. Qed.

Lemma bind_first {A B} (c c' : Py.M S A) (k : A -> Py.M S B) s :
  c s = c' s -> Py.bind c k s = Py.bind c' k s.
Proof. intros Hc. unfold Py.bind. by rewrite Hc. Qed.

Lemma preserves_bind {A B} (c : Py.M S A) (k : A -> Py.M S B) :
  Py.preserves g c -> (forall a, Py.preserves g (k a)) ->
  Py.preserves g (Py.bind c k).
Proof.
  intros Hc Hk s. unfold Py.bind. specialize (Hc s).
  destruct (c s) as [[a|exc] s1]; [|done].
  rewrite (Hk a s1). done.
Qed.

Lemma preserves_get : Py.preserves g (@Py.get S).
Proof. by intros s. Qed.

Lemma preserves_ret {A} (a : A) : Py.preserves g (@Py.ret S A a).
Proof. by intros s. Qed.

Lemma preserves_raise {A} exc : Py.preserves g (@Py.raise S A exc).
Proof. by intros s. Qed.

Lemma preserves_expect {A} (o : option A) exc :
  Py.preserves g (@Py.expect S A o exc).
Proof. by destruct o. Qed.

Lemma preserves_when b (c : Py.M S unit) :
  Py.preserves g c -> Py.preserves g (Py.when b c).
Proof. destruct b; [done|]. intros _. apply preserves_ret. Qed.

Lemma preserves_modify (f : S -> S) :
  (forall s, g (f s) = g s) -> Py.preserves g (Py.modify f).
Proof. intros Hf s. apply Hf. Qed.

Lemma preserves_outcome {A} (o : Py.outcome A) :
  Py.preserves g (fun s : S => (o, s)).
Proof. by intros s. Qed.
End Preservation.

(** Goes through a method statement by statement. *)
Ltac preserved :=
  repeat first
    [ apply preserves_bind; [|intros]
    | apply preserves_when
    | apply preserves_expect
    | apply preserves_ret
    | apply preserves_get
    | apply preserves_raise
    | apply preserves_outcome
    | apply preserves_modify; intros; reflexivity
    | assumption
    | case_match ].

(** ** The story views *)

Section StoryViews.
Import Adventure.

Lemma context_entry_truthy self c :
  context self = Some c -> c <> "" -> context_entry self = [c].
Proof.
  intros Hc Hne. unfold context_entry. rewrite Hc. cbn.
  destruct (String.eqb_spec c ""); [contradiction | reflexivity].
Qed.

Lemma context_entry_falsy self :
  context self = None \/ context self = Some "" -> context_entry self = [].
Proof. unfold context_entry. by intros [-> | ->]. Qed.

(** C3: with n actions and n results the interleaved story has 2n
    entries, entry 2i is action i and entry 2i+1 is result i for every
    i < n; the full story is the context followed by the interleaved
    story when the context is not empty, and the interleaved story
    alone otherwise. *)
Theorem story_interleaves (self : t) (n : nat) :
  length (actions self) = n ->
  length (results self) = n ->
  length (story self) = 2 * n
  /\ (forall i, i < n ->
        exists a r,
          actions self !! i = Some a /\ results self !! i = Some r
          /\ story self !! (2 * i) = Some a
          /\ story self !! (2 * i + 1) = Some r)
  /\ (forall c, context self = Some c -> c <> "" ->
        full_story self = [c] ++ story self)
  /\ (context self = None \/ context self = Some "" ->
        full_story self = story self).
Proof.
  intros Ha Hr. unfold full_story, story.
  split; [rewrite interleave_length; lia|].
  split; [|split].
  - intros i Hi.
    destruct (lookup_lt_is_Some_2 (actions self) i) as [a Hai]; [lia|].
    destruct (lookup_lt_is_Some_2 (results self) i) as [r Hri]; [lia|].
    exists a, r. repeat split; try done.
    + rewrite interleave_lookup_even; [done | lia].
    + rewrite interleave_lookup_odd; [done | lia].
  - intros c Hc Hne. by rewrite (context_entry_truthy self c).
  - intros Hc. by rewrite context_entry_falsy.
Qed.

Lemma story_interleaves_witness :
  length (story Sample.two_turns) = 2 * 2
  /\ story Sample.two_turns
     = ["look"; "It is dark."; "run"; "You fall."].
Proof.
  split; [|reflexivity].
  exact (proj1 (story_interleaves Sample.two_turns 2 eq_refl eq_refl)).
Defined.

(** C10: whatever the lengths of [actions] and [results], the
    interleaved story is defined and has twice the smaller length; an
    action that has no result yet is left out of it. *)
Theorem story_total (self : t) :
  length (story self) = 2 * (length (actions self) `min` length (results self))
  /\ (forall extra,
        length (actions self) = length (results self) ->
        story (set_actions (actions self ++ [extra]) self) = story self).
Proof.
  split; [apply interleave_length|].
  intros extra Hlen. unfold story. cbn. by apply interleave_skew.
Qed.

Lemma story_total_witness :
  story (set_actions (actions Sample.two_turns ++ ["jump"]) Sample.two_turns)
  = story Sample.two_turns.
Proof.
  exact (proj2 (story_total Sample.two_turns) "jump" eq_refl).
Defined.
End StoryViews.

(** ** The window of [get_ai_story] *)

Section Window.
Import Adventure.

Lemma adjust_index_from_end len i :
  (0 <= len)%Z ->
  Py.adjust_index len i = Spec.clamp len (Spec.from_end len i).
Proof.
  intros Hlen. unfold Py.adjust_index, Spec.clamp, Spec.from_end.
  destruct (Z.ltb_spec i 0); lia.
Qed.

Lemma from_end_nonneg len i : (0 <= i)%Z -> Spec.from_end len i = i.
Proof. unfold Spec.from_end. destruct (Z.ltb_spec i 0); [lia | done]. Qed.

Lemma get_ai_story_from_end self start stop :
  let len := Z.of_nat (length (story self)) in
  get_ai_story self (Some start) (Some stop)
  = Spec.windowed_prompt self (Spec.from_end len start)
                         (Spec.from_end len stop).
Proof.
  cbn. unfold get_ai_story, Spec.windowed_prompt, Py.slice.
  rewrite !adjust_index_from_end by lia. by rewrite <- app_assoc.
Qed.

(** C5, as the code has it: [get_ai_story] never raises; an index that
    is not negative is clamped into [0, len(story)], so that an end
    beyond the story selects up to the last entry and a start after the
    end selects nothing; a negative index is counted from the end of the
    story before it is clamped. *)
Theorem get_ai_story_window (self : t) (start stop : Z) :
  let len := Z.of_nat (length (story self)) in
  get_ai_story self (Some start) (Some stop)
  = Spec.windowed_prompt self (Spec.from_end len start)
                         (Spec.from_end len stop)
  /\ ((0 <= start)%Z -> (0 <= stop)%Z ->
      get_ai_story self (Some start) (Some stop)
      = Spec.windowed_prompt self start stop)
  /\ ((0 <= start)%Z -> (len <= stop)%Z ->
      get_ai_story self (Some start) (Some stop)
      = context_entry self ++ [memory self]
        ++ drop (Z.to_nat start) (story self))
  /\ ((0 <= stop < start)%Z ->
      get_ai_story self (Some start) (Some stop)
      = context_entry self ++ [memory self]).
Proof.
  intros len. split; [apply get_ai_story_from_end|].
  split; [|split].
  - intros Hs He. rewrite get_ai_story_from_end.
    by rewrite !from_end_nonneg.
  - intros Hs He. rewrite get_ai_story_from_end.
    rewrite !from_end_nonneg by lia.
    unfold Spec.windowed_prompt, Spec.clamp. fold len.
    do 2 f_equal.
    destruct (Z.le_gt_cases start len).
    + replace (Z.max 0 (Z.min start len)) with start by lia.
      apply take_ge. rewrite length_drop. lia.
    + rewrite !drop_ge by lia. by rewrite take_nil.
  - intros Hse. rewrite get_ai_story_from_end.
    rewrite !from_end_nonneg by lia.
    unfold Spec.windowed_prompt, Spec.clamp. fold len.
    replace (Z.to_nat _) with 0 by lia.
    rewrite take_0. by rewrite app_nil_r.
Qed.

Lemma get_ai_story_window_witness :
  get_ai_story Sample.two_turns (Some 1%Z) (Some 9%Z)
  = ["A cave."; "You are brave."; "It is dark."; "run"; "You fall."]
  /\ get_ai_story Sample.two_turns (Some 3%Z) (Some 1%Z)
     = ["A cave."; "You are brave."].
Proof.
  split.
  - exact (proj1 (proj2 (proj2 (get_ai_story_window Sample.two_turns 1 9)))
             ltac:(lia) ltac:(cbn; lia)).
  - exact (proj2 (proj2 (proj2 (get_ai_story_window Sample.two_turns 3 1)))
             ltac:(lia)).
Defined.

(** C5 as the specification states it fails: a negative start does not
    select from index 0.  On a story of four entries [story[-1:4]] is the
    last entry alone, where clamping -1 to 0 would give all four. *)
Lemma get_ai_story_negative_start :
  get_ai_story Sample.two_turns (Some (-1)%Z) (Some 4%Z)
  = ["A cave."; "You are brave."; "You fall."]
  /\ Spec.windowed_prompt Sample.two_turns (-1) 4
     = ["A cave."; "You are brave.";
        "look"; "It is dark."; "run"; "You fall."]
  /\ get_ai_story Sample.two_turns (Some (-1)%Z) (Some 4%Z)
     <> Spec.windowed_prompt Sample.two_turns (-1) 4.
Proof. repeat split. discriminate. Qed.
End Window.

(** ** The prompt of a generation turn *)

Section Prompt.
Variable e : App.env.
Import Adventure.

(** C4: with [memory <= 0] and the end left to its default, the entries
    selected for the generator are those of the full story with the
    memory put after the context (if any); with [memory = k > 0] and the
    end at 2n they are the context (if any), the memory and the last
    [min k 2n] entries of the interleaved story. *)
Theorem ai_story_window (self : PlayScreen.t) (n : nat) :
  let adv := PlayScreen.adventure self in
  length (actions adv) = n ->
  length (results adv) = n ->
  ((App.memory (App.cfg e) <= 0)%Z ->
     PlayScreen.ai_story e self None
     = context_entry adv ++ [memory adv] ++ story adv
     /\ full_story adv = context_entry adv ++ story adv)
  /\ (forall stop,
        stop = None \/ stop = Some (Z.of_nat (2 * n)) ->
        (0 < App.memory (App.cfg e))%Z ->
        let m := Z.to_nat (Z.min (App.memory (App.cfg e)) (Z.of_nat (2 * n))) in
        PlayScreen.ai_story e self stop
        = context_entry adv ++ [memory adv] ++ drop (2 * n - m) (story adv)
        /\ length (drop (2 * n - m) (story adv)) = m).
Proof.
  intros adv Ha Hr.
  assert (Hlen : length (story adv) = 2 * n).
  { unfold story. rewrite interleave_length. lia. }
  split.
  - intros Hmem. split; [|reflexivity].
    unfold PlayScreen.ai_story. fold adv.
    destruct (Z.leb_spec (App.memory (App.cfg e)) 0); [|lia].
    rewrite Z.sub_diag. unfold get_ai_story.
    by rewrite slice_all, <- app_assoc.
  - intros stop Hstop Hmem m.
    assert (Hm : m <= length (story adv)) by lia.
    split; [|rewrite length_drop; lia].
    unfold PlayScreen.ai_story. fold adv.
    destruct (Z.leb_spec (App.memory (App.cfg e)) 0); [lia|].
    assert (Hend : match stop with
                   | Some n0 => n0
                   | None => Z.of_nat (length (story adv))
                   end = Z.of_nat (length (story adv))).
    { destruct Hstop as [-> | ->]; [done | by rewrite Hlen]. }
    rewrite Hend. unfold get_ai_story.
    replace (Z.min _ _) with (Z.of_nat m) by lia.
    rewrite slice_suffix by done.
    by rewrite Hlen, <- app_assoc.
Qed.
End Prompt.

Lemma ai_story_window_witness :
  PlayScreen.ai_story (Sample.env Sample.times_out)
    (Sample.screen Sample.two_turns) (Some 4%Z)
  = ["A cave."; "You are brave."; "It is dark."; "run"; "You fall."].
Proof.
  exact (proj1 (proj2 (ai_story_window (Sample.env Sample.times_out)
                         (Sample.screen Sample.two_turns) 2 eq_refl eq_refl)
                  (Some 4%Z) (or_intror eq_refl) ltac:(cbn; lia))).
Defined.

(** ** Save names *)

Section SaveName.
Import Utils.

Lemma name_char_not_space c : is_name_char c = true -> is_space c = false.
Proof.
  destruct c as [[] [] [] [] [] [] [] []]; vm_compute; congruence.
Qed.

Lemma clean_sub_other s : clean (sub_other s) = true.
Proof.
  induction s as [|c s IH]; [done|]. cbn.
  destruct (is_name_char c) eqn:Hc; [|done]. cbn. by rewrite Hc.
Qed.

Lemma clean_lstrip s : clean s = true -> lstrip s = s.
Proof.
  destruct s as [|c s]; [done|]. cbn. intros [Hc _]%andb_prop.
  by rewrite (name_char_not_space c Hc).
Qed.

Lemma clean_rstrip s : clean s = true -> rstrip s = s.
Proof.
  induction s as [|c s IH]; [done|]. cbn. intros [Hc Hs]%andb_prop.
  rewrite (IH Hs), (name_char_not_space c Hc). by destruct s.
Qed.

Lemma clean_sub_spaces b s : clean s = true -> sub_spaces b s = s.
Proof.
  revert b. induction s as [|c s IH]; intros b; [done|].
  cbn. intros [Hc Hs]%andb_prop.
  by rewrite (name_char_not_space c Hc), (IH false Hs).
Qed.

Lemma clean_sub_other_id s : clean s = true -> sub_other s = s.
Proof.
  induction s as [|c s IH]; [done|]. cbn. intros [Hc Hs]%andb_prop.
  by rewrite Hc, (IH Hs).
Qed.

Lemma words_space c s : is_space c = true -> words (String c s) = words s.
Proof. intros Hc. unfold words. cbn. by rewrite Hc. Qed.

Lemma words_nonspace c s :
  is_space c = false ->
  words (String c s)
  = match s with
    | String d _ =>
        if is_space d then String c "" :: words s
        else match words s with
             | w :: ws => String c w :: ws
             | [] => [String c ""]
             end
    | EmptyString => [String c ""]
    end.
Proof.
  intros Hc. destruct s as [|d s]; unfold words; cbn; rewrite Hc; [done|].
  destruct (is_space d); [done|].
  by destruct (pieces s).
Qed.

Lemma words_blank s : blank s = true -> words s = [].
Proof.
  induction s as [|c s IH]; [done|]. cbn [blank].
  intros [Hc Hs]%andb_prop. rewrite words_space by done. auto.
Qed.

Lemma words_not_blank s : blank s = false -> words s <> [].
Proof.
  induction s as [|c s IH]; [done|]. cbn [blank]. intros Hb.
  destruct (is_space c) eqn:Hc.
  - rewrite words_space by done. auto.
  - rewrite words_nonspace by done.
    destruct s as [|d s]; [done|].
    destruct (is_space d); [done|]. by destruct (words _).
Qed.

Lemma rstrip_blank s : blank s = true -> rstrip s = "".
Proof.
  induction s as [|c s IH]; [done|]. cbn. intros [Hc Hs]%andb_prop.
  by rewrite (IH Hs), Hc.
Qed.

Lemma rstrip_not_blank s : blank s = false -> rstrip s <> "".
Proof.
  induction s as [|c s IH]; [done|]. cbn. intros Hb.
  destruct (rstrip s) eqn:Hr; [|done].
  destruct (is_space c); [|done]. cbn in Hb. by apply IH in Hb.
Qed.

Lemma rstrip_cons c s :
  rstrip (String c s)
  = if blank s then (if is_space c then "" else String c "")
    else String c (rstrip s).
Proof.
  cbn. destruct (blank s) eqn:Hb.
  - by rewrite rstrip_blank.
  - apply rstrip_not_blank in Hb. by destruct (rstrip s).
Qed.

Lemma join_cons sep w l :
  l <> [] -> Py.join sep (w :: l) = (w ++ sep ++ Py.join sep l)%string.
Proof. by destruct l. Qed.

(** What [re.sub] makes of a name without whitespace at its end: the
    words with one separator between them, after a separator for the
    whitespace in front, if any. *)
Lemma sub_spaces_rstrip b s :
  sub_spaces b (rstrip s)
  = ((if starts_space s && negb b && negb (blank s) then "_" else "")
     ++ Py.join "_" (words s))%string.
Proof.
  revert b. induction s as [|c s IH]; intros b; [done|].
  rewrite rstrip_cons. cbn [starts_space blank].
  destruct (blank s) eqn:Hb, (is_space c) eqn:Hc; cbn [andb negb].
  - rewrite words_space, words_blank by done.
    by rewrite !andb_false_r.
  - rewrite words_nonspace by done. cbn. rewrite Hc.
    destruct s as [|d s]; [done|].
    cbn in Hb. apply andb_prop in Hb as [Hd Hs]. rewrite Hd.
    rewrite words_space, words_blank by done. done.
  - rewrite words_space by done. rewrite andb_true_r.
    cbn [sub_spaces]. rewrite Hc, IH.
    rewrite andb_false_r. cbn [andb]. by destruct b.
  - rewrite words_nonspace by done. cbn [sub_spaces]. rewrite Hc, IH.
    cbn [negb]. rewrite !andb_true_r.
    pose proof (words_not_blank s Hb) as Hw.
    destruct s as [|d s]; [done|]. cbn [starts_space].
    destruct (is_space d).
    + by rewrite join_cons.
    + destruct (words (String d s)) as [|w [|w' ws]]; done.
Qed.

Lemma starts_space_lstrip s : starts_space (lstrip s) = false.
Proof.
  induction s as [|c s IH]; [done|]. cbn.
  destruct (is_space c) eqn:Hc; [done|]. cbn. by rewrite Hc.
Qed.

Lemma words_lstrip s : words (lstrip s) = words s.
Proof.
  induction s as [|c s IH]; [done|]. cbn [lstrip].
  destruct (is_space c) eqn:Hc; [|done]. by rewrite words_space.
Qed.

Lemma get_save_name_words s :
  get_save_name s = sub_other (Py.join "_" (words s)).
Proof.
  unfold get_save_name, strip.
  rewrite sub_spaces_rstrip, starts_space_lstrip, words_lstrip. done.
Qed.

Lemma get_save_name_clean s : clean s = true -> get_save_name s = s.
Proof.
  intros Hs. unfold get_save_name, strip.
  rewrite (clean_lstrip s Hs), (clean_rstrip s Hs).
  rewrite (clean_sub_spaces false s Hs). by apply clean_sub_other_id.
Qed.
End SaveName.

Section SaveNameTheorem.
Import Utils.

(** The specification and the code mean the same characters. *)
Lemma is_whitespace_space c : Spec.is_whitespace c = is_space c.
Proof. destruct c as [[] [] [] [] [] [] [] []]; reflexivity. Qed.

Lemma in_alphabet_name_char c : Spec.in_alphabet c = is_name_char c.
Proof. destruct c as [[] [] [] [] [] [] [] []]; reflexivity. Qed.

Lemma strip_front_lstrip s : Spec.strip_front s = lstrip s.
Proof.
  induction s as [|c s IH]; [done|]. cbn [Spec.strip_front lstrip].
  rewrite is_whitespace_space. by destruct (is_space c).
Qed.

Lemma only_whitespace_blank s : Spec.only_whitespace s = blank s.
Proof.
  induction s as [|c s IH]; [done|]. cbn [Spec.only_whitespace blank].
  by rewrite is_whitespace_space, IH.
Qed.

Lemma strip_back_rstrip s : Spec.strip_back s = rstrip s.
Proof.
  induction s as [|c s IH]; [done|].
  rewrite rstrip_cons. cbn [Spec.strip_back].
  rewrite only_whitespace_blank. cbn [blank].
  destruct (is_space c), (blank s) eqn:Hb; cbn [andb]; rewrite ?IH;
    try done.
  by rewrite rstrip_blank.
Qed.

(** A run of whitespace gives one separator, put where the run starts or
    where it ends. *)
Lemma sub_spaces_started s :
  sub_spaces false s
  = if starts_space s then String "_" (sub_spaces true s)
    else sub_spaces true s.
Proof. destruct s as [|c s]; [done|]. cbn. by destruct (is_space c). Qed.

Lemma collapse_sub_spaces s : Spec.collapse s = sub_spaces false s.
Proof.
  induction s as [|c s IH]; [done|].
  cbn [Spec.collapse sub_spaces]. rewrite is_whitespace_space.
  destruct (is_space c); [|by rewrite IH].
  destruct s as [|d s]; [done|].
  rewrite is_whitespace_space, IH, sub_spaces_started. cbn [starts_space].
  by destruct (is_space d).
Qed.

Lemma remove_others_sub_other s : Spec.remove_others s = sub_other s.
Proof.
  unfold Spec.remove_others. induction s as [|c s IH]; [done|].
  cbn [list_ascii_of_string List.filter sub_other].
  rewrite in_alphabet_name_char.
  destruct (is_name_char c); cbn [string_of_list_ascii]; by rewrite IH.
Qed.

Lemma all_in_alphabet_clean s : Spec.all_in_alphabet s = clean s.
Proof.
  unfold Spec.all_in_alphabet.
  induction s as [|c s IH]; [done|].
  cbn [list_ascii_of_string forallb clean].
  by rewrite in_alphabet_name_char, IH.
Qed.

(** C7: the save name of a name is the name with the whitespace at its
    ends stripped, every run of whitespace inside collapsed to one
    separator, and every character removed that is not a letter, a
    digit, [_] or [-]: every character of a save name is one of these,
    and a name made of these characters only is its own save name.
    Taking the save name twice is taking it once; the save name of
    "My Game!! 2" is "My_Game_2". *)
Theorem get_save_name_idempotent :
  (forall x, get_save_name x = Spec.save_name x)
  /\ (forall x, Spec.all_in_alphabet (get_save_name x) = true)
  /\ (forall x, Spec.all_in_alphabet x = true -> get_save_name x = x)
  /\ (forall x, get_save_name (get_save_name x) = get_save_name x)
  /\ get_save_name "My Game!! 2" = "My_Game_2".
Proof.
  split; [|split; [|split; [|split]]].
  - intros x. unfold Spec.save_name, get_save_name, strip.
    by rewrite remove_others_sub_other, collapse_sub_spaces,
      strip_back_rstrip, strip_front_lstrip.
  - intros x. rewrite all_in_alphabet_clean. apply clean_sub_other.
  - intros x. rewrite all_in_alphabet_clean. apply get_save_name_clean.
  - intros x. apply get_save_name_clean, clean_sub_other.
  - reflexivity.
Qed.
End SaveNameTheorem.

Lemma get_save_name_idempotent_witness :
  Utils.get_save_name "My_Game-2" = "My_Game-2".
Proof.
  exact (proj1 (proj2 (proj2 get_save_name_idempotent)) "My_Game-2" eq_refl).
Defined.

(** ** Saving and loading *)

Section SaveLoad.
Import Adventure.

Lemma to_optional_of_optional o :
  Json.to_optional (Json.of_optional o) = Some o.
Proof. by destruct o. Qed.

Lemma from_dict_to_dict adv self :
  from_dict (to_dict adv) self = (Py.Ret tt, adv).
Proof.
  destruct adv as [n c m a r].
  unfold from_dict, item, to_dict, Py.bind, Py.expect, Py.modify. cbn.
  repeat (rewrite ?lookup_insert_eq, ?lookup_insert_ne by done; cbn;
          rewrite ?to_optional_of_optional; cbn).
  reflexivity.
Qed.

(** C8: [from_dict] after [to_dict] gives back the name, the context,
    the memory, the actions and the results; and when an adventure has
    been saved, loading it replaces whatever adventure of that name the
    session holds by the one that was saved. *)
Theorem save_load_roundtrip :
  (forall adv self, from_dict (to_dict adv) self = (Py.Ret tt, adv))
  /\ (forall (e : App.env) (app : App.t) (nm : string),
        name (App.adventure app) = Some nm ->
        exists saved,
          App.save_adventure e app = (Py.Ret tt, saved)
          /\ App.adventure saved = App.adventure app
          /\ forall other,
               name other = Some nm ->
               exists loaded,
                 App.load_adventure e (App.set_adventure other saved)
                 = (Py.Ret tt, loaded)
                 /\ App.adventure loaded = App.adventure app).
Proof.
  split; [exact from_dict_to_dict|].
  intros e app nm Hnm.
  unfold App.save_adventure, App.save_path, Py.bind, Py.get, Py.expect,
    Py.modify, Py.ret. cbn. rewrite Hnm. cbn.
  eexists. split; [reflexivity|]. split; [reflexivity|].
  intros other Hother.
  unfold App.load_adventure, App.save_path, App.on_adventure, Py.bind,
    Py.get, Py.expect, Py.ret. cbn. rewrite Hother. cbn.
  rewrite lookup_insert_eq. cbn. rewrite from_dict_to_dict.
  eexists. split; reflexivity.
Qed.

Lemma save_load_roundtrip_witness :
  exists saved loaded,
    App.save_adventure (Sample.env Sample.times_out)
      (Sample.app Sample.two_turns)
    = (Py.Ret tt, saved)
    /\ App.load_adventure (Sample.env Sample.times_out)
         (App.set_adventure (init (Some "My Game!! 2") None) saved)
       = (Py.Ret tt, loaded)
    /\ App.adventure loaded = Sample.two_turns.
Proof.
  destruct (proj2 save_load_roundtrip (Sample.env Sample.times_out)
              (Sample.app Sample.two_turns) "My Game!! 2" eq_refl)
    as (saved & Hsave & _ & Hload).
  destruct (Hload (init (Some "My Game!! 2") None) eq_refl)
    as (loaded & Hl & Hadv).
  exists saved, loaded. auto.
Defined.
End SaveLoad.

(** ** A generation that fails *)

Section FailedGeneration.
Variable e : App.env.
Import PlayScreen.

Lemma generate_raises text record stop self exc :
  generated e text stop self = Py.Raise exc ->
  _generate e text record stop self = (Py.Raise exc, self).
Proof.
  intros Hgen. unfold _generate, generate_return, Py.bind, Py.get.
  by rewrite Hgen.
Qed.

Lemma send_action_raises text self exc :
  mode self = "" ->
  generated e text None self = Py.Raise exc ->
  send_action e text self = (Py.Raise exc, self).
Proof.
  intros Hmode Hgen. unfold send_action, Py.bind, Py.get.
  rewrite Hmode. cbn [String.eqb].
  by rewrite (generate_raises _ _ _ _ exc).
Qed.

(** What [_try_send] leaves when the block of its [try] raises. *)
Lemma try_except_return_raises block self self' exc :
  block self = (Py.Raise exc, self') ->
  try_except_return block self
  = if Py.is_FunctionTimedOut exc then
      (Py.Raise (Py.UnboundLocalError "result"),
       (open_error_popup timeout_text self').2)
    else if Py.is_Exception exc then
      (Py.Raise (Py.UnboundLocalError "result"),
       (open_error_popup error_text self').2)
    else (Py.Raise exc, self').
Proof.
  intros Hblock. unfold try_except_return, Py.bind. rewrite Hblock.
  unfold handle.
  destruct (Py.is_FunctionTimedOut exc); [reflexivity|].
  destruct (Py.is_Exception exc); reflexivity.
Qed.

Lemma try_except_return_adventure block self self' exc :
  block self = (Py.Raise exc, self') ->
  adventure (try_except_return block self).2 = adventure self'.
Proof.
  intros Hblock. rewrite (try_except_return_raises _ _ _ _ Hblock).
  destruct (Py.is_FunctionTimedOut exc); [reflexivity|].
  destruct (Py.is_Exception exc); reflexivity.
Qed.

Lemma send_begin_eq text self :
  send_begin e text self
  = (Py.Ret (filter_input e text),
     set_ids (set_button_send_disabled true
                (set_input_disabled true (ids self))) self).
Proof. reflexivity. Qed.

(** The generator is called with the same arguments whatever the
    widgets show. *)
Lemma generated_widgets text stop w self :
  generated e text stop (set_ids w self) = generated e text stop self.
Proof. reflexivity. Qed.

(** [func_timeout] raises when the generator is still running at the
    time limit and when it raises an [Exception]. *)
Lemma generated_fails text stop self :
  generation e text stop self = App.Hangs
  \/ (exists exc, generation e text stop self = App.Fails exc
                  /\ Py.is_Exception exc = true) ->
  exists exc, generated e text stop self = Py.Raise exc.
Proof.
  unfold generation, generated, App.func_timeout.
  destruct (generate_call e text stop self) as [timeout args].
  intros [-> | (exc & -> & ->)]; eauto.
Qed.

(** C1, as the code has it: when the call of the generator times out,
    or raises an exception that derives from [Exception], the adventure
    is after [_generate], after [_try_send] and after the whole of
    [_on_send_thread] what it was before: same actions, same results,
    same name, context and memory; the text that was sent is not
    appended. *)
Theorem failed_generation_keeps_story (self : t) (text : string) :
  mode self = "" ->
  generation e (filter_input e text) None self = App.Hangs
  \/ (exists exc,
        generation e (filter_input e text) None self = App.Fails exc
        /\ Py.is_Exception exc = true) ->
  adventure (_generate e (filter_input e text) true None self).2
  = adventure self
  /\ adventure (_try_send e (filter_input e text) self).2 = adventure self
  /\ adventure (_on_send_thread e text self).2 = adventure self.
Proof.
  intros Hmode [exc Hgen]%generated_fails. split; [|split].
  - by rewrite (generate_raises _ _ _ _ exc).
  - unfold _try_send.
    by rewrite (try_except_return_adventure _ self self exc)
      by (by apply send_action_raises).
  - unfold _on_send_thread, Py.bind at 1. rewrite send_begin_eq.
    set (self1 := set_ids _ self).
    assert (Hsend : send_action e (filter_input e text) self1
                    = (Py.Raise exc, self1)).
    { apply send_action_raises; [done|].
      unfold self1. by rewrite generated_widgets. }
    unfold _try_send, Py.bind.
    rewrite (try_except_return_raises _ _ _ _ Hsend).
    destruct (Py.is_FunctionTimedOut exc); [reflexivity|].
    destruct (Py.is_Exception exc); reflexivity.
Qed.

(** C2, what the code does: when the generation fails with
    [FunctionTimedOut] or with an [Exception], [_try_send] opens the
    popup of the case and then raises [UnboundLocalError] at
    [return result]; no outcome is returned, [_on_send_thread] is left
    by that exception, and the input and the send button stay
    disabled. *)
Theorem try_send_failure_escapes (self : t) (text : string)
    (exc : Py.exn) :
  mode self = "" ->
  generated e (filter_input e text) None self = Py.Raise exc ->
  Py.is_FunctionTimedOut exc || Py.is_Exception exc = true ->
  (_try_send e (filter_input e text) self).1
  = Py.Raise (Py.UnboundLocalError "result")
  /\ error_popups (_try_send e (filter_input e text) self).2
     = error_popups self
       ++ [if Py.is_FunctionTimedOut exc then timeout_text else error_text]
  /\ (_on_send_thread e text self).1
     = Py.Raise (Py.UnboundLocalError "result")
  /\ input_disabled (ids (_on_send_thread e text self).2) = true
  /\ button_send_disabled (ids (_on_send_thread e text self).2) = true.
Proof.
  intros Hmode Hgen Hclass.
  assert (Htry : forall self0,
            mode self0 = "" ->
            generated e (filter_input e text) None self0 = Py.Raise exc ->
            _try_send e (filter_input e text) self0
            = (Py.Raise (Py.UnboundLocalError "result"),
               (open_error_popup
                  (if Py.is_FunctionTimedOut exc
                   then timeout_text else error_text) self0).2)).
  { intros self0 Hm Hg. unfold _try_send.
    rewrite (try_except_return_raises _ self0 self0 exc)
      by (by apply send_action_raises).
    destruct (Py.is_FunctionTimedOut exc); [reflexivity|].
    cbn in Hclass. by rewrite Hclass. }
  rewrite (Htry self Hmode Hgen).
  split; [reflexivity|]. split; [reflexivity|].
  unfold _on_send_thread, Py.bind. rewrite send_begin_eq.
  rewrite Htry by done. by repeat split.
Qed.
End FailedGeneration.

Lemma failed_generation_keeps_story_witness :
  PlayScreen.adventure
    (PlayScreen._on_send_thread (Sample.env Sample.times_out) "look"
       (Sample.screen Sample.two_turns)).2
  = Sample.two_turns.
Proof.
  exact (proj2 (proj2
    (failed_generation_keeps_story (Sample.env Sample.times_out)
       (Sample.screen Sample.two_turns) "look" eq_refl
       (or_introl eq_refl)))).
Defined.

(** C1 as the specification states it fails: a generator that raises is
    not always a generation that fails.  When the generator ends with
    [SystemExit], which is no [Exception], [func_timeout] returns [None];
    with [str(text).strip()] as output filter the turn is recorded like
    any other, with the text "None" as its result, and no popup is
    opened.  Without output filters the text that was sent is appended to
    the actions all the same. *)
Lemma generator_death_recorded :
  let e := Sample.formatting (Sample.env Sample.dies) in
  let self := Sample.screen Sample.two_turns in
  let done := PlayScreen._on_send_thread e "go" self in
  PlayScreen.generation e "> go" None self
  = App.Fails (Py.BaseExceptionOther "SystemExit")
  /\ PlayScreen.generated e "> go" None self = Py.Ret None
  /\ done.1 = Py.Ret tt
  /\ Adventure.actions (PlayScreen.adventure done.2)
     = ["look"; "run"; "> go"]
  /\ Adventure.results (PlayScreen.adventure done.2)
     = ["It is dark."; "You fall."; "None"]
  /\ PlayScreen.error_popups done.2 = PlayScreen.error_popups self
  /\ Adventure.actions
       (PlayScreen.adventure
          (PlayScreen._try_send (Sample.unfiltered (Sample.env Sample.dies))
             "> go" self).2)
     = ["look"; "run"; "> go"].
Proof. vm_compute. repeat split. Qed.

Lemma try_send_failure_escapes_witness :
  (PlayScreen._on_send_thread (Sample.env Sample.times_out) "look"
     (Sample.screen Sample.two_turns)).1
  = Py.Raise (Py.UnboundLocalError "result").
Proof.
  exact (proj1 (proj2 (proj2
    (try_send_failure_escapes (Sample.env Sample.times_out)
       (Sample.screen Sample.two_turns) "look" Py.FunctionTimedOut
       eq_refl eq_refl eq_refl)))).
Defined.

(** ** Selecting an entry *)

Section Selection.
Variable e : App.env.
Import PlayScreen.

Lemma int_half_small n :
  (0 <= n < 2 ^ 53)%Z -> int_half n = Py.Ret (n / 2)%Z.
Proof.
  intros Hn. unfold int_half.
  destruct (Z.leb_spec (Z.log2 n + 1) 53) as [_ | Hbits]; [done|].
  exfalso. destruct (Z.eq_dec n 0%Z) as [-> | Hnz]; [cbn in Hbits; lia|].
  assert (Z.log2 n < 53)%Z by (apply Z.log2_lt_pow2; lia). lia.
Qed.

Lemma int_from_nonneg d acc :
  digits d = d -> (0 <= acc)%Z -> (0 <= int_from acc d)%Z.
Proof.
  revert acc. induction d as [|x d IH]; intros acc; [done|].
  cbn. destruct (is_digit x) eqn:Hx; [|done].
  intros [= Hd] Hacc. apply IH; [done|].
  unfold is_digit in Hx. apply andb_prop in Hx as [Hlo _].
  apply N.leb_le in Hlo. lia.
Qed.

Lemma match_ref_tag c d :
  is_lower c = true -> digits d = d -> d <> "" ->
  match_ref (String c d) = Some (String c "", Some d).
Proof.
  intros Hc Hd Hne. unfold match_ref. rewrite Hc, Hd.
  unfold Py.nonempty. by destruct (String.eqb_spec d "").
Qed.

(** [on_update] leaves the mode, the index and the adventure as they
    are, also when it raises. *)
Lemma on_update_keeps scroll clear :
  Py.preserves (fun s => (mode s, edit_index s, adventure s))
               (on_update e scroll clear).
Proof. unfold on_update, text_value, widget. preserved. Qed.

Lemma on_update_returns scroll clear self :
  Adventure.name (adventure self) <> None ->
  (on_update e scroll clear self).1 = Py.Ret tt.
Proof.
  intros Hname. unfold on_update, text_value, Py.bind, Py.get, Py.expect.
  destruct (Adventure.name (adventure self)); [|done].
  by destruct scroll, clear.
Qed.

(** The state in which [on_entry_selected] leaves the screen, whether
    it returns or raises after the mode and the index are set. *)
Lemma on_entry_selected_resolved ref kind index self :
  match_ref ref = Some (kind, index) ->
  forall i,
    match index with
    | Some group2 => int_half (int group2) = Py.Ret (Z.of_nat i)
    | None => i = edit_index self
    end ->
    let self' := (on_entry_selected e ref self).2 in
    mode self' = kind /\ edit_index self' = i
    /\ adventure self' = adventure self.
Proof.
  intros Hmatch i Hindex. unfold on_entry_selected.
  rewrite (bind_returned _ _ self (kind, index) self)
    by (by rewrite Hmatch).
  rewrite (bind_returned _ _ self tt (set_mode kind self)) by done.
  cbn [snd].
  assert (Hstep : exists self2,
    mode self2 = kind /\ edit_index self2 = i
    /\ adventure self2 = adventure self
    /\ match index with
       | Some group2 =>
           Py.bind (fun s : t => (int_half (int group2), s))
             (fun half => Py.modify (set_edit_index (Z.to_nat half)))
       | None => Py.ret tt
       end (set_mode kind self) = (Py.Ret tt, self2)).
  { destruct index as [group2|].
    - exists (set_edit_index i (set_mode kind self)).
      unfold Py.bind. rewrite Hindex. cbn. by rewrite Nat2Z.id.
    - exists (set_mode kind self). by subst i. }
  destruct Hstep as (self2 & Hm & Hi & Ha & Hstep).
  rewrite (bind_returned _ _ _ tt self2) by done.
  match goal with
  | |- context [Py.bind ?c ?k self2] =>
      assert (Hkeeps : Py.preserves
                         (fun s => (mode s, edit_index s, adventure s))
                         (Py.bind c k))
  end.
  { apply preserves_bind; [preserved | intros self3].
    apply preserves_bind; [|intros; apply on_update_keeps].
    unfold text_value, Py.getitem, widget. preserved. }
  specialize (Hkeeps self2). cbn zeta.
  injection Hkeeps as -> -> ->. done.
Qed.

(** C6, as the code has it: "a4" selects action 2, "r5" result 2 and
    "c" the context, with the index left as it was; a kind letter
    followed by the digits of n < 2^53 selects index n/2, rounded down.
    What is selected is what [mode] and [edit_index] hold afterwards,
    whether the method then returns or raises for want of such an entry.
    An unknown kind letter such as "x" is accepted: the mode becomes that
    letter, the index and the adventure are left as they were, and with an
    adventure that has a name the method returns.  A reference that is
    empty or does not start with a lower-case letter fails with the
    [AttributeError] of the match that is [None], and changes nothing. *)
Theorem on_entry_selected_resolves (self : t) :
  let selected ref := (on_entry_selected e ref self).2 in
  (mode (selected "a4") = "a" /\ edit_index (selected "a4") = 2)
  /\ (mode (selected "r5") = "r" /\ edit_index (selected "r5") = 2)
  /\ (mode (selected "c") = "c"
      /\ edit_index (selected "c") = edit_index self)
  /\ (forall c d,
        is_lower c = true -> digits d = d -> d <> "" ->
        (int d < 2 ^ 53)%Z ->
        mode (selected (String c d)) = String c ""
        /\ edit_index (selected (String c d)) = Z.to_nat (int d / 2))
  /\ (mode (selected "x") = "x"
      /\ edit_index (selected "x") = edit_index self
      /\ adventure (selected "x") = adventure self
      /\ (Adventure.name (adventure self) <> None ->
          (on_entry_selected e "x" self).1 = Py.Ret tt))
  /\ (forall ref,
        ref = "" \/ (exists c rest, ref = String c rest /\ is_lower c = false) ->
        on_entry_selected e ref self = (Py.Raise Py.AttributeError, self)).
Proof.
  intros selected. unfold selected.
  split; [|split; [|split; [|split; [|split]]]].
  - by destruct (on_entry_selected_resolved "a4" "a" (Some "4") self
                   eq_refl 2 eq_refl) as (? & ? & ?).
  - by destruct (on_entry_selected_resolved "r5" "r" (Some "5") self
                   eq_refl 2 eq_refl) as (? & ? & ?).
  - by destruct (on_entry_selected_resolved "c" "c" None self
                   eq_refl _ eq_refl) as (? & ? & ?).
  - intros c d Hc Hd Hne Hsmall.
    assert (Hpos : (0 <= int d)%Z) by (by apply int_from_nonneg).
    destruct (on_entry_selected_resolved (String c d) (String c "")
                (Some d) self (match_ref_tag c d Hc Hd Hne)
                (Z.to_nat (int d / 2))) as (? & ? & ?); [|done].
    rewrite int_half_small by lia. f_equal.
    rewrite Z2Nat.id; [done|]. apply Z.div_pos; lia.
  - destruct (on_entry_selected_resolved "x" "x" None self
                eq_refl _ eq_refl) as (? & ? & ?).
    repeat split; try done.
    intros Hname. unfold on_entry_selected.
    rewrite (bind_returned _ _ self ("x", None) self) by reflexivity.
    rewrite (bind_returned _ _ self tt (set_mode "x" self)) by reflexivity.
    rewrite (bind_returned _ _ _ tt (set_mode "x" self)) by reflexivity.
    rewrite (bind_returned _ _ _ (set_mode "x" self) (set_mode "x" self))
      by reflexivity.
    rewrite (bind_returned _ _ _ tt (set_mode "x" self)) by reflexivity.
    by apply on_update_returns.
  - intros ref Href. unfold on_entry_selected, Py.bind at 1.
    assert (Hnone : match_ref ref = None); [|by rewrite Hnone].
    destruct Href as [-> | (c & rest & -> & Hc)]; [done|].
    unfold match_ref. by rewrite Hc.
Qed.
End Selection.

Lemma on_entry_selected_resolves_witness :
  PlayScreen.edit_index
    (PlayScreen.on_entry_selected (Sample.env Sample.times_out) "r05"
       (Sample.screen Sample.three_turns)).2
  = 2.
Proof.
  exact (proj2 (proj1 (proj2 (proj2 (proj2
    (on_entry_selected_resolves (Sample.env Sample.times_out)
       (Sample.screen Sample.three_turns)))))
    "r"%char "05" eq_refl eq_refl ltac:(discriminate) ltac:(cbn; lia))).
Defined.

(** C6 as the specification states it fails: the reference "x" is not
    refused.  [on_entry_selected] returns, the mode is "x", and the text
    sent next is taken by [_try_send] without any effect and without an
    error. *)
Lemma unknown_kind_accepted :
  let e := Sample.env Sample.times_out in
  let selected := PlayScreen.on_entry_selected e "x"
                    (Sample.screen Sample.two_turns) in
  selected.1 = Py.Ret tt
  /\ PlayScreen.mode selected.2 = "x"
  /\ (PlayScreen._try_send e "text" selected.2).1 = Py.Ret None
  /\ PlayScreen.adventure (PlayScreen._try_send e "text" selected.2).2
     = Sample.two_turns.
Proof. vm_compute. repeat split. Qed.

(** ** Sending while a thread is running *)

Section Busy.
Variable e : App.env.
Import Threads.

Abbreviation spawned_of :=
  (fun s : PlayScreen.t => App.spawned (PlayScreen.app s)).

Lemma on_app_spawned {A} (c : Py.M App.t A) :
  Py.preserves App.spawned c ->
  Py.preserves spawned_of (PlayScreen.on_app c).
Proof.
  intros Hc self. unfold PlayScreen.on_app. specialize (Hc (PlayScreen.app self)).
  by destruct (c (PlayScreen.app self)).
Qed.

Lemma on_adventure_spawned {A} (c : Py.M Adventure.t A) :
  Py.preserves App.spawned (App.on_adventure c).
Proof.
  intros app. unfold App.on_adventure. by destruct (c (App.adventure app)).
Qed.

Lemma save_adventure_spawned :
  Py.preserves App.spawned (App.save_adventure e).
Proof. unfold App.save_adventure, App.save_path. preserved. Qed.

Lemma try_except_return_spawned block :
  Py.preserves spawned_of block ->
  Py.preserves spawned_of (PlayScreen.try_except_return block).
Proof.
  intros Hblock. unfold PlayScreen.try_except_return.
  apply preserves_bind; [|intros []; preserved].
  intros self. specialize (Hblock self).
  destruct (block self) as [[[]|exc] self1]; [done|].
  unfold PlayScreen.handle.
  destruct (Py.is_FunctionTimedOut exc); [done|].
  by destruct (Py.is_Exception exc).
Qed.

Lemma send_end_spawned error :
  Py.preserves spawned_of (PlayScreen.send_end e error).
Proof.
  unfold PlayScreen.send_end, PlayScreen.on_update, PlayScreen.try_autosave,
    PlayScreen.text_value, PlayScreen.widget.
  preserved. apply on_app_spawned, save_adventure_spawned.
Qed.

(** A stretch of a thread creates no thread. *)
Lemma advance_spawned p : Py.preserves spawned_of (advance e p).
Proof.
  destruct p as [text | text timeout args]; unfold advance.
  - apply preserves_bind; [by intros self|intros text'].
    apply preserves_bind; [preserved|intros self].
    case_match.
    + destruct (PlayScreen.generate_call e text' None self). preserved.
    + apply preserves_bind; [|intros; apply preserves_bind;
                               [apply send_end_spawned | preserved]].
      apply try_except_return_spawned.
      unfold PlayScreen.edit, PlayScreen.mutate, Py.setitem.
      preserved; apply on_app_spawned, on_adventure_spawned.
  - apply preserves_bind; [|intros; apply preserves_bind;
                             [apply send_end_spawned | preserved]].
    apply try_except_return_spawned.
    unfold PlayScreen.generate_return, PlayScreen.filter_output_of,
      PlayScreen.mutate.
    preserved; apply on_app_spawned, on_adventure_spawned.
Qed.

Lemma step_fresh ev sys : fresh sys -> fresh (step e ev sys).
Proof.
  intros Hfresh. destruct ev as [text | i]; cbn.
  - intros j p. cbn. intros [[<- _] | [_ Hj]]%lookup_insert_Some; [lia|].
    apply Hfresh in Hj. lia.
  - destruct (running sys !! i) as [p|] eqn:Hi; [|done].
    pose proof (advance_spawned p (screen sys)) as Hsp. cbn in Hsp.
    destruct (advance e p (screen sys)) as [[[p'|]|exc] scr];
      intros j q; cbn in *; rewrite Hsp.
    + intros [[<- _] | [_ Hj]]%lookup_insert_Some; eauto.
    + intros [_ Hj]%lookup_delete_Some; eauto.
    + intros [_ Hj]%lookup_delete_Some; eauto.
Qed.

Lemma run_fresh evs sys : fresh sys -> fresh (run e evs sys).
Proof.
  revert sys. induction evs as [|ev evs IH]; intros sys Hfresh; [done|].
  cbn. apply IH. by apply step_fresh.
Qed.

(** C9, as the code has it: [on_send] has no guard.  In every state
    that a session can reach, a send is accepted: one more thread runs,
    none is turned away, and the adventure is as it was.  What a thread
    does before it calls the generator is to disable the input line and
    the send button. *)
Theorem send_always_accepted (scr : PlayScreen.t) (evs : list event)
    (text : option string) :
  let sys := run e evs (start scr) in
  let sys' := step e (Send text) sys in
  size (running sys') = S (size (running sys))
  /\ PlayScreen.adventure (screen sys') = PlayScreen.adventure (screen sys)
  /\ ended sys' = ended sys
  /\ (forall txt self,
        PlayScreen.mode self = "" ->
        exists timeout args self',
          advance e (Started txt) self
          = (Py.Ret (Some (Generating (PlayScreen.filter_input e txt)
                             timeout args)), self')
          /\ PlayScreen.input_disabled (PlayScreen.ids self') = true
          /\ PlayScreen.button_send_disabled (PlayScreen.ids self') = true
          /\ PlayScreen.adventure self' = PlayScreen.adventure self).
Proof.
  intros sys sys'.
  assert (Hfresh : fresh sys) by (by apply run_fresh).
  split; [|split; [done|split; [done|]]].
  - unfold sys'. cbn. apply map_size_insert_None.
    destruct (running sys !! _) as [p|] eqn:Hp; [|done].
    apply Hfresh in Hp. lia.
  - intros txt self Hmode. unfold advance.
    rewrite (bind_returned _ _ self _ _ (send_begin_eq e txt self)).
    unfold Py.bind, Py.get. cbn [PlayScreen.mode PlayScreen.set_ids].
    rewrite Hmode. cbn [String.eqb].
    destruct (PlayScreen.generate_call e _ None _) as [timeout args].
    by eexists _, _, _.
Qed.
End Busy.

Lemma send_always_accepted_witness :
  exists timeout args self',
    Threads.advance (Sample.env Sample.times_out) (Threads.Started "look")
      (Sample.screen Sample.two_turns)
    = (Py.Ret (Some (Threads.Generating "> look" timeout args)), self')
    /\ PlayScreen.input_disabled (PlayScreen.ids self') = true.
Proof.
  destruct (proj2 (proj2 (proj2
    (send_always_accepted (Sample.env Sample.times_out)
       (Sample.screen Sample.two_turns) [] None)))
    "look" (Sample.screen Sample.two_turns) eq_refl)
    as (timeout & args & self' & Hadv & Hin & _).
  exists timeout, args, self'. auto.
Defined.

(** C9 as the specification states it fails: a second send while the
    first is inside the generator is not turned away.  Both threads are
    then inside the generator, none has ended, and when both return, both
    turns are in the adventure. *)
Lemma second_send_accepted :
  let e := Sample.env (Sample.answers " It is cold. ") in
  let sys := Threads.run e
               [Threads.Send (Some "go"); Threads.Run 0;
                Threads.Send (Some "jump"); Threads.Run 1]
               (Threads.start (Sample.screen Sample.two_turns)) in
  length (Threads.in_generator sys) = 2
  /\ Threads.ended sys = []
  /\ PlayScreen.adventure (Threads.screen sys) = Sample.two_turns
  /\ Adventure.actions
       (PlayScreen.adventure
          (Threads.screen (Threads.run e [Threads.Run 0; Threads.Run 1] sys)))
     = ["look"; "run"; "> go"; "> jump"]
  /\ Adventure.results
       (PlayScreen.adventure
          (Threads.screen (Threads.run e [Threads.Run 0; Threads.Run 1] sys)))
     = ["It is dark."; "You fall."; "It is cold."; "It is cold."].
Proof. vm_compute. repeat split. Qed.

(** ** The stretches of a thread make up [_on_send_thread] *)

Section Stretches.
Variable e : App.env.
Import PlayScreen.

Lemma try_except_return_ext block block' self :
  block self = block' self ->
  try_except_return block self = try_except_return block' self.
Proof. intros Heq. unfold try_except_return, Py.bind. by rewrite Heq. Qed.

Lemma advance_started text self :
  let self1 := (send_begin e text self).2 in
  let text' := filter_input e text in
  Threads.advance e (Threads.Started text) self
  = if String.eqb (mode self) "" then
      (Py.Ret (Some (Threads.Generating text'
                       (generate_call e text' None self1).1
                       (generate_call e text' None self1).2)), self1)
    else
      (error <- try_except_return (edit text') ;;
       send_end e error ;; Py.ret None) self1.
Proof.
  cbn zeta. unfold Threads.advance.
  rewrite (bind_returned _ _ self _ _ (send_begin_eq e text self)).
  set (self1 := set_ids _ self).
  rewrite (bind_returned _ _ self1 self1 self1) by done.
  change (mode self1) with (mode self).
  change (send_begin e text self).2 with self1.
  destruct (String.eqb (mode self) ""); [|done].
  by destruct (generate_call e _ None self1).
Qed.

(** Run alone, a thread goes through [_on_send_thread] in one stretch
    (an edit) or in two (a generation), and leaves what the method
    leaves. *)
Lemma advance_on_send_thread text self :
  let whole :=
    match Threads.advance e (Threads.Started text) self with
    | (Py.Ret (Some p), self1) => Threads.advance e p self1
    | stopped => stopped
    end in
  (match whole.1 with Py.Ret _ => Py.Ret tt | Py.Raise exc => Py.Raise exc end,
   whole.2)
  = _on_send_thread e text self.
Proof.
  cbn zeta. rewrite advance_started. unfold _on_send_thread.
  rewrite (bind_returned _ _ self _ _ (send_begin_eq e text self)).
  rewrite send_begin_eq. cbn [snd].
  set (self1 := set_ids _ self). set (text' := filter_input e text).
  assert (Hmode : mode self1 = mode self) by done.
  unfold _try_send.
  destruct (String.eqb (mode self) "") eqn:Heq.
  - unfold Threads.advance.
    rewrite (bind_first _ (try_except_return (send_action e text')) _ self1).
    + unfold Py.bind.
      destruct (try_except_return _ self1) as [[error|exc] self2]; [|done].
      by destruct (send_end e error self2) as [[[]|exc] self3].
    + apply try_except_return_ext.
      unfold send_action, _generate, generated, Py.bind, Py.get.
      rewrite Hmode, Heq.
      by destruct (generate_call e text' None self1).
  - rewrite (bind_first _ (try_except_return (send_action e text')) _ self1).
    + unfold Py.bind.
      destruct (try_except_return _ self1) as [[error|exc] self2]; [|done].
      by destruct (send_end e error self2) as [[[]|exc] self3].
    + apply try_except_return_ext.
      unfold send_action, Py.bind, Py.get. by rewrite Hmode, Heq.
Qed.
End Stretches.

(** * Further properties of the code *)

(** ** Turns and edits *)

Section Turns.
Variable e : App.env.
Import PlayScreen.

(** The file that the adventure named [nm] is saved in. *)
Abbreviation save_file nm :=
  (App.get_user_path e ["adventures"; (Utils.get_save_name nm ++ ".json")%string]).

(** What the end of [_on_send_thread] leaves when the adventure has a
    name. *)
Lemma send_end_effect error self nm :
  Adventure.name (adventure self) = Some nm ->
  let done := send_end e error self in
  done.1 = Py.Ret tt
  /\ adventure done.2 = adventure self
  /\ mode done.2 = ""
  /\ edit_index done.2 = edit_index self
  /\ error_popups done.2 = error_popups self
  /\ input_disabled (ids done.2) = false
  /\ button_send_disabled (ids done.2) = false
  /\ title_text (ids done.2) = nm
  /\ output_text (ids done.2)
     = App.display_filter e (Adventure.full_story (adventure self))
  /\ input_text (ids done.2)
     = (if bool_decide (error = None) then "" else input_text (ids self))
  /\ scroll_y (ids done.2)
     = (if String.eqb (mode self) "" then 0%Z else scroll_y (ids self))
  /\ App.files (app done.2)
     = (if bool_decide (error = None) && App.autosave (App.cfg e)
        then <[save_file nm := Adventure.to_dict (adventure self)]>
               (App.files (app self))
        else App.files (app self)).
Proof.
  intros Hname. destruct self as [[adv ths n fs] w m i ps].
  unfold send_end, on_update, try_autosave, text_value, on_app,
    App.save_adventure, App.save_path, filter_display, widget, adventure,
    Py.bind, Py.get, Py.modify, Py.when, Py.expect, Py.ret in *.
  cbn in *. rewrite Hname.
  destruct (String.eqb m ""), (bool_decide (error = None));
    cbn; rewrite ?Hname; cbn;
    destruct (App.autosave (App.cfg e)); cbn; rewrite ?Hname; cbn;
    repeat split.
Qed.

Lemma generate_returned text record stop self r :
  generated e text stop self = Py.Ret (Some r) ->
  _generate e text record stop self
  = (Py.Ret (Some (filter_output e r)),
     if record then
       set_app (App.set_adventure
                  (Adventure.set_results
                     (Adventure.results (adventure self) ++ [filter_output e r])
                     (Adventure.set_actions
                        (Adventure.actions (adventure self) ++ [text])
                        (adventure self)))
                  (app self)) self
     else self).
Proof.
  intros Hgen. unfold _generate, generate_return, Py.bind, Py.get.
  rewrite Hgen. by destruct record.
Qed.

(** X1: a generation that succeeds returns the filtered output; with
    [record] it appends the text it was given to the actions and the
    filtered output to the results and changes nothing else of the
    adventure; without [record] it changes nothing at all. *)
Theorem generate_records_turn (self : t) (text : string) (stop : option Z)
    (r : string) :
  generated e text stop self = Py.Ret (Some r) ->
  let done := _generate e text true stop self in
  done.1 = Py.Ret (Some (filter_output e r))
  /\ Adventure.actions (adventure done.2)
     = Adventure.actions (adventure self) ++ [text]
  /\ Adventure.results (adventure done.2)
     = Adventure.results (adventure self) ++ [filter_output e r]
  /\ Adventure.name (adventure done.2) = Adventure.name (adventure self)
  /\ Adventure.context (adventure done.2) = Adventure.context (adventure self)
  /\ Adventure.memory (adventure done.2) = Adventure.memory (adventure self)
  /\ _generate e text false stop self
     = (Py.Ret (Some (filter_output e r)), self).
Proof.
  intros Hgen. cbn zeta. rewrite !(generate_returned _ _ _ _ r Hgen).
  by repeat split.
Qed.

Lemma send_thread_turn (self : t) (text r nm : string) :
  mode self = "" ->
  Adventure.name (adventure self) = Some nm ->
  generated e (filter_input e text) None self = Py.Ret (Some r) ->
  let done := _on_send_thread e text self in
  let adv := Adventure.set_results
               (Adventure.results (adventure self) ++ [filter_output e r])
               (Adventure.set_actions
                  (Adventure.actions (adventure self) ++ [filter_input e text])
                  (adventure self)) in
  done.1 = Py.Ret tt
  /\ adventure done.2 = adv
  /\ mode done.2 = ""
  /\ error_popups done.2 = error_popups self
  /\ ids done.2
     = mk_widgets nm "" false false 0
         (App.display_filter e (Adventure.full_story adv))
  /\ App.files (app done.2)
     = (if App.autosave (App.cfg e)
        then <[save_file nm := Adventure.to_dict adv]> (App.files (app self))
        else App.files (app self)).
Proof.
  intros Hmode Hname Hgen done adv. unfold done, _on_send_thread.
  rewrite (bind_returned _ _ self _ _ (send_begin_eq e text self)).
  set (self1 := set_ids _ self).
  assert (Htry : _try_send e (filter_input e text) self1
                 = (Py.Ret None, set_app (App.set_adventure adv (app self1)) self1)).
  { unfold _try_send, try_except_return, send_action, Py.bind at 1 2 3, Py.get.
    change (mode self1) with (mode self). rewrite Hmode. cbn [String.eqb].
    rewrite (generate_returned _ true None self1 r) by done.
    reflexivity. }
  rewrite (bind_returned _ _ _ _ _ Htry).
  set (self2 := set_app _ self1).
  destruct (send_end_effect None self2 nm Hname)
    as (Hr & Ha & Hm & _ & Hp & Hin & Hbt & Hti & Hout & Hinp & Hsc & Hfiles).
  destruct (send_end e None self2) as [ret self3] eqn:Hend. cbn in *.
  rewrite Hmode in Hsc. cbn in Hsc.
  repeat split; try done.
  destruct (ids self3). cbn in *. by subst.
Qed.

(** X2: a whole turn.  In generation mode, with a named adventure and a
    generator that answers, [_on_send_thread] returns; the filtered input
    and the filtered output are appended; the title, the cleared input
    line and the display of the new story are shown and the controls are
    enabled again; no popup is opened; and the new adventure is written
    to its save file exactly when autosave is on. *)
Theorem send_thread_records_turn (self : t) (text r nm : string) :
  mode self = "" ->
  Adventure.name (adventure self) = Some nm ->
  generated e (filter_input e text) None self = Py.Ret (Some r) ->
  let done := _on_send_thread e text self in
  let adv := Adventure.set_results
               (Adventure.results (adventure self) ++ [filter_output e r])
               (Adventure.set_actions
                  (Adventure.actions (adventure self) ++ [filter_input e text])
                  (adventure self)) in
  done.1 = Py.Ret tt
  /\ adventure done.2 = adv
  /\ mode done.2 = ""
  /\ error_popups done.2 = error_popups self
  /\ ids done.2
     = mk_widgets nm "" false false 0
         (App.display_filter e (Adventure.full_story adv))
  /\ App.files (app done.2)
     = (if App.autosave (App.cfg e)
        then <[save_file nm := Adventure.to_dict adv]> (App.files (app self))
        else App.files (app self)).
Proof. exact (send_thread_turn self text r nm). Qed.

(** X3: in an edit mode the generator is not called: whatever the
    generator of the session is, [_on_send_thread] leaves the same outcome
    and the same state. *)
Theorem edit_ignores_generator (self : t) (text : string)
    (generator : Q -> App.generate_args -> App.generation) :
  mode self <> "" ->
  _on_send_thread (Play.with_generator generator e) text self
  = _on_send_thread e text self.
Proof.
  intros Hmode. unfold _on_send_thread, _try_send, try_except_return,
    send_action, send_begin, Py.bind, Py.get, widget, Py.modify. cbn.
  destruct (String.eqb_spec (mode self) ""); [contradiction | reflexivity].
Qed.
End Turns.

(** The state after lines 135-137 of [_on_send_thread]. *)
Abbreviation begun self :=
  (PlayScreen.set_ids
     (PlayScreen.set_button_send_disabled true
        (PlayScreen.set_input_disabled true (PlayScreen.ids self)))
     self).

Section Edits.
Variable e : App.env.
Import PlayScreen.


(** An edit that goes through: [_try_send] returns [None] and the thread
    ends as after any send without error. *)
Lemma send_thread_edited self text nm adv :
  mode self <> "" ->
  Adventure.name adv = Some nm ->
  edit (filter_input e text) (begun self)
  = (Py.Ret tt, set_app (App.set_adventure adv (app self)) (begun self)) ->
  let done := _on_send_thread e text self in
  done.1 = Py.Ret tt /\ adventure done.2 = adv /\ mode done.2 = ""
  /\ input_text (ids done.2) = ""
  /\ input_disabled (ids done.2) = false
  /\ button_send_disabled (ids done.2) = false.
Proof.
  intros Hmode Hname Hedit. cbn zeta. unfold _on_send_thread.
  rewrite (bind_returned _ _ self _ _ (send_begin_eq e text self)).
  assert (Htry : _try_send e (filter_input e text) (begun self)
                 = (Py.Ret None,
                    set_app (App.set_adventure adv (app self)) (begun self))).
  { unfold _try_send, try_except_return, send_action, Py.bind at 1 2, Py.get.
    change (mode (begun self)) with (mode self).
    destruct (String.eqb_spec (mode self) ""); [contradiction|].
    by rewrite Hedit. }
  rewrite (bind_returned _ _ _ _ _ Htry).
  set (self2 := set_app _ _).
  destruct (send_end_effect e None self2 nm Hname)
    as (? & ? & ? & _ & _ & ? & ? & _ & _ & ? & _).
  by repeat split.
Qed.

(** X4: editing an entry.  In mode "a" (or "r") with an index inside the
    actions (the results), sending a text puts the filtered text at that
    index and changes nothing else of the adventure: the lists keep their
    lengths and their other entries; the thread returns, the mode is
    generation again and the controls are enabled. *)
Theorem edit_replaces_entry (self : t) (text nm : string) :
  Adventure.name (adventure self) = Some nm ->
  let done := _on_send_thread e text self in
  let i := edit_index self in
  (mode self = "a" -> i < length (Adventure.actions (adventure self)) ->
   done.1 = Py.Ret tt
   /\ adventure done.2
      = Adventure.set_actions
          (<[i := filter_input e text]> (Adventure.actions (adventure self)))
          (adventure self)
   /\ mode done.2 = ""
   /\ input_disabled (ids done.2) = false)
  /\ (mode self = "r" -> i < length (Adventure.results (adventure self)) ->
      done.1 = Py.Ret tt
      /\ adventure done.2
         = Adventure.set_results
             (<[i := filter_input e text]> (Adventure.results (adventure self)))
             (adventure self)
      /\ mode done.2 = ""
      /\ input_disabled (ids done.2) = false).
Proof.
  intros Hname. cbn zeta. split; intros Hmode Hi.
  - destruct (send_thread_edited self text nm
                (Adventure.set_actions
                   (<[edit_index self := filter_input e text]>
                      (Adventure.actions (adventure self)))
                   (adventure self)))
      as (? & ? & ? & _ & ? & _); [by rewrite Hmode | done | | done].
    unfold edit, Py.bind, Py.get, Py.setitem.
    change (mode (begun self)) with (mode self). rewrite Hmode. cbn.
    by rewrite decide_True.
  - destruct (send_thread_edited self text nm
                (Adventure.set_results
                   (<[edit_index self := filter_input e text]>
                      (Adventure.results (adventure self)))
                   (adventure self)))
      as (? & ? & ? & _ & ? & _); [by rewrite Hmode | done | | done].
    unfold edit, Py.bind, Py.get, Py.setitem.
    change (mode (begun self)) with (mode self). rewrite Hmode. cbn.
    by rewrite decide_True.
Qed.

(** X5: editing the context or the memory.  In mode "c" (or "m") sending
    a text makes the filtered text the context (the memory); actions and
    results are not touched and the mode is generation again. *)
Theorem edit_sets_field (self : t) (text nm : string) :
  Adventure.name (adventure self) = Some nm ->
  let done := _on_send_thread e text self in
  (mode self = "c" ->
   done.1 = Py.Ret tt
   /\ adventure done.2
      = Adventure.set_context (Some (filter_input e text)) (adventure self)
   /\ mode done.2 = "")
  /\ (mode self = "m" ->
      done.1 = Py.Ret tt
      /\ adventure done.2
         = Adventure.set_memory (filter_input e text) (adventure self)
      /\ mode done.2 = "").
Proof.
  intros Hname. cbn zeta. split; intros Hmode.
  - destruct (send_thread_edited self text nm
                (Adventure.set_context (Some (filter_input e text))
                   (adventure self)))
      as (? & ? & ? & _); [by rewrite Hmode | done | | done].
    unfold edit, Py.bind, Py.get.
    change (mode (begun self)) with (mode self). by rewrite Hmode.
  - destruct (send_thread_edited self text nm
                (Adventure.set_memory (filter_input e text) (adventure self)))
      as (? & ? & ? & _); [by rewrite Hmode | done | | done].
    unfold edit, Py.bind, Py.get.
    change (mode (begun self)) with (mode self). by rewrite Hmode.
Qed.

(** X6: an edit outside the list.  In mode "a" (or "r") with an index
    that is not inside the actions (the results), the [IndexError] is
    caught, the popup of the unexpected error is opened and
    [return result] raises [UnboundLocalError]: the adventure is not
    changed, the mode stays the edit mode and the controls stay
    disabled. *)
Theorem edit_out_of_range (self : t) (text : string) :
  (mode self = "a"
   /\ length (Adventure.actions (adventure self)) <= edit_index self)
  \/ (mode self = "r"
      /\ length (Adventure.results (adventure self)) <= edit_index self) ->
  let done := _on_send_thread e text self in
  done.1 = Py.Raise (Py.UnboundLocalError "result")
  /\ adventure done.2 = adventure self
  /\ error_popups done.2 = error_popups self ++ [error_text]
  /\ mode done.2 = mode self
  /\ input_disabled (ids done.2) = true
  /\ button_send_disabled (ids done.2) = true.
Proof.
  intros Hcase. cbn zeta. unfold _on_send_thread.
  rewrite (bind_returned _ _ self _ _ (send_begin_eq e text self)).
  assert (Hedit : send_action e (filter_input e text) (begun self)
                  = (Py.Raise Py.IndexError, begun self)).
  { unfold send_action, edit, Py.bind, Py.get, Py.setitem.
    cbn. change (adventure (begun self)) with (adventure self).
    destruct Hcase as [[Hmode Hi] | [Hmode Hi]];
      rewrite !Hmode; cbn; rewrite ?Hmode; cbn;
      change (adventure (begun self)) with (adventure self);
      by rewrite decide_False by lia. }
  unfold _try_send, Py.bind.
  rewrite (try_except_return_raises _ _ _ _ Hedit). by cbn.
Qed.
End Edits.

(** ** Selecting, then editing *)

Section SelectEdit.
Variable e : App.env.
Import PlayScreen.

(** What [on_update] leaves when the adventure has a name. *)
Lemma on_update_effect scroll clear self nm :
  Adventure.name (adventure self) = Some nm ->
  let done := on_update e scroll clear self in
  done.1 = Py.Ret tt
  /\ app done.2 = app self /\ mode done.2 = mode self
  /\ edit_index done.2 = edit_index self
  /\ error_popups done.2 = error_popups self
  /\ input_text (ids done.2) = (if clear then "" else input_text (ids self))
  /\ output_text (ids done.2)
     = App.display_filter e (Adventure.full_story (adventure self)).
Proof.
  intros Hname. destruct self as [[adv ths n fs] w m i ps].
  unfold on_update, text_value, filter_display, widget, adventure,
    Py.bind, Py.get, Py.modify, Py.when, Py.expect, Py.ret in *.
  cbn in *. rewrite Hname. by destruct scroll, clear.
Qed.

(** The first lines of [on_entry_selected] for a kind letter followed by
    digits: the mode and the index are set, and the rest of the method
    runs from there. *)
Lemma on_entry_selected_steps c d i self :
  is_lower c = true -> digits d = d -> d <> "" ->
  int_half (int d) = Py.Ret (Z.of_nat i) ->
  on_entry_selected e (String c d) self
  = (self <- Py.get ;;
     (if String.eqb (mode self) "c" then
        text <- text_value (Adventure.context (adventure self)) ;;
        widget (set_input_text text)
      else if String.eqb (mode self) "a" then
        text <- Py.getitem (Adventure.actions (adventure self))
                           (edit_index self) ;;
        widget (set_input_text text)
      else if String.eqb (mode self) "r" then
        text <- Py.getitem (Adventure.results (adventure self))
                           (edit_index self) ;;
        widget (set_input_text text)
      else Py.ret tt) ;;
     on_update e false false)
      (set_edit_index i (set_mode (String c "") self)).
Proof.
  intros Hc Hd Hne Hhalf. unfold on_entry_selected.
  rewrite (bind_returned _ _ self (String c "", Some d) self)
    by (by rewrite match_ref_tag).
  rewrite (bind_returned _ _ self tt (set_mode (String c "") self)) by done.
  cbn [snd].
  rewrite (bind_returned _ _ _ tt
             (set_edit_index i (set_mode (String c "") self))).
  - reflexivity.
  - unfold Py.bind. rewrite Hhalf. cbn. by rewrite Nat2Z.id.
Qed.

(** The list that a kind letter stands for. *)
Abbreviation entries c adv :=
  (if Ascii.eqb c "a" then Adventure.actions adv else Adventure.results adv).

Lemma on_entry_selected_entry c d i self :
  c = "a"%char \/ c = "r"%char -> digits d = d -> d <> "" ->
  int_half (int d) = Py.Ret (Z.of_nat i) ->
  on_entry_selected e (String c d) self
  = ((text <- Py.getitem (entries c (adventure self)) i ;;
      widget (set_input_text text)) ;;
     on_update e false false)
      (set_edit_index i (set_mode (String c "") self)).
Proof.
  intros Hc Hd Hne Hhalf.
  rewrite (on_entry_selected_steps c d i) by (by destruct Hc as [-> | ->]).
  set (self2 := set_edit_index i _).
  rewrite (bind_returned _ _ self2 self2 self2) by done.
  by destruct Hc as [-> | ->].
Qed.

(** X7: selecting an action or a result.  For the reference "a" or "r"
    followed by the digits of n < 2^53, the index becomes n/2.  When the
    list has an entry there, the entry is put in the input line and the
    method returns; when it has not, the method raises [IndexError] with
    the mode and the index already set and the widgets untouched.  The
    adventure is not changed either way. *)
Theorem select_entry (self : t) (c : ascii) (d nm : string) :
  Adventure.name (adventure self) = Some nm ->
  c = "a"%char \/ c = "r"%char ->
  digits d = d -> d <> "" -> (int d < 2 ^ 53)%Z ->
  let i := Z.to_nat (int d / 2) in
  let done := on_entry_selected e (String c d) self in
  mode done.2 = String c "" /\ edit_index done.2 = i
  /\ adventure done.2 = adventure self
  /\ (forall text, entries c (adventure self) !! i = Some text ->
        done.1 = Py.Ret tt /\ input_text (ids done.2) = text)
  /\ (entries c (adventure self) !! i = None ->
        done.1 = Py.Raise Py.IndexError /\ ids done.2 = ids self).
Proof.
  intros Hname Hc Hd Hne Hsmall i done.
  assert (Hhalf : int_half (int d) = Py.Ret (Z.of_nat i)).
  { pose proof (int_from_nonneg d 0 Hd ltac:(lia)) as Hpos. fold (int d) in Hpos.
    rewrite int_half_small by lia. unfold i.
    rewrite Z2Nat.id; [done|]. apply Z.div_pos; lia. }
  unfold done. rewrite (on_entry_selected_entry c d i) by done.
  set (self2 := set_edit_index i _).
  unfold Py.bind, Py.getitem, Py.expect.
  destruct (entries c (adventure self) !! i) as [text|] eqn:Hi.
  - cbn [Py.ret widget Py.modify].
    set (self3 := set_ids _ self2).
    destruct (on_update_effect false false self3 nm Hname)
      as (Hr & Happ & Hm & Hi' & _ & Hin & _).
    split; [done|]. split; [done|].
    split; [unfold adventure; by rewrite Happ|].
    split; [|done]. intros text' [= <-]. by split.
  - by repeat split.
Qed.

(** X8: selecting an entry and sending a text edits that entry.  After
    the reference "a" (or "r") with the digits of n < 2^53 is selected on
    a screen whose list has an entry at n/2, sending a text puts the
    filtered text at n/2 in the actions (the results), leaves everything
    else of the adventure as it was, and brings the screen back to
    generation mode. *)
Theorem select_then_send_edits (self : t) (c : ascii) (d nm text old : string) :
  Adventure.name (adventure self) = Some nm ->
  c = "a"%char \/ c = "r"%char ->
  digits d = d -> d <> "" -> (int d < 2 ^ 53)%Z ->
  let i := Z.to_nat (int d / 2) in
  entries c (adventure self) !! i = Some old ->
  let selected := (on_entry_selected e (String c d) self).2 in
  let done := _on_send_thread e text selected in
  done.1 = Py.Ret tt
  /\ adventure done.2
     = (if Ascii.eqb c "a"
        then Adventure.set_actions
               (<[i := filter_input e text]> (Adventure.actions (adventure self)))
               (adventure self)
        else Adventure.set_results
               (<[i := filter_input e text]> (Adventure.results (adventure self)))
               (adventure self))
  /\ mode done.2 = "".
Proof.
  intros Hname Hc Hd Hne Hsmall i Hold selected done.
  assert (Hhalf : int_half (int d) = Py.Ret (Z.of_nat i)).
  { pose proof (int_from_nonneg d 0 Hd ltac:(lia)) as Hpos. fold (int d) in Hpos.
    rewrite int_half_small by lia. unfold i.
    rewrite Z2Nat.id; [done|]. apply Z.div_pos; lia. }
  destruct (on_entry_selected_resolved e (String c d) (String c "") (Some d)
              self (match_ref_tag c d ltac:(by destruct Hc as [-> | ->]) Hd Hne)
              i Hhalf) as (Hm & Hi & Ha).
  fold selected in Hm, Hi, Ha.
  assert (Hlt : i < length (entries c (adventure self)))
    by (by apply lookup_lt_Some in Hold).
  unfold done.
  destruct (send_thread_edited e selected text nm
              (if Ascii.eqb c "a"
               then Adventure.set_actions
                      (<[i := filter_input e text]>
                         (Adventure.actions (adventure self)))
                      (adventure self)
               else Adventure.set_results
                      (<[i := filter_input e text]>
                         (Adventure.results (adventure self)))
                      (adventure self)))
    as (? & ? & ? & _); [by rewrite Hm | by destruct Hc as [-> | ->] | | done].
  unfold edit, Py.bind, Py.get, Py.setitem.
  change (mode (begun selected)) with (mode selected).
  change (edit_index (begun selected)) with (edit_index selected).
  change (adventure (begun selected)) with (adventure selected).
  rewrite Hm, Hi, Ha.
  destruct Hc as [-> | ->]; cbn in *; rewrite decide_True by done;
    cbn; unfold adventure in *; cbn; by rewrite Ha.
Qed.
End SelectEdit.

(** ** Records and save files *)

Section Records.
Import Adventure.

(** X9: a record without one of the five keys.  [from_dict] raises the
    [KeyError] of the first key that is missing, in the order name,
    context, memory, actions, results; the fields before it have been
    replaced already and the ones from it on are as they were. *)
Theorem from_dict_missing_key (other self : t) :
  from_dict (delete "name" (to_dict other)) self
  = (Py.Raise (Py.KeyError "name"), self)
  /\ from_dict (delete "context" (to_dict other)) self
     = (Py.Raise (Py.KeyError "context"), set_name (name other) self)
  /\ from_dict (delete "memory" (to_dict other)) self
     = (Py.Raise (Py.KeyError "memory"),
        set_context (context other) (set_name (name other) self))
  /\ from_dict (delete "actions" (to_dict other)) self
     = (Py.Raise (Py.KeyError "actions"),
        set_memory (memory other)
          (set_context (context other) (set_name (name other) self)))
  /\ from_dict (delete "results" (to_dict other)) self
     = (Py.Raise (Py.KeyError "results"),
        set_actions (actions other)
          (set_memory (memory other)
             (set_context (context other) (set_name (name other) self)))).
Proof.
  destruct other as [n c m a r].
  repeat split;
    unfold from_dict, item, to_dict, Py.bind, Py.expect, Py.modify; cbn;
    repeat (rewrite ?lookup_delete_eq, ?lookup_delete_ne by done;
            rewrite ?lookup_insert_eq, ?lookup_insert_ne by done; cbn;
            rewrite ?to_optional_of_optional; cbn);
    reflexivity.
Qed.
End Records.

Section SaveFiles.
Variable e : App.env.

Lemma string_length_append (a b : string) :
  String.length (a ++ b) = String.length a + String.length b.
Proof.
  induction a as [|c a IH]; [done|]. simpl. by rewrite IH.
Qed.

Lemma string_append_inj_r (a b s : string) :
  (a ++ s = b ++ s)%string -> a = b.
Proof.
  revert b. induction a as [|c a IH]; intros [|c' b] Heq; [done| | |].
  - apply (f_equal String.length) in Heq. simpl in Heq.
    rewrite !string_length_append in Heq. simpl in Heq. lia.
  - apply (f_equal String.length) in Heq. simpl in Heq.
    rewrite !string_length_append in Heq. simpl in Heq. lia.
  - simpl in Heq. injection Heq as -> Heq. f_equal. by apply IH.
Qed.

Lemma ends_with_sep_append (a b : string) :
  b <> "" -> App.ends_with_sep (a ++ b) = App.ends_with_sep b.
Proof.
  intros Hb. induction a as [|c a IH]; [done|].
  simpl. rewrite <- IH.
  destruct (a ++ b)%string eqn:Hab; [|done].
  destruct a, b; done.
Qed.

(** The directory of the saves is not empty and does not end with a
    separator. *)
Lemma adventures_dir :
  Py.nonempty (App.get_user_path e ["adventures"]) = true
  /\ App.ends_with_sep (App.get_user_path e ["adventures"]) = false.
Proof.
  unfold App.get_user_path, App.path_join. cbn.
  destruct (_ || _).
  - split.
    + by destruct (App.userdir (App.cfg e)).
    + by rewrite ends_with_sep_append.
  - split.
    + by destruct (App.userdir (App.cfg e)).
    + by rewrite ends_with_sep_append.
Qed.

Lemma clean_no_sep s :
  Utils.clean s = true -> String.prefix "/" (s ++ ".json") = false.
Proof.
  destruct s as [|c s]; [done|]. cbn. intros [Hc _]%andb_prop.
  destruct (Ascii.ascii_dec "/" c) as [<- | Hne]; [done|].
  destruct c as [[] [] [] [] [] [] [] []]; done.
Qed.

Lemma save_path_named (app : App.t) (nm : string) :
  Adventure.name (App.adventure app) = Some nm ->
  App.save_path e app
  = (Py.Ret (App.get_user_path e ["adventures"] ++ "/"
             ++ Utils.get_save_name nm ++ ".json")%string, app)
  /\ Utils.clean (Utils.get_save_name nm) = true.
Proof.
  intros Hname. split; [|apply clean_sub_other].
  unfold App.save_path, Py.bind, Py.get, Py.expect, Py.ret. rewrite Hname.
  cbn [Py.ret]. do 2 f_equal.
  destruct adventures_dir as [Hne Hsep].
  unfold App.get_user_path in *. unfold App.path_join in *.
  cbn [fold_left] in *.
  rewrite clean_no_sep by apply clean_sub_other.
  by rewrite Hne, Hsep.
Qed.

(** X10: where an adventure is saved.  Whatever its name, the file is
    the save name with ".json" directly inside the directory
    "adventures" of the user directory: what is taken from the name has
    no character besides letters, digits, [_] and [-], so that it names
    no other directory. *)
Theorem save_path_shape (app : App.t) (nm : string) :
  Adventure.name (App.adventure app) = Some nm ->
  App.save_path e app
  = (Py.Ret (App.get_user_path e ["adventures"] ++ "/"
             ++ Utils.get_save_name nm ++ ".json")%string, app)
  /\ Utils.clean (Utils.get_save_name nm) = true.
Proof. exact (save_path_named app nm). Qed.

Lemma save_file_shape nm :
  App.get_user_path e ["adventures"; (Utils.get_save_name nm ++ ".json")%string]
  = (App.get_user_path e ["adventures"] ++ "/"
     ++ Utils.get_save_name nm ++ ".json")%string.
Proof.
  destruct (save_path_named (App.mk (Adventure.init (Some nm) None) ∅ 0 ∅)
              nm eq_refl) as [Hp _].
  unfold App.save_path, Py.bind, Py.get, Py.expect, Py.ret in Hp.
  cbn in Hp. by injection Hp.
Qed.

Lemma string_append_assoc (a b c : string) :
  (a ++ b ++ c = (a ++ b) ++ c)%string.
Proof.
  induction a as [|x a IH]; [done|].
  change (String x (a ++ b ++ c) = String x ((a ++ b) ++ c))%string.
  by rewrite IH.
Qed.

Lemma save_file_inj nm1 nm2 :
  App.get_user_path e ["adventures"; (Utils.get_save_name nm1 ++ ".json")%string]
  = App.get_user_path e ["adventures"; (Utils.get_save_name nm2 ++ ".json")%string] ->
  Utils.get_save_name nm1 = Utils.get_save_name nm2.
Proof.
  rewrite !save_file_shape. intros Heq.
  apply String.app_inj, (String.app_inj "/") in Heq.
  by apply string_append_inj_r in Heq.
Qed.

Lemma save_adventure_named app nm :
  Adventure.name (App.adventure app) = Some nm ->
  App.save_adventure e app
  = (Py.Ret tt,
     App.set_files
       (<[App.get_user_path e
            ["adventures"; (Utils.get_save_name nm ++ ".json")%string]
          := Adventure.to_dict (App.adventure app)]> (App.files app)) app).
Proof.
  intros Hname. unfold App.save_adventure, App.save_path, Py.bind, Py.get,
    Py.expect, Py.modify, Py.ret. by rewrite Hname.
Qed.

Lemma load_adventure_named app nm d :
  Adventure.name (App.adventure app) = Some nm ->
  App.files app
  !! App.get_user_path e
       ["adventures"; (Utils.get_save_name nm ++ ".json")%string] = d ->
  App.load_adventure e app
  = match d with
    | Some d => App.on_adventure (Adventure.from_dict d) app
    | None =>
        (Py.Raise
           (Py.FileNotFoundError
              (App.get_user_path e
                 ["adventures"; (Utils.get_save_name nm ++ ".json")%string])),
         app)
    end.
Proof.
  intros Hname Hd. unfold App.load_adventure, App.save_path, Py.bind, Py.get,
    Py.expect, Py.ret. rewrite Hname. cbv beta iota zeta. rewrite Hd.
  by destruct d.
Qed.

(** X11: saving and loading without a name or without a file.  With an
    adventure whose name is [None], saving and loading raise
    [AttributeError]; with a name that has no save file, loading raises
    [FileNotFoundError] for that file, also from the menu popup, which
    then does not update the screen.  Nothing is changed in any of these
    cases. *)
Theorem save_load_failures (scr : PlayScreen.t) :
  let app := PlayScreen.app scr in
  (Adventure.name (App.adventure app) = None ->
   App.save_adventure e app = (Py.Raise Py.AttributeError, app)
   /\ App.load_adventure e app = (Py.Raise Py.AttributeError, app))
  /\ (forall nm,
        let file := App.get_user_path e
                      ["adventures"; (Utils.get_save_name nm ++ ".json")%string] in
        Adventure.name (App.adventure app) = Some nm ->
        App.files app !! file = None ->
        App.load_adventure e app = (Py.Raise (Py.FileNotFoundError file), app)
        /\ Play.popup_on_load e scr = (Py.Raise (Py.FileNotFoundError file), scr)).
Proof.
  cbn zeta. split.
  - intros Hname. unfold App.save_adventure, App.load_adventure, App.save_path,
      Py.bind, Py.get, Py.expect. by rewrite Hname.
  - intros nm Hname Hfile.
    rewrite (load_adventure_named _ nm None) by done. split; [done|].
    unfold Play.popup_on_load, PlayScreen.on_app, Py.bind.
    rewrite (load_adventure_named _ nm None) by done. by destruct scr.
Qed.

(** X12: two names with different save names have different files.
    When an adventure is saved and then one with another save name,
    loading under the first name still gives the first adventure. *)
Theorem save_other_name_kept (app : App.t) (adv1 adv2 other : Adventure.t)
    (nm1 nm2 : string) :
  Adventure.name adv1 = Some nm1 ->
  Adventure.name adv2 = Some nm2 ->
  Adventure.name other = Some nm1 ->
  Utils.get_save_name nm1 <> Utils.get_save_name nm2 ->
  let saved1 := (App.save_adventure e (App.set_adventure adv1 app)).2 in
  let saved2 := (App.save_adventure e (App.set_adventure adv2 saved1)).2 in
  let loaded := App.load_adventure e (App.set_adventure other saved2) in
  loaded.1 = Py.Ret tt /\ App.adventure loaded.2 = adv1.
Proof.
  intros H1 H2 Ho Hne. cbn zeta.
  rewrite (save_adventure_named (App.set_adventure adv1 app) nm1)
    by (cbn; assumption).
  cbn [snd].
  rewrite (save_adventure_named (App.set_adventure adv2 _) nm2)
    by (cbn; assumption).
  cbn [snd].
  rewrite (load_adventure_named _ nm1 (Some (Adventure.to_dict adv1)));
    [|cbn; assumption|].
  - unfold App.on_adventure. rewrite from_dict_to_dict. by cbn.
  - cbn. rewrite lookup_insert_ne.
    + apply lookup_insert_eq.
    + intros Heq. symmetry in Heq. by apply save_file_inj in Heq.
Qed.

(** X13: two names with the same save name share one file.  When an
    adventure is saved and then one whose name has the same save name,
    loading under the first name gives the second adventure, with the
    second name. *)
Theorem save_same_name_overwrites (app : App.t) (adv1 adv2 other : Adventure.t)
    (nm1 nm2 : string) :
  Adventure.name adv1 = Some nm1 ->
  Adventure.name adv2 = Some nm2 ->
  Adventure.name other = Some nm1 ->
  Utils.get_save_name nm1 = Utils.get_save_name nm2 ->
  let saved1 := (App.save_adventure e (App.set_adventure adv1 app)).2 in
  let saved2 := (App.save_adventure e (App.set_adventure adv2 saved1)).2 in
  let loaded := App.load_adventure e (App.set_adventure other saved2) in
  loaded.1 = Py.Ret tt /\ App.adventure loaded.2 = adv2.
Proof.
  intros H1 H2 Ho Heq. cbn zeta.
  rewrite (save_adventure_named (App.set_adventure adv1 app) nm1)
    by (cbn; assumption).
  cbn [snd].
  rewrite (save_adventure_named (App.set_adventure adv2 _) nm2)
    by (cbn; assumption).
  cbn [snd].
  rewrite (load_adventure_named _ nm1 (Some (Adventure.to_dict adv2)));
    [|cbn; assumption|].
  - unfold App.on_adventure. rewrite from_dict_to_dict. by cbn.
  - cbn. rewrite Heq. apply lookup_insert_eq.
Qed.
End SaveFiles.

(** ** Actions and results stay paired *)

Section Paired.
Variable e : App.env.
Import PlayScreen.

Lemma bind_invariant {S A B} (P : S -> Prop) (c : Py.M S A)
    (k : A -> Py.M S B) :
  (forall s, P s -> P (c s).2) ->
  (forall a s, P s -> P (k a s).2) ->
  forall s, P s -> P (Py.bind c k s).2.
Proof.
  intros Hc Hk s Hs. unfold Py.bind. specialize (Hc s Hs).
  destruct (c s) as [[a|exc] s1]; [|done]. by apply Hk.
Qed.

Lemma preserved_invariant {A} (c : Py.M t A) :
  Py.preserves adventure c -> forall s, Play.paired s -> Play.paired (c s).2.
Proof. intros Hc s Hs. unfold Play.paired. by rewrite (Hc s). Qed.

Lemma on_app_adventure {A} (c : Py.M App.t A) :
  Py.preserves App.adventure c -> Py.preserves adventure (on_app c).
Proof.
  intros Hc self. unfold on_app, adventure. specialize (Hc (app self)).
  by destruct (c (app self)).
Qed.

Lemma save_adventure_adventure :
  Py.preserves App.adventure (App.save_adventure e).
Proof. unfold App.save_adventure, App.save_path. preserved. Qed.

Lemma send_end_adventure error : Py.preserves adventure (send_end e error).
Proof.
  unfold send_end, on_update, try_autosave, text_value, widget.
  preserved. apply on_app_adventure, save_adventure_adventure.
Qed.

(** An edit changes no length. *)
Lemma edit_paired text s : Play.paired s -> Play.paired (edit text s).2.
Proof.
  unfold Play.paired, edit, Py.bind, Py.get, Py.setitem, mutate, on_app,
    App.on_adventure, Py.modify, adventure.
  intros Hs.
  destruct (String.eqb (mode s) "c"); [done|].
  destruct (String.eqb (mode s) "a").
  { destruct (decide _); [|done]. cbn. by rewrite length_insert. }
  destruct (String.eqb (mode s) "r").
  { destruct (decide _); [|done]. cbn. by rewrite length_insert. }
  by destruct (String.eqb (mode s) "m").
Qed.

(** A recorded generation appends to both lists or to none, unless what
    it would append to the results is [None]. *)
Lemma generate_return_paired text called s :
  Play.paired s ->
  let done := generate_return e text true called s in
  done.1 = Py.Raise Py.Untyped \/ Play.paired done.2.
Proof.
  unfold Play.paired, generate_return, filter_output_of, Py.bind, Py.when,
    Py.raise, Py.ret, mutate, on_app, App.on_adventure, Py.modify, adventure.
  intros Hs. destruct called as [[r|]|exc]; [| |by right].
  - right. cbn. rewrite !length_app. cbn. lia.
  - destruct (App.output_filters e); [by left|].
    destruct (App.output_of_none e) as [[r|]|exc]; [|by left|by right].
    right. cbn. rewrite !length_app. cbn. lia.
Qed.

Lemma send_action_paired text s :
  Play.paired s ->
  let done := send_action e text s in
  done.1 = Py.Raise Py.Untyped \/ Play.paired done.2.
Proof.
  intros Hs. cbn zeta. unfold send_action.
  rewrite (bind_returned _ _ s s s) by done.
  destruct (String.eqb (mode s) ""); [|right; by apply edit_paired].
  unfold _generate.
  rewrite (bind_first _ (generate_return e text true (generated e text None s)) _ s)
    by (by rewrite (bind_returned _ _ s s s)).
  destruct (generate_return_paired text (generated e text None s) s Hs)
    as [Hleft | Hpaired]; unfold Py.bind;
    destruct (generate_return e text true _ s) as [[r|exc] s1];
    cbn in *; try done; try (by right); left; congruence.
Qed.

Lemma try_send_paired text s :
  Play.paired s ->
  let done := _try_send e text s in
  done.1 = Py.Raise Py.Untyped \/ Play.paired done.2.
Proof.
  intros Hs. cbn zeta. unfold _try_send, try_except_return, Py.bind.
  destruct (send_action_paired text s Hs) as [Hleft | Hpaired];
    destruct (send_action e text s) as [[[]|exc] s1]; cbn in *;
    try done; try (by right).
  - injection Hleft as ->. by left.
  - right. unfold handle.
    destruct (Py.is_FunctionTimedOut exc); [done|].
    by destruct (Py.is_Exception exc).
Qed.

Lemma send_end_unmarked error s :
  (send_end e error s).1 <> Py.Raise Py.Untyped.
Proof.
  unfold send_end, on_update, try_autosave, text_value, widget, on_app,
    App.save_adventure, App.save_path, Py.bind, Py.get, Py.modify,
    Py.when, Py.expect, Py.ret, Py.raise.
  repeat (case_match; simplify_eq; try done).
Qed.

Lemma edit_unmarked text s : (edit text s).1 <> Py.Raise Py.Untyped.
Proof.
  unfold edit, mutate, on_app, App.on_adventure, Py.setitem, Py.bind, Py.get,
    Py.modify, Py.ret, Py.raise.
  repeat (case_match; simplify_eq; try done).
Qed.

Lemma generated_unmarked text stop s :
  generated e text stop s <> Py.Raise Py.Untyped.
Proof.
  unfold generated, App.func_timeout.
  destruct (generate_call e text stop s) as [timeout args].
  destruct (App.generate e timeout args) as [r|exc|]; [done| |done].
  by destruct exc.
Qed.

(** X14: a submit keeps the lists paired.  On a screen whose adventure
    has as many results as actions, [_on_send_thread], run to its end
    without another thread at work on the adventure, leaves as many
    results as actions, whatever the mode, the index, the text and the way
    the generation ends: a turn is appended to both lists or to neither,
    and an edit changes no length.  The one run that the typed adventure
    cannot follow is set apart: a generation that [func_timeout] ends
    with [None], which the output filters leave [None] ([Py.Untyped]); it
    is met in generation mode only. *)
Theorem session_keeps_paired (self : t) (text : string) :
  Play.paired self ->
  let done := _on_send_thread e text self in
  (done.1 <> Py.Raise Py.Untyped -> Play.paired done.2)
  /\ (done.1 = Py.Raise Py.Untyped ->
      mode self = ""
      /\ generated e (filter_input e text) None self = Py.Ret None).
Proof.
  intros Hself. cbn zeta. unfold _on_send_thread.
  rewrite (bind_returned _ _ self _ _ (send_begin_eq e text self)).
  set (self1 := set_ids _ self).
  assert (Hself1 : Play.paired self1) by done.
  unfold Py.bind.
  pose proof (try_send_paired (filter_input e text) self1 Hself1) as Hp.
  destruct (_try_send e (filter_input e text) self1)
    as [[error|exc] self2] eqn:Htry; cbn in Hp.
  - destruct Hp as [Hp | Hp]; [done|].
    split.
    + intros _. by apply (preserved_invariant _ (send_end_adventure error)).
    + intros Hmark. by apply send_end_unmarked in Hmark.
  - split; cbn [fst snd].
    + intros Hmark. destruct Hp as [Hp | Hp]; [congruence | done].
    + intros [= ->]. clear Hp. revert Htry.
      unfold _try_send, try_except_return, Py.bind.
      destruct (send_action e (filter_input e text) self1)
        as [[[]|exc] self3] eqn:Hsend; [done|].
      unfold handle.
      destruct (Py.is_FunctionTimedOut exc); [done|].
      destruct (Py.is_Exception exc); [done|].
      intros [= -> ->]. revert Hsend. unfold send_action.
      rewrite (bind_returned _ _ self1 self1 self1) by done.
      change (mode self1) with (mode self).
      destruct (String.eqb_spec (mode self) "") as [Hmode | Hmode].
      * intros Hgen. split; [done|]. revert Hgen. unfold _generate.
        rewrite (bind_first _
                   (generate_return e (filter_input e text) true
                      (generated e (filter_input e text) None self)) _ self1)
          by (by rewrite (bind_returned _ _ self1 self1 self1)).
        pose proof (generated_unmarked (filter_input e text) None self) as Hg.
        destruct (generated e (filter_input e text) None self)
          as [[r|]|exc]; [|done|].
        -- unfold generate_return, filter_output_of, mutate, on_app,
             App.on_adventure, Py.bind, Py.when, Py.modify, Py.ret. by cbn.
        -- unfold generate_return, Py.bind. cbn. congruence.
      * intros Hedit. exfalso.
        apply (edit_unmarked (filter_input e text) self1). by rewrite Hedit.
Qed.
End Paired.

(** ** Entering the play screen *)

Section Enter.
Variable e : App.env.
Import PlayScreen.

Lemma play_on_enter_lemma (self : t) :
  (forall prompt,
     Adventure.actions (adventure self) = [prompt] ->
     Adventure.results (adventure self) = [] ->
     let done := Play.on_enter e self in
     done.1 = Py.Ret (Some (App.spawned (app self),
                            if Py.nonempty prompt then prompt
                            else input_text (ids self)))
     /\ adventure done.2 = Adventure.set_actions [] (adventure self)
     /\ App.threads (app done.2) !! "send" = Some (App.spawned (app self))
     /\ App.spawned (app done.2) = S (App.spawned (app self))
     /\ mode done.2 = mode self /\ ids done.2 = ids self)
  /\ (~ (length (Adventure.actions (adventure self)) = 1
         /\ length (Adventure.results (adventure self)) = 0) ->
      let done := Play.on_enter e self in
      (forall thread, done.1 <> Py.Ret (Some thread))
      /\ adventure done.2 = adventure self
      /\ app done.2 = app self).
Proof.
  split.
  - intros prompt Ha Hr. cbn zeta.
    assert (Henter :
      Play.on_enter e self
      = (Py.Ret (Some (App.spawned (app self),
                       if Py.nonempty prompt then prompt
                       else input_text (ids self))),
         set_app
           (App.new_thread "send"
              (App.set_adventure (Adventure.set_actions [] (adventure self))
                 (app self)))
           self)).
    { unfold Play.on_enter, Py.bind, Py.get. rewrite Ha, Hr. cbn.
      by destruct self. }
    rewrite Henter. cbn. rewrite lookup_insert_eq. by repeat split.
  - intros Hnot. cbn zeta.
    assert (Henter : Play.on_enter e self
                     = (on_update e true false ;; Py.ret None) self).
    { unfold Play.on_enter, Py.bind at 1, Py.get.
      destruct (Nat.eqb_spec (length (Adventure.actions (adventure self))) 1);
        [|done].
      destruct (Nat.eqb_spec (length (Adventure.results (adventure self))) 0);
        [tauto | done]. }
    rewrite Henter.
    assert (Happ : app (on_update e true false self).2 = app self).
    { unfold on_update, text_value, widget, Py.bind, Py.get, Py.when,
        Py.expect. by destruct (Adventure.name (adventure self)). }
    unfold Py.bind.
    destruct (on_update e true false self) as [[[]|exc] s1]; cbn in *;
      (split; [done|]); unfold adventure; by rewrite Happ.
Qed.

(** X15: entering the play screen.  With exactly one action and no
    result, the action is taken out of the adventure and sent: the
    adventure is then without actions and results, and a thread is
    started with that action as its text (with the text of the input line
    when the action is empty).  In every other case no thread is started
    and the adventure is not changed. *)
Theorem play_on_enter (self : t) :
  (forall prompt,
     Adventure.actions (adventure self) = [prompt] ->
     Adventure.results (adventure self) = [] ->
     let done := Play.on_enter e self in
     done.1 = Py.Ret (Some (App.spawned (app self),
                            if Py.nonempty prompt then prompt
                            else input_text (ids self)))
     /\ adventure done.2 = Adventure.set_actions [] (adventure self)
     /\ App.threads (app done.2) !! "send" = Some (App.spawned (app self))
     /\ App.spawned (app done.2) = S (App.spawned (app self))
     /\ mode done.2 = mode self /\ ids done.2 = ids self)
  /\ (~ (length (Adventure.actions (adventure self)) = 1
         /\ length (Adventure.results (adventure self)) = 0) ->
      let done := Play.on_enter e self in
      (forall thread, done.1 <> Py.Ret (Some thread))
      /\ adventure done.2 = adventure self
      /\ app done.2 = app self).
Proof. exact (play_on_enter_lemma self). Qed.
End Enter.

(** ** The menu screen *)

Section MenuScreen.
Import Menu.

Lemma blank_lstrip s : Utils.blank (Utils.lstrip s) = Utils.blank s.
Proof.
  induction s as [|c s IH]; [done|]. cbn.
  destruct (Utils.is_space c) eqn:Hc; [done|]. cbn. by rewrite Hc.
Qed.

Lemma strip_nonempty s : Py.nonempty (Utils.strip s) = negb (Utils.blank s).
Proof.
  unfold Utils.strip, Py.nonempty. rewrite <- (blank_lstrip s).
  destruct (Utils.blank (Utils.lstrip s)) eqn:Hb.
  - by rewrite rstrip_blank.
  - apply rstrip_not_blank in Hb. by destruct (Utils.rstrip _).
Qed.

Lemma buttons_enabled (self : t) :
  (button_start_new_disabled (ids (on_update self)) = false
   <-> ai self = true
       /\ Utils.blank (input_name (ids self)) = false
       /\ Utils.blank (input_context (ids self)) = false
       /\ Utils.blank (input_prompt (ids self)) = false)
  /\ (button_start_load_disabled (ids (on_update self)) = false
      <-> ai self = true
          /\ exists game, selected_savefile self = Some game /\ game <> "").
Proof.
  unfold on_update, update_button_start_load, update_button_start_new. cbn.
  rewrite !strip_nonempty. split.
  - destruct (ai self), (Utils.blank (input_name (ids self))),
      (Utils.blank (input_context (ids self))),
      (Utils.blank (input_prompt (ids self))); cbn;
      intuition congruence.
  - destruct (ai self), (selected_savefile self) as [game|]; cbn;
      try (split; [discriminate | intros (? & ? & ? & ?); congruence]).
    destruct (String.eqb_spec game ""); cbn.
    + split; [discriminate | intros (_ & ? & ? & ?); congruence].
    + split; [intros _; eauto | done].
Qed.

(** X16: the start buttons.  After [on_update] the button of a new game
    is enabled exactly when a model is loaded and the name, the context
    and the prompt each hold something besides whitespace; the button of
    a loaded game is enabled exactly when a model is loaded and a save
    with a name that is not empty is selected. *)
Theorem menu_buttons (self : t) :
  (button_start_new_disabled (ids (on_update self)) = false
   <-> ai self = true
       /\ Utils.blank (input_name (ids self)) = false
       /\ Utils.blank (input_context (ids self)) = false
       /\ Utils.blank (input_prompt (ids self)) = false)
  /\ (button_start_load_disabled (ids (on_update self)) = false
      <-> ai self = true
          /\ exists game, selected_savefile self = Some game /\ game <> "").
Proof. exact (buttons_enabled self). Qed.

(** X17: starting a new game.  From the adventure that the menu makes
    when it is entered, with the start button enabled, [on_start_new]
    followed by the entering of a play screen in generation mode leaves an
    adventure with the name and the context of the input lines and
    without actions and results, shows the play screen, and starts one
    thread whose text is the prompt. *)
Theorem new_game_starts (e : App.env) (self : t) (scr : PlayScreen.t) :
  App.adventure (app self) = Adventure.init None None ->
  button_start_new_disabled (ids (on_update self)) = false ->
  let started := on_start_new self in
  let entered := Play.on_enter e (PlayScreen.set_app (app started) scr) in
  current started = "play"
  /\ entered.1 = Py.Ret (Some (App.spawned (app self), input_prompt (ids self)))
  /\ PlayScreen.adventure entered.2
     = Adventure.mk (Some (input_name (ids self)))
         (Some (input_context (ids self))) "" [] []
  /\ Play.paired entered.2.
Proof.
  intros Hadv Hbutton. apply buttons_enabled in Hbutton as (_ & _ & _ & Hprompt).
  assert (Hne : Py.nonempty (input_prompt (ids self)) = true)
    by (by destruct (input_prompt (ids self))).
  cbn zeta. split; [done|].
  destruct (proj1 (play_on_enter_lemma e
              (PlayScreen.set_app (app (on_start_new self)) scr))
              (input_prompt (ids self)))
    as (Hr & Ha & _).
  - unfold on_start_new, PlayScreen.adventure. cbn. by rewrite Hadv.
  - unfold on_start_new, PlayScreen.adventure. cbn. by rewrite Hadv.
  - rewrite Hr, Hne. split; [done|].
    unfold Play.paired. rewrite Ha.
    unfold on_start_new, PlayScreen.adventure. cbn. by rewrite Hadv.
Qed.
End MenuScreen.

(** ** The saves of the menu *)

Section MenuSaves.
Variable e : App.env.
Variable scandir : string -> Py.outcome (list string).
Import Menu.

Lemma dict_get_set {K V} `{EqDecision K} (k k' : K) (v : V) d :
  dict_get k (dict_set k' v d)
  = if decide (k = k') then Some v else dict_get k d.
Proof.
  induction d as [|[k0 v0] d IH]; cbn.
  - by destruct (decide (k = k')).
  - destruct (decide (k' = k0)) as [-> | Hne]; cbn.
    + by destruct (decide (k = k0)).
    + destruct (decide (k = k0)) as [-> | Hne'].
      * by rewrite decide_False.
      * done.
Qed.

Lemma dict_get_key {K V} `{EqDecision K} (k : K) (v : V) d :
  dict_get k d = Some v -> k ∈ d.*1.
Proof.
  induction d as [|[k0 v0] d IH]; [done|]. cbn.
  destruct (decide (k = k0)) as [-> | Hne]; [intros _; left|].
  intros Hget. right. by apply IH.
Qed.

Lemma reads_fun self p key d key' d' :
  reads self p key d -> reads self p key' d' -> key = key' /\ d = d'.
Proof.
  intros [Hf (v & Hv & Hk)] [Hf' (v' & Hv' & Hk')]. simplify_eq.
  split; [congruence | done].
Qed.

Lemma register_save_reads self p key d :
  reads self p key d ->
  register_save p self
  = (Py.Ret tt, set_savefiles (dict_set key d (savefiles self)) self).
Proof.
  intros [Hf (v & Hv & Hk)].
  unfold register_save, Py.bind, Py.get, Py.expect, Py.modify.
  by rewrite Hf; cbn; rewrite Hv; cbn; rewrite Hk.
Qed.

(** The loop of [init_saves] over files that can all be read: a name
    that no listed file has keeps the save it had, and a name for which
    all listed files hold the same record gets that record. *)
Lemma register_saves_reads paths :
  forall self,
    (forall p, p ∈ paths -> exists key d, reads self p key d) ->
    exists sf,
      register_saves paths self = (Py.Ret tt, set_savefiles sf self)
      /\ (forall k,
            (forall p key d, p ∈ paths -> reads self p key d -> key <> k) ->
            dict_get k sf = dict_get k (savefiles self))
      /\ (forall k0 d0,
            dict_get k0 (savefiles self) = Some d0
            \/ (exists p0, p0 ∈ paths /\ reads self p0 k0 d0) ->
            (forall p d, p ∈ paths -> reads self p k0 d -> d = d0) ->
            dict_get k0 sf = Some d0).
Proof.
  induction paths as [|p paths IH]; intros self Hall.
  - exists (savefiles self). split; [by destruct self|].
    split; [done|]. intros k0 d0 [Hget | (p0 & Hin & _)] _; [done|].
    by apply elem_of_nil in Hin.
  - destruct (Hall p) as (key & d & Hp); [left|].
    set (self1 := set_savefiles (dict_set key d (savefiles self)) self).
    destruct (IH self1) as (sf & Hrun & Hkeep & Hset).
    { intros p' Hin. apply Hall. by right. }
    exists sf. split; [|split].
    + cbn [register_saves]. unfold Py.bind.
      rewrite (register_save_reads self p key d Hp). fold self1.
      by rewrite Hrun.
    + intros k Hk. rewrite Hkeep.
      * cbn. rewrite dict_get_set. rewrite decide_False; [done|].
        intros Heq. apply (Hk p key d); [by left | done | congruence].
      * intros p' key' d' Hin Hr. eapply Hk; [by right | done].
    + intros k0 d0 Hsrc Hsame. apply Hset.
      * destruct (decide (k0 = key)) as [-> | Hne].
        -- left. cbn. rewrite dict_get_set, decide_True by done.
           f_equal. eapply Hsame; [left | done].
        -- destruct Hsrc as [Hget | (p0 & Hin & Hr)].
           ++ left. cbn. by rewrite dict_get_set, decide_False.
           ++ apply elem_of_cons in Hin as [-> | Hin].
              ** destruct (reads_fun _ _ _ _ _ _ Hp Hr). congruence.
              ** right. by exists p0.
      * intros p' d' Hin Hr. eapply Hsame; [by right | done].
Qed.

Lemma register_saves_app l1 l2 self :
  register_saves (l1 ++ l2) self
  = (register_saves l1 ;; register_saves l2) self.
Proof.
  revert self. induction l1 as [|p l1 IH]; intros self; [done|].
  simpl. unfold Py.bind in *.
  destruct (register_save p self) as [[[]|exc] s1]; [|done]. apply IH.
Qed.

Lemma elem_of_bool_filter {A} (f : A -> bool) (l : list A) x :
  x ∈ List.filter f l <-> x ∈ l /\ f x = true.
Proof. rewrite !list_elem_of_In. apply filter_In. Qed.

Lemma ends_with_append suffix a : ends_with suffix (a ++ suffix) = true.
Proof.
  induction a as [|c a IH].
  - destruct suffix as [|c s]; [done|].
    change (ends_with (String c s) ("" ++ String c s))
      with (String.eqb (String c s) (String c s) || ends_with (String c s) s).
    by rewrite String.eqb_refl.
  - change (ends_with suffix (String c a ++ suffix))
      with (String.eqb suffix (String c (a ++ suffix))
            || ends_with suffix (a ++ suffix)).
    rewrite IH. apply orb_true_r.
Qed.

(** X18: loading a save from the menu.  When the directory of the saves
    lists the file of a saved adventure, every listed ".json" file can be
    read and holds a name, and every listed file with the name of that
    adventure holds that adventure, then [init_saves] returns, offers the
    name, and selecting the name and starting puts the saved adventure in
    the session and shows the play screen. *)
Theorem load_from_menu (self : t) (adv : Adventure.t) (nm : string)
    (listing : list string) :
  let file := App.get_user_path e
                ["adventures"; (Utils.get_save_name nm ++ ".json")%string] in
  scandir (App.get_user_path e ["adventures"]) = Py.Ret listing ->
  Adventure.name adv = Some nm ->
  App.files (app self) !! file = Some (Adventure.to_dict adv) ->
  file ∈ listing ->
  (forall p, p ∈ listing -> ends_with ".json" p = true ->
     exists key d, reads self p key d
                   /\ (key = Some nm -> d = Adventure.to_dict adv)) ->
  let scanned := init_saves e scandir self in
  let started := on_start_load (on_game_selected nm scanned.2) in
  scanned.1 = Py.Ret tt
  /\ nm ∈ view_game_data (ids scanned.2)
  /\ selected_savefile scanned.2 = None
  /\ started.1 = Py.Ret tt
  /\ App.adventure (app started.2) = adv
  /\ current started.2 = "play".
Proof.
  intros file Hscan Hname Hfile Hin Hall scanned started.
  assert (Hjson : ends_with ".json" file = true).
  { unfold file. rewrite save_file_shape, !string_append_assoc.
    apply ends_with_append. }
  destruct (register_saves_reads (List.filter (ends_with ".json") listing) self)
    as (sf & Hrun & _ & Hset).
  { intros p [Hp Hj]%elem_of_bool_filter.
    destruct (Hall p) as (key & d & Hr & _); [done | done |]. eauto. }
  assert (Hget : dict_get (Some nm) sf = Some (Adventure.to_dict adv)).
  { apply Hset.
    - right. exists file. split.
      + by apply elem_of_bool_filter.
      + destruct (Hall file Hin Hjson) as (key & d & Hr & _).
        destruct Hr as [Hf (v & Hv & Hk)]. rewrite Hfile in Hf.
        injection Hf as <-. split; [done|].
        exists (Json.Str nm). split; [|done].
        unfold Adventure.to_dict. rewrite Hname. by rewrite lookup_insert_eq.
    - intros p d [Hp Hj]%elem_of_bool_filter Hr.
      destruct (Hall p) as (key & d' & Hr' & Hsame); [done | done |].
      destruct (reads_fun _ _ _ _ _ _ Hr Hr') as [<- ->]. by apply Hsame. }
  assert (Hinit : init_saves e scandir self
                  = (Py.Ret tt,
                     set_selected_savefile None
                       (set_ids (set_view_game_data (map str sf.*1) (ids self))
                          (set_savefiles sf self)))).
  { unfold init_saves. unfold Py.bind at 1. rewrite Hscan.
    unfold Py.bind at 1. rewrite Hrun. reflexivity. }
  unfold started, scanned. rewrite Hinit. cbn [fst snd].
  split; [done|]. split.
  { cbn. apply list_elem_of_In, (in_map str _ (Some nm)), list_elem_of_In.
    by apply dict_get_key in Hget. }
  split; [done|].
  unfold on_start_load, on_game_selected, on_update, update_button_start_load,
    update_button_start_new, Py.bind, Py.get, Py.expect. cbn.
  rewrite Hget. cbn. unfold on_app, App.on_adventure. cbn.
  rewrite from_dict_to_dict. by cbn.
Qed.

(** X19: a scan of the saves that fails.  When the directory cannot be
    read, [init_saves] raises what [os.scandir] raised and changes
    nothing.  When a listed ".json" file holds a record without name
    and the ones listed before it can be read, [init_saves] raises
    [KeyError] for "name"; the list that is shown and the selection are
    then left as they were before the scan. *)
Theorem init_saves_fails (self : t) :
  (forall exc,
     scandir (App.get_user_path e ["adventures"]) = Py.Raise exc ->
     init_saves e scandir self = (Py.Raise exc, self))
  /\ (forall listing good bad rest d,
        scandir (App.get_user_path e ["adventures"]) = Py.Ret listing ->
        List.filter (ends_with ".json") listing = good ++ bad :: rest ->
        (forall p, p ∈ good -> exists key d, reads self p key d) ->
        App.files (app self) !! bad = Some d ->
        d !! "name" = None ->
        let scanned := init_saves e scandir self in
        scanned.1 = Py.Raise (Py.KeyError "name")
        /\ ids scanned.2 = ids self
        /\ selected_savefile scanned.2 = selected_savefile self
        /\ app scanned.2 = app self).
Proof.
  split.
  - intros exc Hscan. unfold init_saves, Py.bind. by rewrite Hscan.
  - intros listing good bad rest d Hscan Hfilter Hgood Hbad Hname. cbn zeta.
    destruct (register_saves_reads good self Hgood) as (sf & Hrun & _).
    assert (Hinit : init_saves e scandir self
                    = (Py.Raise (Py.KeyError "name"), set_savefiles sf self)).
    { unfold init_saves. unfold Py.bind at 1. rewrite Hscan, Hfilter.
      unfold Py.bind at 1. rewrite register_saves_app.
      unfold Py.bind at 1. rewrite Hrun.
      cbn [register_saves]. unfold Py.bind at 1.
      unfold register_save, Py.bind, Py.get, Py.expect. cbn.
      rewrite Hbad. cbn. by rewrite Hname. }
    by rewrite Hinit.
Qed.
End MenuSaves.

(** ** Loading the filter modules *)

Section LoadModules.
Variable import_module : string -> string -> Py.outcome Modules.pymodule.
Import Modules.

Lemma tidy_bind {A B} (c : Py.M t A) (k : A -> Py.M t B) :
  tidy c -> (forall a, tidy (k a)) -> tidy (Py.bind c k).
Proof.
  intros Hc Hk s Hs. unfold Py.bind. specialize (Hc s Hs).
  destruct (c s) as [[a|exc] s1]; [|done]. by apply Hk.
Qed.

Lemma tidy_same {A} (c : Py.M t A) :
  (forall s, loaded_modules (c s).2 = loaded_modules s
             /\ imported (c s).2 = imported s) ->
  tidy c.
Proof.
  intros Hc s [Hnd Hin]. destruct (Hc s) as [Hl Hi].
  destruct (c s) as [[a|exc] s1]; cbn in *.
  - split; [by rewrite Hi|]. intros d m. rewrite Hi, Hl. apply Hin.
  - by rewrite Hi.
Qed.

Lemma load_module_tidy domain module :
  tidy (load_module import_module domain module).
Proof.
  intros s [Hnd Hin]. unfold load_module, Py.bind, Py.get, Py.modify.
  destruct (loaded_modules s !! _) as [v|] eqn:Hk; [done|]. cbn.
  assert (Hnew : NoDup (imported s
                        ++ [(("." ++ module)%string,
                             ("modules." ++ domain)%string)])).
  { apply NoDup_app. split; [done|]. split; [|apply NoDup_singleton].
    intros x Hx ->%list_elem_of_singleton.
    apply Hin in Hx. rewrite Hk in Hx. by destruct Hx. }
  destruct (import_module _ _) as [v|exc]; [|done]. cbn.
  split; [done|]. intros d m [Hold | Heq%list_elem_of_singleton]%elem_of_app.
  - cbn. apply lookup_insert_is_Some'. right. by apply Hin.
  - injection Heq as Hm Hd.
    apply String.app_inj in Hm. apply String.app_inj in Hd. subst.
    cbn. rewrite lookup_insert_eq. eauto.
Qed.

Lemma load_submodule_tidy {A} domain module (attr : pymodule -> option A) :
  tidy (load_submodule import_module domain module attr).
Proof.
  unfold load_submodule. apply tidy_bind; [apply load_module_tidy|].
  intros m. apply tidy_same. intros s. by destruct (attr m).
Qed.

Lemma unpack2_tidy l : tidy (unpack2 l).
Proof. apply tidy_same. intros s. by destruct l as [|a [|b [|c l]]]. Qed.

Lemma add_input_filter_tidy f : tidy (add_input_filter import_module f).
Proof.
  unfold add_input_filter. apply tidy_bind; [apply unpack2_tidy|intros dm].
  apply tidy_bind; [apply load_submodule_tidy|intros flt].
  by apply tidy_same.
Qed.

Lemma add_output_filter_tidy f : tidy (add_output_filter import_module f).
Proof.
  unfold add_output_filter. apply tidy_bind; [apply unpack2_tidy|intros dm].
  apply tidy_bind; [apply load_submodule_tidy|intros flt].
  by apply tidy_same.
Qed.

Lemma for_each_tidy body l : (forall f, tidy (body f)) -> tidy (for_each body l).
Proof.
  intros Hbody. induction l as [|f l IH]; cbn [for_each].
  - by apply tidy_same.
  - apply tidy_bind; [apply Hbody | done].
Qed.

(** X20: no module is imported twice.  Whatever the configuration and
    whatever the imports give, [init_mods] run on a new application calls
    [importlib.import_module] at most once for each module: a module that
    is named again comes from [loaded_modules]. *)
Theorem init_mods_imports_once (cfg_in cfg_out cfg_display : string) :
  NoDup (imported
           (init_mods import_module cfg_in cfg_out cfg_display init).2).
Proof.
  assert (Htidy : tidy (init_mods import_module cfg_in cfg_out cfg_display)).
  { unfold init_mods.
    apply tidy_bind; [apply for_each_tidy, add_input_filter_tidy | intros _].
    apply tidy_bind; [apply for_each_tidy, add_output_filter_tidy | intros _].
    apply tidy_bind; [apply unpack2_tidy | intros dm].
    apply tidy_bind; [apply load_submodule_tidy | intros flt].
    by apply tidy_same. }
  specialize (Htidy init).
  destruct (init_mods _ _ _ _ init) as [[[]|exc] s']; cbn.
  - apply Htidy. split; [apply NoDup_nil_2 | by intros d m Hin%elem_of_nil].
  - apply Htidy. split; [apply NoDup_nil_2 | by intros d m Hin%elem_of_nil].
Qed.
End LoadModules.

Section ModuleLists.
Variable import_module : string -> string -> Py.outcome Modules.pymodule.
Import Modules.

Lemma add_input_filter_keeps f :
  Py.preserves (fun s => (output_filters s, display_filter s))
    (add_input_filter import_module f).
Proof.
  unfold add_input_filter, load_submodule, load_module, unpack2.
  preserved.
Qed.

Lemma for_each_keeps {X} (g : t -> X) body l :
  (forall f, Py.preserves g (body f)) -> Py.preserves g (for_each body l).
Proof.
  intros Hbody. induction l as [|f l IH]; cbn [for_each]; preserved.
  apply Hbody.
Qed.

Lemma unpack2_raises l s :
  length l <> 2 -> unpack2 l s = (Py.Raise Py.ValueError, s).
Proof. by destruct l as [|a [|b [|c l]]]. Qed.

Lemma for_each_input_raises l s f :
  f ∈ l -> length (split ":" f) <> 2 ->
  exists exc s',
    for_each (add_input_filter import_module) l s = (Py.Raise exc, s').
Proof.
  intros Hin Hbad. revert s.
  induction l as [|f' l IH]; intros s; [by apply elem_of_nil in Hin|].
  cbn [for_each]. unfold Py.bind.
  destruct (add_input_filter import_module f' s) as [[[]|exc] s1] eqn:Hf';
    [|by eauto].
  apply elem_of_cons in Hin as [-> | Hin]; [|by apply IH].
  unfold add_input_filter, Py.bind in Hf'.
  by rewrite unpack2_raises in Hf'.
Qed.

(** X21: a list of input filters that is not well formed.  When an entry
    of the list does not consist of two parts around one colon,
    [init_mods] raises; no output filter has then been added and the
    display filter has not been set.  The empty list is such a list: it
    raises [ValueError] before anything is loaded. *)
Theorem init_mods_malformed (cfg_in cfg_out cfg_display : string) (s : t) :
  ((exists f, f ∈ split "," cfg_in /\ length (split ":" f) <> 2) ->
   exists exc s',
     init_mods import_module cfg_in cfg_out cfg_display s = (Py.Raise exc, s')
     /\ output_filters s' = output_filters s
     /\ display_filter s' = display_filter s)
  /\ init_mods import_module "" cfg_out cfg_display s
     = (Py.Raise Py.ValueError, s).
Proof.
  split; [|reflexivity].
  intros (f & Hin & Hbad).
  destruct (for_each_input_raises _ s f Hin Hbad) as (exc & s' & Hrun).
  exists exc, s'. unfold init_mods, Py.bind. rewrite Hrun.
  split; [done|].
  pose proof (for_each_keeps _ _ (split "," cfg_in) add_input_filter_keeps s)
    as Hkeep.
  rewrite Hrun in Hkeep. cbn in Hkeep. by injection Hkeep.
Qed.

(** *** Lists that are well formed *)

Lemma split_lacks sep s : lacks sep s = true -> split sep s = [s].
Proof.
  induction s as [|c s IH]; [done|]. cbn.
  intros [Hc Hs]%andb_prop. apply negb_true_iff in Hc.
  by rewrite Hc, (IH Hs).
Qed.

Lemma split_sep sep a b :
  lacks sep a = true ->
  split sep (a ++ String sep b) = a :: split sep b.
Proof.
  induction a as [|c a IH].
  - intros _. simpl. by rewrite Ascii.eqb_refl.
  - simpl. intros [Hc Ha]%andb_prop. apply negb_true_iff in Hc.
    change (split sep (String c (a ++ String sep b)))
      with (if Ascii.eqb c sep then "" :: split sep (a ++ String sep b)
            else match split sep (a ++ String sep b) with
                 | w :: ws => String c w :: ws
                 | [] => [String c ""]
                 end).
    by rewrite Hc, (IH Ha).
Qed.

Lemma lacks_append sep a b :
  lacks sep (a ++ b) = lacks sep a && lacks sep b.
Proof.
  induction a as [|c a IH]; [done|].
  change (lacks sep (String c a ++ b))
    with (negb (Ascii.eqb c sep) && lacks sep (a ++ b)).
  rewrite IH. cbn. by rewrite andb_assoc.
Qed.

Lemma split_entry dm :
  lacks ":" dm.1 = true -> lacks ":" dm.2 = true ->
  split ":" (entry dm) = [dm.1; dm.2].
Proof.
  intros H1 H2. unfold entry.
  change (dm.1 ++ ":" ++ dm.2)%string with (dm.1 ++ String ":" dm.2)%string.
  by rewrite split_sep, split_lacks.
Qed.

Lemma split_entries l :
  l <> [] ->
  (forall dm, dm ∈ l -> lacks "," dm.1 = true /\ lacks "," dm.2 = true) ->
  split "," (entries l) = map entry l.
Proof.
  assert (Hentry : forall dm,
            lacks "," dm.1 = true /\ lacks "," dm.2 = true ->
            lacks "," (entry dm) = true).
  { intros dm [H1 H2]. unfold entry. rewrite !lacks_append, H1, H2. done. }
  induction l as [|dm l IH]; [done|]. intros _ Hall. unfold entries in *.
  destruct l as [|dm' l].
  - cbn. apply split_lacks, Hentry, Hall. by left.
  - change (Py.join "," (map entry (dm :: dm' :: l)))
      with (entry dm ++ String "," (Py.join "," (map entry (dm' :: l))))%string.
    rewrite split_sep by (apply Hentry, Hall; by left).
    cbn [map]. f_equal. apply IH; [done|].
    intros x Hx. apply Hall. by right.
Qed.

Lemma key_inj d d' m m' :
  lacks ":" d = true -> lacks ":" d' = true ->
  (d ++ ":" ++ m = d' ++ ":" ++ m')%string -> d = d' /\ m = m'.
Proof.
  revert d'. induction d as [|c d IH]; intros [|c' d'] Hd Hd' Heq.
  - by injection Heq.
  - simpl in *. injection Heq as <- _.
    apply andb_prop in Hd' as [Hc _]. by rewrite Ascii.eqb_refl in Hc.
  - simpl in *. injection Heq as -> _.
    apply andb_prop in Hd as [Hc _]. by rewrite Ascii.eqb_refl in Hc.
  - simpl in *. injection Heq as -> Heq.
    apply andb_prop in Hd as [_ Hd]. apply andb_prop in Hd' as [_ Hd'].
    destruct (IH d' Hd Hd' Heq) as [-> ->]. done.
Qed.

(** Loading a module that can be imported gives what the import gives,
    from the cache or not, and touches no filter. *)
Lemma load_module_faithful d m v s :
  faithful import_module s ->
  lacks ":" d = true ->
  import_module ("." ++ m) ("modules." ++ d) = Py.Ret v ->
  exists s',
    load_module import_module d m s = (Py.Ret v, s')
    /\ faithful import_module s'
    /\ input_filters s' = input_filters s
    /\ output_filters s' = output_filters s
    /\ display_filter s' = display_filter s.
Proof.
  intros Hs Hd Himp. unfold load_module, Py.bind, Py.get, Py.modify.
  destruct (loaded_modules s !! _) as [v'|] eqn:Hk.
  - apply Hs in Hk; [|done]. rewrite Himp in Hk. injection Hk as <-.
    by exists s.
  - cbn. rewrite Himp. cbn. eexists. split; [reflexivity|].
    split; [|done]. intros d' m' v' Hd' Hget. cbn in Hget.
    apply lookup_insert_Some in Hget as [[Hkey <-] | [_ Hget]].
    + by destruct (key_inj _ _ _ _ Hd Hd' Hkey) as [<- <-].
    + by apply Hs.
Qed.

Lemma for_each_input_loaded (mods : string * string -> pymodule)
    (fin : string * string -> string -> string) l :
  forall s,
    faithful import_module s ->
    (forall dm, dm ∈ l ->
       lacks ":" dm.1 = true /\ lacks ":" dm.2 = true
       /\ import_module ("." ++ dm.2) ("modules." ++ dm.1) = Py.Ret (mods dm)
       /\ filter_input (mods dm) = Some (fin dm)) ->
    exists s',
      for_each (add_input_filter import_module) (map entry l) s
      = (Py.Ret tt, s')
      /\ faithful import_module s'
      /\ input_filters s' = input_filters s ++ map fin l
      /\ output_filters s' = output_filters s
      /\ display_filter s' = display_filter s.
Proof.
  induction l as [|dm l IH]; intros s Hs Hall.
  - exists s. by rewrite app_nil_r.
  - destruct (Hall dm) as (Hd & Hm & Himp & Hattr); [by left|].
    destruct (load_module_faithful _ _ _ s Hs Hd Himp)
      as (s1 & Hload & Hs1 & Hi1 & Ho1 & Hd1).
    set (s2 := mk (loaded_modules s1) (input_filters s1 ++ [fin dm])
                  (output_filters s1) (display_filter s1) (imported s1)).
    destruct (IH s2) as (s' & Hrun & Hs' & Hi' & Ho' & Hd'); [done | |].
    { intros x Hx. apply Hall. by right. }
    exists s'. split; [|split; [done|]].
    + cbn [map for_each]. unfold Py.bind at 1.
      unfold add_input_filter, load_submodule, Py.bind at 1 2 3.
      rewrite split_entry by done. cbn [unpack2 Py.ret fst snd].
      rewrite Hload. cbn [Py.expect]. rewrite Hattr. exact Hrun.
    + rewrite Hi', Ho', Hd'. cbn. rewrite Hi1, <- app_assoc. done.
Qed.

Lemma for_each_output_loaded (mods : string * string -> pymodule)
    (fout : string * string -> string -> string) l :
  forall s,
    faithful import_module s ->
    (forall dm, dm ∈ l ->
       lacks ":" dm.1 = true /\ lacks ":" dm.2 = true
       /\ import_module ("." ++ dm.2) ("modules." ++ dm.1) = Py.Ret (mods dm)
       /\ filter_output (mods dm) = Some (fout dm)) ->
    exists s',
      for_each (add_output_filter import_module) (map entry l) s
      = (Py.Ret tt, s')
      /\ faithful import_module s'
      /\ input_filters s' = input_filters s
      /\ output_filters s' = output_filters s ++ map fout l
      /\ display_filter s' = display_filter s.
Proof.
  induction l as [|dm l IH]; intros s Hs Hall.
  - exists s. by rewrite app_nil_r.
  - destruct (Hall dm) as (Hd & Hm & Himp & Hattr); [by left|].
    destruct (load_module_faithful _ _ _ s Hs Hd Himp)
      as (s1 & Hload & Hs1 & Hi1 & Ho1 & Hd1).
    set (s2 := mk (loaded_modules s1) (input_filters s1)
                  (output_filters s1 ++ [fout dm]) (display_filter s1)
                  (imported s1)).
    destruct (IH s2) as (s' & Hrun & Hs' & Hi' & Ho' & Hd'); [done | |].
    { intros x Hx. apply Hall. by right. }
    exists s'. split; [|split; [done|]].
    + cbn [map for_each]. unfold Py.bind at 1.
      unfold add_output_filter, load_submodule, Py.bind at 1 2 3.
      rewrite split_entry by done. cbn [unpack2 Py.ret fst snd].
      rewrite Hload. cbn [Py.expect]. rewrite Hattr. exact Hrun.
    + rewrite Hi', Ho', Hd'. cbn. rewrite Ho1, <- app_assoc. done.
Qed.

(** X22: the filters are loaded in the order of the configuration.  When
    the lists of input and output filters name modules without colon or
    comma in their parts, each of which can be imported and has the
    attribute asked for, and so for the display filter, [init_mods] run
    on a new application returns with the input filters and the output
    filters of the modules in the order in which the lists name them, and
    with the display filter. *)
Theorem init_mods_loads_in_order
    (ins outs : list (string * string)) (disp : string * string)
    (mods : string * string -> pymodule)
    (fin fout : string * string -> string -> string)
    (fdisp : list string -> string) :
  ins <> [] -> outs <> [] ->
  (forall dm, dm ∈ ins ++ outs ->
     lacks "," dm.1 = true /\ lacks "," dm.2 = true) ->
  (forall dm, dm ∈ ins ++ outs ++ [disp] ->
     lacks ":" dm.1 = true /\ lacks ":" dm.2 = true
     /\ import_module ("." ++ dm.2) ("modules." ++ dm.1) = Py.Ret (mods dm)) ->
  (forall dm, dm ∈ ins -> filter_input (mods dm) = Some (fin dm)) ->
  (forall dm, dm ∈ outs -> filter_output (mods dm) = Some (fout dm)) ->
  filter_display (mods disp) = Some fdisp ->
  let done := init_mods import_module (entries ins) (entries outs)
                (entry disp) init in
  done.1 = Py.Ret tt
  /\ input_filters done.2 = map fin ins
  /\ output_filters done.2 = map fout outs
  /\ display_filter done.2 = Some fdisp.
Proof.
  intros Hins Houts Hcomma Hload Hfin Hfout Hfdisp.
  assert (Hinit : faithful import_module init) by (by intros d m v _ Hget).
  destruct (for_each_input_loaded mods fin ins init Hinit)
    as (s1 & Hrun1 & Hs1 & Hi1 & Ho1 & Hd1).
  { intros dm Hdm. destruct (Hload dm) as (? & ? & ?).
    - apply elem_of_app. by left.
    - repeat split; try done. by apply Hfin. }
  destruct (for_each_output_loaded mods fout outs s1 Hs1)
    as (s2 & Hrun2 & Hs2 & Hi2 & Ho2 & Hd2).
  { intros dm Hdm. destruct (Hload dm) as (? & ? & ?).
    - apply elem_of_app. right. apply elem_of_app. by left.
    - repeat split; try done. by apply Hfout. }
  destruct (Hload disp) as (Hdd & Hdm & Himp).
  { apply elem_of_app. right. apply elem_of_app. right. by left. }
  destruct (load_module_faithful _ _ _ s2 Hs2 Hdd Himp)
    as (s3 & Hload3 & Hs3 & Hi3 & Ho3 & Hd3).
  assert (Hdone :
    init_mods import_module (entries ins) (entries outs) (entry disp) init
    = (Py.Ret tt,
       mk (loaded_modules s3) (input_filters s3) (output_filters s3)
          (Some fdisp) (imported s3))).
  { unfold init_mods.
    rewrite !split_entries;
      [| done | intros dm Hx; apply Hcomma, elem_of_app; by right
       | done | intros dm Hx; apply Hcomma, elem_of_app; by left].
    unfold Py.bind at 1. rewrite Hrun1.
    unfold Py.bind at 1. rewrite Hrun2.
    rewrite split_entry by done.
    unfold load_submodule, Py.bind. cbn [unpack2 Py.ret fst snd].
    rewrite Hload3. cbn [Py.expect]. by rewrite Hfdisp. }
  cbn zeta. rewrite Hdone. cbn.
  by rewrite Hi3, Hi2, Hi1, Ho3, Ho2, Ho1.
Qed.
End ModuleLists.

(** ** Saves that the menu has seen *)

Section MenuKept.
Variable e : App.env.
Variable scandir : string -> Py.outcome (list string).
Import Menu.

Lemma dict_set_keys {K V} `{EqDecision K} (k : K) (v : V) d :
  exists new, (dict_set k v d).*1 = d.*1 ++ new.
Proof.
  induction d as [|[k' v'] d [new IH]]; [exists [k]; reflexivity|]. cbn.
  destruct (decide (k = k')) as [-> | _].
  - exists []. cbn. by rewrite app_nil_r.
  - exists new. cbn. by rewrite IH.
Qed.

Lemma register_save_keys p self :
  exists new,
    (savefiles (register_save p self).2).*1 = (savefiles self).*1 ++ new.
Proof.
  unfold register_save, Py.bind, Py.get, Py.expect, Py.modify.
  destruct (App.files (app self) !! p) as [data|];
    [|exists []; cbn; by rewrite app_nil_r].
  cbn. destruct (data !! "name") as [name|];
    [|exists []; cbn; by rewrite app_nil_r].
  cbn. destruct (Json.to_optional name) as [key|];
    [|exists []; cbn; by rewrite app_nil_r].
  cbn. apply dict_set_keys.
Qed.

Lemma register_saves_keys paths :
  forall self,
    exists new,
      (savefiles (register_saves paths self).2).*1
      = (savefiles self).*1 ++ new.
Proof.
  induction paths as [|p paths IH]; intros self;
    [exists []; cbn; by rewrite app_nil_r|].
  cbn [register_saves]. unfold Py.bind.
  destruct (register_save_keys p self) as [new1 H1].
  destruct (register_save p self) as [[[]|exc] self1]; cbn in *.
  - destruct (IH self1) as [new2 H2]. exists (new1 ++ new2).
    by rewrite H2, H1, <- app_assoc.
  - by exists new1.
Qed.

(** X23: the menu forgets no save.  Whatever the directory holds now,
    [init_saves] keeps every save that was registered before, in the old
    order and before the ones that are new; when it returns, the list on
    the screen has the names of all of them and nothing is selected.  A
    save whose file has been removed is therefore still offered. *)
Theorem init_saves_keeps (self : t) :
  let scanned := init_saves e scandir self in
  (exists new, (savefiles scanned.2).*1 = (savefiles self).*1 ++ new)
  /\ (scanned.1 = Py.Ret tt ->
      exists new,
        view_game_data (ids scanned.2)
        = map str (savefiles self).*1 ++ map str new
        /\ selected_savefile scanned.2 = None).
Proof.
  cbn zeta.
  destruct (scandir (App.get_user_path e ["adventures"]))
    as [listing|exc] eqn:Hscan.
  2: { assert (init_saves e scandir self = (Py.Raise exc, self)) as ->
         by (unfold init_saves, Py.bind; by rewrite Hscan).
       split; [exists []; cbn; by rewrite app_nil_r | done]. }
  destruct (register_saves_keys (List.filter (ends_with ".json") listing) self)
    as [new Hnew].
  destruct (register_saves (List.filter (ends_with ".json") listing) self)
    as [[[]|exc] self1] eqn:Hrun; cbn in Hnew.
  - assert (init_saves e scandir self
            = (Py.Ret tt,
               set_selected_savefile None
                 (set_ids (set_view_game_data (map str (savefiles self1).*1)
                             (ids self1)) self1))) as ->
      by (unfold init_saves, Py.bind; rewrite Hscan, Hrun; reflexivity).
    cbn. split; [by exists new|]. intros _. exists new.
    by rewrite Hnew, map_app.
  - assert (init_saves e scandir self = (Py.Raise exc, self1)) as ->
      by (unfold init_saves, Py.bind; rewrite Hscan, Hrun; reflexivity).
    split; [by exists new | done].
Qed.
End MenuKept.

(** ** Loading after a turn *)

Section LoadAfterTurn.
Variable e : App.env.
Import PlayScreen.

Lemma generated_app text stop self self' :
  adventure self' = adventure self ->
  generated e text stop self' = generated e text stop self.
Proof.
  intros Ha. unfold generated, generate_call, ai_story in *.
  by rewrite Ha.
Qed.

Lemma popup_saved scr nm :
  Adventure.name (adventure scr) = Some nm ->
  let saved := Play.popup_on_save e scr in
  saved.1 = Py.Ret tt
  /\ app saved.2
     = App.set_files
         (<[App.get_user_path e
              ["adventures"; (Utils.get_save_name nm ++ ".json")%string]
            := Adventure.to_dict (adventure scr)]> (App.files (app scr)))
         (app scr)
  /\ mode saved.2 = mode scr.
Proof.
  intros Hname. cbn zeta. unfold Play.popup_on_save, Py.bind, on_app.
  rewrite (save_adventure_named e (app scr) nm Hname).
  set (scr1 := set_app _ scr).
  destruct (on_update_effect e true false scr1 nm Hname)
    as (Hr & Happ & Hm & _).
  destruct (on_update e true false scr1) as [ret scr2]. cbn in *.
  by rewrite Hr, Happ, Hm.
Qed.

Lemma popup_loaded scr nm adv :
  Adventure.name (adventure scr) = Some nm ->
  App.files (app scr)
  !! App.get_user_path e
       ["adventures"; (Utils.get_save_name nm ++ ".json")%string]
  = Some (Adventure.to_dict adv) ->
  is_Some (Adventure.name adv) ->
  let loaded := Play.popup_on_load e scr in
  loaded.1 = Py.Ret tt
  /\ adventure loaded.2 = adv
  /\ output_text (ids loaded.2)
     = App.display_filter e (Adventure.full_story adv).
Proof.
  intros Hname Hfile [nm' Hnm']. cbn zeta.
  unfold Play.popup_on_load, Py.bind, on_app.
  rewrite (load_adventure_named e (app scr) nm _ Hname Hfile).
  unfold App.on_adventure. rewrite from_dict_to_dict.
  set (scr1 := set_app _ scr).
  destruct (on_update_effect e true false scr1 nm' Hnm')
    as (Hr & Happ & _ & _ & _ & _ & Hout).
  destruct (on_update e true false scr1) as [ret scr2]. cbn in *.
  unfold adventure. by rewrite Hr, Happ, Hout.
Qed.

(** X24: what the load button gives back after a turn.  The adventure is
    saved from the menu popup, a turn is then played, and the adventure
    is loaded from the popup.  With autosave on, the turn had been saved:
    loading leaves the adventure with the turn.  With autosave off,
    loading gives back the adventure as it was saved, without the turn.
    Either way the screen then shows the story of the adventure that was
    loaded. *)
Theorem load_after_turn (scr : t) (text r nm : string) :
  mode scr = "" ->
  Adventure.name (adventure scr) = Some nm ->
  generated e (filter_input e text) None scr = Py.Ret (Some r) ->
  let saved := Play.popup_on_save e scr in
  let turned := _on_send_thread e text saved.2 in
  let loaded := Play.popup_on_load e turned.2 in
  saved.1 = Py.Ret tt /\ turned.1 = Py.Ret tt /\ loaded.1 = Py.Ret tt
  /\ adventure loaded.2
     = (if App.autosave (App.cfg e) then adventure turned.2
        else adventure scr)
  /\ Adventure.actions (adventure turned.2)
     = Adventure.actions (adventure scr) ++ [filter_input e text]
  /\ output_text (ids loaded.2)
     = App.display_filter e (Adventure.full_story (adventure loaded.2)).
Proof.
  intros Hmode Hname Hgen saved turned loaded.
  destruct (popup_saved scr nm Hname) as (Hs & Hsapp & Hsmode).
  fold saved in Hs, Hsapp, Hsmode.
  assert (Hsadv : adventure saved.2 = adventure scr)
    by (unfold adventure; by rewrite Hsapp).
  destruct (send_thread_turn e saved.2 text r nm) as (Ht & Hta & _ & _ & _ & Htf).
  { by rewrite Hsmode. }
  { by rewrite Hsadv. }
  { by rewrite (generated_app _ _ scr saved.2 Hsadv). }
  fold turned in Ht, Hta, Htf. rewrite Hsadv in Hta, Htf.
  rewrite Hsapp in Htf.
  set (adv := Adventure.set_results _ _) in Hta, Htf.
  destruct (popup_loaded turned.2 nm
              (if App.autosave (App.cfg e) then adv else adventure scr))
    as (Hl & Hla & Hlo).
  { by rewrite Hta. }
  { rewrite Htf. destruct (App.autosave (App.cfg e));
      [by rewrite lookup_insert_eq|].
    unfold App.set_files. cbn [App.files]. by rewrite lookup_insert_eq. }
  { by destruct (App.autosave (App.cfg e)). }
  fold loaded in Hl, Hla, Hlo.
  repeat split; try done.
  - rewrite Hla, Hta. by destruct (App.autosave (App.cfg e)).
  - by rewrite Hta.
  - by rewrite Hlo, Hla.
Qed.
End LoadAfterTurn.

(** ** The further properties at work *)

Lemma generate_records_turn_witness :
  Adventure.actions
    (PlayScreen.adventure
       (PlayScreen._generate Examples.env "go" true None
          (Sample.screen Sample.two_turns)).2)
  = ["look"; "run"; "go"].
Proof.
  exact (proj1 (proj2 (generate_records_turn Examples.env
                         (Sample.screen Sample.two_turns) "go" None
                         " It is cold. " eq_refl))).
Defined.

Lemma send_thread_records_turn_witness :
  (PlayScreen._on_send_thread Examples.env "go"
     (Sample.screen Sample.two_turns)).1
  = Py.Ret tt.
Proof.
  exact (proj1 (send_thread_records_turn Examples.env
                  (Sample.screen Sample.two_turns) "go" " It is cold. "
                  "My Game!! 2" eq_refl eq_refl eq_refl)).
Defined.

Lemma edit_ignores_generator_witness :
  PlayScreen._on_send_thread
    (Play.with_generator Sample.times_out Examples.env) "A hall."
    (Examples.editing "c" 0 Sample.two_turns)
  = PlayScreen._on_send_thread Examples.env "A hall."
      (Examples.editing "c" 0 Sample.two_turns).
Proof.
  exact (edit_ignores_generator Examples.env
           (Examples.editing "c" 0 Sample.two_turns) "A hall."
           Sample.times_out ltac:(discriminate)).
Defined.

Lemma edit_replaces_entry_witness :
  PlayScreen.adventure
    (PlayScreen._on_send_thread Examples.env "walk"
       (Examples.editing "a" 1 Sample.two_turns)).2
  = Adventure.set_actions ["look"; "> walk"] Sample.two_turns.
Proof.
  exact (proj1 (proj2 (proj1
    (edit_replaces_entry Examples.env
       (Examples.editing "a" 1 Sample.two_turns) "walk" "My Game!! 2" eq_refl)
    eq_refl ltac:(cbn; lia)))).
Defined.

Lemma edit_sets_field_witness :
  PlayScreen.adventure
    (PlayScreen._on_send_thread Examples.env "You are tired."
       (Examples.editing "m" 0 Sample.two_turns)).2
  = Adventure.set_memory "> You are tired." Sample.two_turns.
Proof.
  exact (proj1 (proj2 (proj2
    (edit_sets_field Examples.env
       (Examples.editing "m" 0 Sample.two_turns) "You are tired."
       "My Game!! 2" eq_refl)
    eq_refl))).
Defined.

Lemma edit_out_of_range_witness :
  (PlayScreen._on_send_thread Examples.env "walk"
     (Examples.editing "r" 2 Sample.two_turns)).1
  = Py.Raise (Py.UnboundLocalError "result").
Proof.
  apply (edit_out_of_range Examples.env
           (Examples.editing "r" 2 Sample.two_turns) "walk").
  right. split; [reflexivity | cbn; lia].
Defined.

Lemma select_entry_witness :
  (PlayScreen.on_entry_selected Examples.env "a99"
     (Sample.screen Sample.two_turns)).1
  = Py.Raise Py.IndexError
  /\ PlayScreen.edit_index
       (PlayScreen.on_entry_selected Examples.env "a99"
          (Sample.screen Sample.two_turns)).2
     = 49.
Proof.
  destruct (select_entry Examples.env (Sample.screen Sample.two_turns)
              "a"%char "99" "My Game!! 2" eq_refl (or_introl eq_refl)
              eq_refl ltac:(discriminate) eq_refl)
    as (_ & Hi & _ & _ & Hout).
  split; [exact (proj1 (Hout eq_refl)) | exact Hi].
Defined.

Lemma select_then_send_edits_witness :
  PlayScreen.adventure
    (PlayScreen._on_send_thread Examples.env "You rest."
       (PlayScreen.on_entry_selected Examples.env "r3"
          (Sample.screen Sample.two_turns)).2).2
  = Adventure.set_results ["It is dark."; "> You rest."] Sample.two_turns.
Proof.
  exact (proj1 (proj2
    (select_then_send_edits Examples.env (Sample.screen Sample.two_turns)
       "r"%char "3" "My Game!! 2" "You rest." "You fall." eq_refl
       (or_intror eq_refl) eq_refl ltac:(discriminate) eq_refl eq_refl))).
Defined.

Lemma save_path_shape_witness :
  App.save_path Examples.env (Sample.app Sample.two_turns)
  = (Py.Ret "user/adventures/My_Game_2.json", Sample.app Sample.two_turns).
Proof.
  exact (proj1 (save_path_shape Examples.env (Sample.app Sample.two_turns)
                  "My Game!! 2" eq_refl)).
Defined.

Lemma save_load_failures_witness :
  Play.popup_on_load Examples.env (Sample.screen Sample.two_turns)
  = (Py.Raise (Py.FileNotFoundError "user/adventures/My_Game_2.json"),
     Sample.screen Sample.two_turns).
Proof.
  exact (proj2 (proj2 (save_load_failures Examples.env
                         (Sample.screen Sample.two_turns))
                  "My Game!! 2" eq_refl eq_refl)).
Defined.

Lemma save_other_name_kept_witness :
  App.adventure
    (App.load_adventure Examples.env
       (App.set_adventure (Adventure.init (Some "My Game!! 2") None)
          (App.save_adventure Examples.env
             (App.set_adventure Sample.three_turns
                (App.save_adventure Examples.env
                   (App.set_adventure Sample.two_turns
                      (Sample.app Sample.three_turns))).2)).2)).2
  = Sample.two_turns.
Proof.
  exact (proj2 (save_other_name_kept Examples.env
                  (Sample.app Sample.three_turns) Sample.two_turns
                  Sample.three_turns (Adventure.init (Some "My Game!! 2") None)
                  "My Game!! 2" "cave" eq_refl eq_refl eq_refl
                  ltac:(discriminate))).
Defined.

Lemma save_same_name_overwrites_witness :
  App.adventure
    (App.load_adventure Examples.env
       (App.set_adventure Sample.two_turns
          (App.save_adventure Examples.env
             (App.set_adventure
                (Adventure.set_name (Some "My  Game_2?") Sample.three_turns)
                (App.save_adventure Examples.env
                   (App.set_adventure Sample.two_turns
                      (Sample.app Sample.three_turns))).2)).2)).2
  = Adventure.set_name (Some "My  Game_2?") Sample.three_turns.
Proof.
  exact (proj2 (save_same_name_overwrites Examples.env
                  (Sample.app Sample.three_turns) Sample.two_turns
                  (Adventure.set_name (Some "My  Game_2?") Sample.three_turns)
                  Sample.two_turns "My Game!! 2" "My  Game_2?"
                  eq_refl eq_refl eq_refl eq_refl)).
Defined.

Lemma session_keeps_paired_witness :
  Play.paired
    (PlayScreen._on_send_thread Examples.env "go"
       (Sample.screen Sample.two_turns)).2.
Proof.
  apply (proj1 (session_keeps_paired Examples.env
                  (Sample.screen Sample.two_turns) "go" eq_refl)).
  discriminate.
Defined.

Lemma play_on_enter_witness :
  (Play.on_enter Examples.env
     (Sample.screen (Adventure.set_actions ["look"]
                       (Adventure.init (Some "cave") (Some "A cave."))))).1
  = Py.Ret (Some (0, "look")).
Proof.
  exact (proj1 (proj1 (play_on_enter Examples.env
    (Sample.screen (Adventure.set_actions ["look"]
                      (Adventure.init (Some "cave") (Some "A cave.")))))
    "look" eq_refl eq_refl)).
Defined.

Lemma menu_buttons_witness :
  Menu.button_start_new_disabled (Menu.ids (Menu.on_update Examples.menu))
  = false.
Proof.
  exact (proj2 (proj1 (menu_buttons Examples.menu))
           (conj eq_refl (conj eq_refl (conj eq_refl eq_refl)))).
Defined.

Lemma new_game_starts_witness :
  (Play.on_enter Examples.env
     (PlayScreen.set_app (Menu.app (Menu.on_start_new Examples.menu))
        (Sample.screen Sample.two_turns))).1
  = Py.Ret (Some (0, "look")).
Proof.
  exact (proj1 (proj2 (new_game_starts Examples.env Examples.menu
                         (Sample.screen Sample.two_turns) eq_refl eq_refl))).
Defined.

Lemma load_from_menu_witness :
  App.adventure
    (Menu.app
       (Menu.on_start_load
          (Menu.on_game_selected "My Game!! 2"
             (Menu.init_saves Examples.env Examples.scandir
                Examples.menu_saved).2)).2)
  = Sample.two_turns.
Proof.
  refine (proj1 (proj2 (proj2 (proj2 (proj2
    (load_from_menu Examples.env Examples.scandir Examples.menu_saved
       Sample.two_turns "My Game!! 2"
       ["user/adventures/My_Game_2.json"; "user/adventures/notes.txt"]
       eq_refl eq_refl eq_refl _ _)))))).
  - left.
  - intros p Hp Hjson.
    apply elem_of_cons in Hp as [-> | Hp].
    + exists (Some "My Game!! 2"), (Adventure.to_dict Sample.two_turns).
      split; [|done]. split; [reflexivity|].
      exists (Json.Str "My Game!! 2"). split; reflexivity.
    + apply list_elem_of_singleton in Hp as ->. discriminate Hjson.
Defined.

Lemma init_saves_fails_witness :
  (Menu.init_saves Examples.env
     (fun _ => Py.Ret ["user/adventures/My_Game_2.json"])
     (Menu.set_app
        (App.set_files
           {["user/adventures/My_Game_2.json" := {["context" := Json.Null]}]}
           (Sample.app Sample.two_turns))
        Examples.menu)).1
  = Py.Raise (Py.KeyError "name").
Proof.
  refine (proj1 (proj2 (init_saves_fails Examples.env
    (fun _ => Py.Ret ["user/adventures/My_Game_2.json"])
    (Menu.set_app
       (App.set_files
          {["user/adventures/My_Game_2.json" := {["context" := Json.Null]}]}
          (Sample.app Sample.two_turns))
       Examples.menu))
    ["user/adventures/My_Game_2.json"] [] "user/adventures/My_Game_2.json" []
    {["context" := Json.Null]} eq_refl eq_refl _ eq_refl eq_refl)).
  intros p Hp. by apply elem_of_nil in Hp.
Defined.

Lemma init_mods_malformed_witness :
  exists exc s',
    Modules.init_mods Examples.import_module "additional:filters,filters"
      "additional:filters" "additional:filters" Modules.init
    = (Py.Raise exc, s')
    /\ Modules.output_filters s' = [].
Proof.
  destruct (proj1 (init_mods_malformed Examples.import_module
                     "additional:filters,filters" "additional:filters"
                     "additional:filters" Modules.init))
    as (exc & s' & Hrun & Hout & _).
  - exists "filters". split; [right; left | cbn; lia].
  - by exists exc, s'.
Defined.

Lemma init_mods_loads_in_order_witness :
  Modules.input_filters
    (Modules.init_mods Examples.import_module "additional:filters,more:filters"
       "additional:filters" "additional:filters" Modules.init).2
  = [fun s => ("> " ++ s)%string; fun s => ("> " ++ s)%string].
Proof.
  refine (proj1 (proj2
    (init_mods_loads_in_order Examples.import_module
       [("additional", "filters"); ("more", "filters")]
       [("additional", "filters")] ("additional", "filters")
       (fun _ => Examples.filters) (fun _ s => ("> " ++ s)%string)
       (fun _ => Utils.strip) (Py.join " ")
       ltac:(discriminate) ltac:(discriminate) _ _ _ _ eq_refl))).
  - intros dm Hdm. repeat (apply elem_of_cons in Hdm as [-> | Hdm]; [done|]).
    by apply elem_of_nil in Hdm.
  - intros dm Hdm. repeat (apply elem_of_cons in Hdm as [-> | Hdm]; [done|]).
    by apply elem_of_nil in Hdm.
  - done.
  - done.
Defined.

Lemma init_saves_keeps_witness :
  exists new,
    Menu.view_game_data
      (Menu.ids
         (Menu.init_saves Examples.env Examples.scandir
            (Menu.set_savefiles [(Some "Old game", ∅)] Examples.menu_saved)).2)
    = "Old game" :: map Menu.str new.
Proof.
  destruct (proj2 (init_saves_keeps Examples.env Examples.scandir
                     (Menu.set_savefiles [(Some "Old game", ∅)]
                        Examples.menu_saved))
              eq_refl)
    as (new & Hview & _).
  by exists new.
Defined.

Lemma load_after_turn_witness :
  (Play.popup_on_load Examples.env
     (PlayScreen._on_send_thread Examples.env "go"
        (Play.popup_on_save Examples.env
           (Sample.screen Sample.two_turns)).2).2).1
  = Py.Ret tt.
Proof.
  exact (proj1 (proj2 (proj2
    (load_after_turn Examples.env (Sample.screen Sample.two_turns) "go"
       " It is cold. " "My Game!! 2" eq_refl eq_refl eq_refl)))).
Defined.
